(** * spausedd: a shallow embedding of the scheduling-pause detector

    The program (spausedd.c) sleeps in [poll] for a third of a configured
    timeout, measures with the monotonic clock how long it really was away,
    and reports every iteration in which that time exceeds the timeout,
    together with the steal time the host accounted for in between.

    The embedding follows the C source function by function.  Unsigned 64-bit
    values are integers of [Z] reduced with [wrap64] wherever the C
    arithmetic wraps; [double] values are IEEE binary64 numbers, computed with
    the reference operations of [SpecFloat]; what the program reads from its
    environment (the clock, /proc/stat, [sysconf], the guest library, [poll],
    signals) is given to the functions as explicit arguments; what it does
    (log lines, calls of [poll]) is appended to a trace. *)

From Stdlib Require Import ZArith List Bool Ascii String Lia.
From Stdlib Require Import Floats.SpecFloat.
Import ListNotations.
Local Open Scope Z_scope.

(** ** Machine arithmetic *)

(** [uint64_t] arithmetic is arithmetic modulo 2^64. *)
Definition wrap64 (z : Z) : Z := z mod 2 ^ 64.

(** Conversion of an integer to [int] (32 bits, two's complement). *)
Definition wrap_int (z : Z) : Z := (z + 2 ^ 31) mod 2 ^ 32 - 2 ^ 31.

Definition UINT64_MAX : Z := 2 ^ 64 - 1.

(** ** Constants of the source *)

Definition DEFAULT_TIMEOUT : Z := 200.
Definition MAX_TIMEOUT : Z := 1000 * 60 * 60.
Definition DEFAULT_MAX_STEAL_THRESHOLD : Z := 10.
Definition DEFAULT_MAX_STEAL_THRESHOLD_GL : Z := 100.
Definition NO_NS_IN_SEC : Z := 1000000000.
Definition NO_NS_IN_MSEC : Z := 1000000.
Definition NO_MSEC_IN_SEC : Z := 1000.

(** Priorities of <syslog.h>, and the program's own [LOG_TRACE]. *)
Definition LOG_ERR : Z := 3.
Definition LOG_WARNING : Z := 4.
Definition LOG_INFO : Z := 6.
Definition LOG_DEBUG : Z := 7.
Definition LOG_TRACE : Z := LOG_DEBUG + 1.

(** [errno] value of an interrupted system call. *)
Definition EINTR : Z := 4.

Definition VMGUESTLIB_ERROR_SUCCESS : Z := 0.

(** ** Doubles *)

Module Double.

(** IEEE 754 binary64: 53 bits of precision, infinities at exponent 1024. *)
Definition prec : Z := 53.
Definition emax : Z := 1024.

Definition double : Type := spec_float.

(** [(double)z] for an integer [z]: rounded to nearest, ties to even. *)
Definition of_Z (z : Z) : double := binary_normalize prec emax z 0 false.

Definition div (x y : double) : double := SFdiv prec emax x y.
Definition mul (x y : double) : double := SFmul prec emax x y.

(** [x > y]; false as soon as one side is a NaN. *)
Definition gt (x y : double) : bool := SFltb y x.

Definition is_nan (x : double) : bool :=
  match x with S754_nan => true | _ => false end.

Definition is_finite (x : double) : bool :=
  match x with S754_zero _ | S754_finite _ _ _ => true | _ => false end.

(** The sign bit; a NaN counts as unsigned. *)
Definition is_negative (x : double) : bool :=
  match x with
  | S754_zero s | S754_infinity s | S754_finite s _ _ => s
  | S754_nan => false
  end.

Definition pos_infinity : double := S754_infinity false.
Definition nan : double := S754_nan.

End Double.

Abbreviation double := Double.double.

(** ** What the program does: log lines and system calls *)

(** The text of a log line is kept as the format it was printed with and the
    values that were passed for it. *)
Inductive message : Type :=
| MsgClkTckFallback
    (* "Can't get _SC_CLK_TCK, using 100" *)
| MsgKernelStats (user nice system idle iowait irq softirq steal factor res : Z)
    (* "nano_stealtime_get kernel stats: ..." *)
| MsgGuestUpdateFailed (gl_err : Z)
    (* "Can't update stolen time from guestlib: %s" *)
| MsgGuestStolenFailed (gl_err : Z)
    (* "Can't get stolen time from guestlib: %s" *)
| MsgGuestStats (stolen d_stolen used d_used elapsed d_elapsed : Z)
    (* "nano_stealtime_vmguestlib_get stats: ..." *)
| MsgStatistics (tv_diff times : Z)
    (* "During %0.4fs runtime %s was %PRIu64 x not scheduled on time" *)
| MsgRunning (timeout : Z) (threshold : double)
    (* "Running main poll loop with maximum timeout ... and steal threshold ..." *)
| MsgIteration (tv_now tv_max_allowed_diff poll_timeout steal_now : Z)
    (* "now = ..., max_diff = ..., poll_timeout = ..., steal_time = ..." *)
| MsgPollError (errno : Z)
    (* "Poll error (%u): %s" *)
| MsgNotScheduled (tv_diff tv_max_allowed_diff steal_diff : Z) (steal_perc : double)
    (* "Not scheduled for %0.4fs (threshold is %0.4fs), steal time is %0.4fs (%0.2f%%)" *)
| MsgStealHigh (threshold : double)
    (* "Steal time is > %0.1f%%, this is usually because of overloaded host machine" *)
| MsgStopped.
    (* "Main poll loop stopped" *)

Inductive event : Type :=
| EvLog (priority : Z) (msg : message)   (* a call of log_printf *)
| EvPoll (timeout : Z).                  (* a call of poll(NULL, 0, timeout) *)

(** [log_vprintf] prints a line when its priority is more urgent than
    [LOG_DEBUG], or when the debug level asks for it. *)
Definition log_shown (log_debug : Z) (priority : Z) : bool :=
  (priority <? LOG_DEBUG)
  || ((priority =? LOG_DEBUG) && (1 <=? log_debug))
  || ((priority =? LOG_TRACE) && (2 <=? log_debug)).

Definition is_poll (ev : event) : bool :=
  match ev with EvPoll _ => true | _ => false end.

Definition is_statistics (ev : event) : bool :=
  match ev with EvLog _ (MsgStatistics _ _) => true | _ => false end.

Definition is_not_scheduled (ev : event) : bool :=
  match ev with EvLog _ (MsgNotScheduled _ _ _ _) => true | _ => false end.

Definition is_steal_high (ev : event) : bool :=
  match ev with EvLog _ (MsgStealHigh _) => true | _ => false end.

(** The lines the two steal-time sources print. *)
Definition is_steal_source_event (ev : event) : bool :=
  match ev with
  | EvLog _ MsgClkTckFallback
  | EvLog _ (MsgKernelStats _ _ _ _ _ _ _ _ _ _)
  | EvLog _ (MsgGuestUpdateFailed _)
  | EvLog _ (MsgGuestStolenFailed _)
  | EvLog _ (MsgGuestStats _ _ _ _ _ _) => true
  | _ => false
  end.

Definition count_events (p : event -> bool) (t : list event) : nat :=
  List.length (filter p t).

(** ** The monotonic clock *)

Record timespec : Type := { tv_sec : Z; tv_nsec : Z }.

(** [nano_current_get], given what [clock_gettime(CLOCK_MONOTONIC)] stored. *)
Definition nano_current_get (ts : timespec) : Z :=
  wrap64 (wrap64 (tv_sec ts * NO_NS_IN_SEC) + wrap64 (tv_nsec ts)).

(** ** Reading /proc/stat: [fgets] and [sscanf] *)

Module Scan.

Definition newline : ascii := "010"%char.
Definition nul : ascii := "000"%char.

(** [isspace] in the C locale: space, and \t \n \v \f \r. *)
Definition isspace (c : ascii) : bool :=
  let n := nat_of_ascii c in
  Nat.eqb n 32 || (Nat.leb 9 n && Nat.leb n 13).

Definition isdigit (c : ascii) : bool :=
  let n := nat_of_ascii c in
  Nat.leb 48 n && Nat.leb n 57.

Definition digit_val (c : ascii) : Z := Z.of_nat (nat_of_ascii c - 48).

(** The characters [fgets] stores: at most [room] of them, up to and
    including the first newline; and what is left of the file. *)
Fixpoint fgets_chars (room : nat) (f : string) : string * string :=
  match room with
  | O => (EmptyString, f)
  | S room' =>
      match f with
      | EmptyString => (EmptyString, EmptyString)
      | String c f' =>
          if Ascii.eqb c newline then (String c EmptyString, f')
          else let (buf, rest) := fgets_chars room' f' in (String c buf, rest)
      end
  end.

(** [fgets(buf, size, f)]: [None] is the NULL returned at end of file. *)
Definition fgets (size : nat) (f : string) : option (string * string) :=
  match f with
  | EmptyString => None
  | _ => Some (fgets_chars (size - 1) f)
  end.

(** The C string held in a buffer ends before its first NUL character. *)
Fixpoint c_str (buf : string) : string :=
  match buf with
  | EmptyString => EmptyString
  | String c buf' => if Ascii.eqb c nul then EmptyString else String c (c_str buf')
  end.

(** The directives of a [scanf] format, as far as the program uses them:
    an ordinary character, white space, and the conversion [%PRIu64]. *)
Inductive directive : Type := Lit (c : ascii) | Blank | ConvU64.

Fixpoint skip_space (s : string) : string :=
  match s with
  | String c s' => if isspace c then skip_space s' else s
  | EmptyString => s
  end.

Fixpoint scan_digits (acc : Z) (s : string) : Z * string :=
  match s with
  | String c s' =>
      if isdigit c then scan_digits (acc * 10 + digit_val c) s' else (acc, s)
  | EmptyString => (acc, s)
  end.

(** The value [strtoull] gives to a sign and a magnitude: [ULLONG_MAX] when
    the magnitude does not fit, otherwise the magnitude, negated modulo
    2^64 after a minus sign. *)
Definition strtoull_value (neg : bool) (n : Z) : Z :=
  if UINT64_MAX <? n then UINT64_MAX
  else if neg then wrap64 (- n) else n.

Inductive conv_result : Type :=
| ConvOk (v : Z) (rest : string)
| MatchFail      (* the input does not start a number *)
| InputFail.     (* the input ended before the number *)

(** One [%PRIu64] conversion: leading white space is skipped, an optional
    sign is read, then decimal digits, as many as there are. *)
Definition scan_u64 (s : string) : conv_result :=
  match skip_space s with
  | EmptyString => InputFail
  | String c s' =>
      let neg := Ascii.eqb c "-"%char in
      let body := if Ascii.eqb c "-"%char || Ascii.eqb c "+"%char then s' else String c s' in
      match body with
      | String d _ =>
          if isdigit d then
            let (n, rest) := scan_digits 0 body in ConvOk (strtoull_value neg n) rest
          else MatchFail
      | EmptyString => MatchFail
      end
  end.

Definition EOF : Z := -1.

(** What [sscanf] returns when the input ends: [EOF] if nothing was
    converted yet, the number of conversions otherwise. *)
Definition input_failure (done : list Z) : Z * list Z :=
  match done with
  | [] => (EOF, done)
  | _ => (Z.of_nat (List.length done), done)
  end.

(** [sscanf] on format [fmt] and input [s], after the conversions [done]:
    the value returned and the values stored, in order. *)
Fixpoint sscanf_from (fmt : list directive) (s : string) (done : list Z)
  : Z * list Z :=
  match fmt with
  | [] => (Z.of_nat (List.length done), done)
  | Lit c :: fmt' =>
      match s with
      | EmptyString => input_failure done
      | String d s' =>
          if Ascii.eqb d c then sscanf_from fmt' s' done
          else (Z.of_nat (List.length done), done)
      end
  | Blank :: fmt' => sscanf_from fmt' (skip_space s) done
  | ConvU64 :: fmt' =>
      match scan_u64 s with
      | ConvOk v rest => sscanf_from fmt' rest (done ++ [v])
      | MatchFail => (Z.of_nat (List.length done), done)
      | InputFail => input_failure done
      end
  end.

Definition sscanf (fmt : list directive) (s : string) : Z * list Z :=
  sscanf_from fmt (c_str s) [].

(** The format of the source: "cpu %PRIu64 %PRIu64 ... %PRIu64", with
    eight conversions. *)
Definition cpu_format : list directive :=
  [Lit "c"%char; Lit "p"%char; Lit "u"%char; Blank; ConvU64; Blank; ConvU64; Blank; ConvU64;
   Blank; ConvU64; Blank; ConvU64; Blank; ConvU64; Blank; ConvU64;
   Blank; ConvU64].

End Scan.

(** ** Steal time from the kernel *)

(** What [sysconf(_SC_CLK_TCK)] returns: -1 when it fails, otherwise the
    number of clock ticks per second, a positive [long]. *)
Inductive clk_tck_result : Type :=
| ClkTckError
| ClkTck (hz : positive).

Definition sysconf_clk_tck (r : clk_tck_result) : Z :=
  match r with
  | ClkTckError => -1
  | ClkTck hz => Zpos hz
  end.

(** The eight variables [sscanf] stores into.  They are set to 0 before each
    call, so a variable whose conversion did not happen is 0. *)
Record cpu_fields : Type := {
  s_user : Z; s_nice : Z; s_system : Z; s_idle : Z;
  s_iowait : Z; s_irq : Z; s_softirq : Z; s_steal : Z
}.

Definition stored_fields (vals : list Z) : cpu_fields :=
  {| s_user := nth 0 vals 0; s_nice := nth 1 vals 0; s_system := nth 2 vals 0;
     s_idle := nth 3 vals 0; s_iowait := nth 4 vals 0; s_irq := nth 5 vals 0;
     s_softirq := nth 6 vals 0; s_steal := nth 7 vals 0 |}.

(** A line the source calls valid: [sscanf] converted more than four fields. *)
Definition valid_line (buf : string) : bool :=
  fst (Scan.sscanf Scan.cpu_format buf) >? 4.

(** The body of the branch taken at a valid line. *)
Definition kernel_steal_of_line (clk : clk_tck_result) (buf : string)
  : Z * list event :=
  let fields := stored_fields (snd (Scan.sscanf Scan.cpu_format buf)) in
  let clock_tick := sysconf_clk_tck clk in
  let fallback := clock_tick =? -1 in
  let clock_tick := if fallback then 100 else clock_tick in
  let factor := wrap64 (NO_NS_IN_SEC / clock_tick) in
  let res_steal := wrap64 (s_steal fields * factor) in
  (res_steal,
   (if fallback then [EvLog LOG_TRACE MsgClkTckFallback] else [])
   ++ [EvLog LOG_TRACE
         (MsgKernelStats (s_user fields) (s_nice fields) (s_system fields)
            (s_idle fields) (s_iowait fields) (s_irq fields)
            (s_softirq fields) (s_steal fields) factor res_steal)]).

(** The [while (fgets(...) != NULL)] loop.  Every call of [fgets] that does
    not return NULL takes at least one character from the file, so [fuel]
    above the length of the file is never used up. *)
Fixpoint kernel_scan (fuel : nat) (clk : clk_tck_result) (f : string)
  : Z * list event :=
  match fuel with
  | O => (0, [])
  | S fuel' =>
      match Scan.fgets 4096 f with
      | None => (0, [])
      | Some (buf, f') =>
          if valid_line buf then kernel_steal_of_line clk buf
          else kernel_scan fuel' clk f'
      end
  end.

(** What the kernel shows at the time of a sample: the content of /proc/stat
    ([None] when [fopen] fails) and the answer of [sysconf]. *)
Record kernel_env : Type := {
  proc_stat : option string;
  clk_tck : clk_tck_result
}.

Definition nano_stealtime_kernel_get (k : kernel_env) : Z * list event :=
  match proc_stat k with
  | None => (0, [])
  | Some f => kernel_scan (S (String.length f)) (clk_tck k) f
  end.

(** ** Steal time from the VMware guest library *)

(** What the guest library answers at the time of a sample: the error code of
    [VMGuestLib_UpdateInfo], the error code and value of
    [VMGuestLib_GetCpuStolenMs], and the values [VMGuestLib_GetCpuUsedMs] and
    [VMGuestLib_GetElapsedMs] store ([None]: the call fails and the variable
    keeps the 0 it was set to). *)
Record guest_env : Type := {
  gl_update_err : Z;
  gl_stolen_err : Z;
  gl_stolen_ms : Z;
  gl_used_ms : option Z;
  gl_elapsed_ms : option Z
}.

(** The function's static variables, used for its trace line only. *)
Record guest_static : Type := {
  prev_stolen_ms : Z; prev_used_ms : Z; prev_elapsed_ms : Z
}.

Definition guest_static_init : guest_static :=
  {| prev_stolen_ms := 0; prev_used_ms := 0; prev_elapsed_ms := 0 |}.

Definition nano_stealtime_vmguestlib_get (gs : guest_static) (g : guest_env)
  : Z * guest_static * list event :=
  if negb (gl_update_err g =? VMGUESTLIB_ERROR_SUCCESS) then
    (0, gs, [EvLog LOG_WARNING (MsgGuestUpdateFailed (gl_update_err g))])
  else if negb (gl_stolen_err g =? VMGUESTLIB_ERROR_SUCCESS) then
    (0, gs, [EvLog LOG_WARNING (MsgGuestStolenFailed (gl_stolen_err g))])
  else
    let stolen_ms := gl_stolen_ms g in
    let used_ms := match gl_used_ms g with Some v => v | None => 0 end in
    let elapsed_ms := match gl_elapsed_ms g with Some v => v | None => 0 end in
    (wrap64 (NO_NS_IN_MSEC * stolen_ms),
     {| prev_stolen_ms := stolen_ms; prev_used_ms := used_ms;
        prev_elapsed_ms := elapsed_ms |},
     [EvLog LOG_TRACE
        (MsgGuestStats stolen_ms (wrap64 (stolen_ms - prev_stolen_ms gs))
           used_ms (wrap64 (used_ms - prev_used_ms gs))
           elapsed_ms (wrap64 (elapsed_ms - prev_elapsed_ms gs)))]).

(** ** Configuration and environment of the main loop *)

(** The globals the loop only reads.  [use_vmguestlib_stealtime] is false in
    a build without HAVE_VMGUESTLIB. *)
Record config : Type := {
  max_steal_threshold : double;
  use_vmguestlib_stealtime : bool
}.

(** What one call of [nano_stealtime_get] finds. *)
Record steal_env : Type := {
  kernel : kernel_env;
  guest : guest_env
}.

Definition nano_stealtime_get (cfg : config) (gs : guest_static) (e : steal_env)
  : Z * guest_static * list event :=
  if use_vmguestlib_stealtime cfg then nano_stealtime_vmguestlib_get gs (guest e)
  else let (res, evs) := nano_stealtime_kernel_get (kernel e) in (res, gs, evs).

Inductive signal : Type := SIGINT | SIGTERM | SIGUSR1.

(** What happens around the program during one iteration of the loop, in the
    order in which the iteration meets it. *)
Record iter_env : Type := {
  env_steal_prev : steal_env;      (* found by the first nano_stealtime_get *)
  env_clock_prev : timespec;       (* read by the first nano_current_get *)
  env_sig_enter : list signal;     (* signals handled after the loop test and
                                      before display_statistics is read *)
  env_clock_stat : timespec;       (* read by print_statistics, when called *)
  env_sig_print : list signal;     (* signals handled right after
                                      display_statistics is read: while
                                      print_statistics runs, when it does *)
  env_sig_wait : list signal;      (* signals handled from then on, up to
                                      the next loop test *)
  env_poll_res : Z;                (* what poll returns *)
  env_errno : Z;                   (* errno after poll *)
  env_clock_now : timespec;        (* read by the second nano_current_get *)
  env_steal_now : steal_env        (* found by the second nano_stealtime_get *)
}.

(** ** State of the program inside [poll_run] *)

Record state : Type := {
  (* globals *)
  times_not_scheduled : Z;
  stop_main_loop : Z;
  display_statistics : Z;
  (* static variables of nano_stealtime_vmguestlib_get *)
  guest_prev : guest_static;
  (* locals of poll_run *)
  tv_now : Z;
  tv_prev : Z;
  tv_diff : Z;
  tv_max_allowed_diff : Z;
  tv_start : Z;
  steal_now : Z;
  steal_prev : Z;
  steal_diff : Z;
  poll_res : Z;
  poll_timeout : Z;
  steal_perc : double;
  (* what the program has done so far *)
  trace : list event
}.

(** ** Signal handlers *)

Definition signal_int_handler (st : state) : state :=
  {| times_not_scheduled := times_not_scheduled st;
     stop_main_loop := 1;
     display_statistics := display_statistics st;
     guest_prev := guest_prev st;
     tv_now := tv_now st; tv_prev := tv_prev st; tv_diff := tv_diff st;
     tv_max_allowed_diff := tv_max_allowed_diff st; tv_start := tv_start st;
     steal_now := steal_now st; steal_prev := steal_prev st;
     steal_diff := steal_diff st; poll_res := poll_res st;
     poll_timeout := poll_timeout st; steal_perc := steal_perc st;
     trace := trace st |}.

Definition set_display_statistics (v : Z) (st : state) : state :=
  {| times_not_scheduled := times_not_scheduled st;
     stop_main_loop := stop_main_loop st;
     display_statistics := v;
     guest_prev := guest_prev st;
     tv_now := tv_now st; tv_prev := tv_prev st; tv_diff := tv_diff st;
     tv_max_allowed_diff := tv_max_allowed_diff st; tv_start := tv_start st;
     steal_now := steal_now st; steal_prev := steal_prev st;
     steal_diff := steal_diff st; poll_res := poll_res st;
     poll_timeout := poll_timeout st; steal_perc := steal_perc st;
     trace := trace st |}.

Definition signal_usr1_handler (st : state) : state :=
  set_display_statistics 1 st.

(** [signal_handlers_register]: SIGINT and SIGTERM stop the loop, SIGUSR1
    asks for the statistics. *)
Definition handle_signal (st : state) (sig : signal) : state :=
  match sig with
  | SIGINT | SIGTERM => signal_int_handler st
  | SIGUSR1 => signal_usr1_handler st
  end.

Definition handle_signals (sigs : list signal) (st : state) : state :=
  fold_left handle_signal sigs st.

Definition is_stop_signal (sig : signal) : bool :=
  match sig with SIGINT | SIGTERM => true | SIGUSR1 => false end.

(** ** The main loop *)

Definition emit (evs : list event) (st : state) : state :=
  {| times_not_scheduled := times_not_scheduled st;
     stop_main_loop := stop_main_loop st;
     display_statistics := display_statistics st;
     guest_prev := guest_prev st;
     tv_now := tv_now st; tv_prev := tv_prev st; tv_diff := tv_diff st;
     tv_max_allowed_diff := tv_max_allowed_diff st; tv_start := tv_start st;
     steal_now := steal_now st; steal_prev := steal_prev st;
     steal_diff := steal_diff st; poll_res := poll_res st;
     poll_timeout := poll_timeout st; steal_perc := steal_perc st;
     trace := trace st ++ evs |}.

(** [print_statistics(tv_start)], with the clock it reads. *)
Definition print_statistics (clock : timespec) (st : state) : state :=
  let tv_now := nano_current_get clock in
  let tv_diff := wrap64 (tv_now - tv_start st) in
  emit [EvLog LOG_INFO (MsgStatistics tv_diff (times_not_scheduled st))] st.

(** [((double)steal_diff / tv_diff) * (double)100] *)
Definition steal_percent (steal_diff tv_diff : Z) : double :=
  Double.mul (Double.div (Double.of_Z steal_diff) (Double.of_Z tv_diff))
             (Double.of_Z 100).

(** The loop body is given step by step, in the order of the source. *)

(** [steal_prev = steal_now = nano_stealtime_get();
     tv_prev = tv_now = nano_current_get();] *)
Definition sample_before (cfg : config) (e : iter_env) (st : state) : state :=
  let '(steal, gs, evs) := nano_stealtime_get cfg (guest_prev st) (env_steal_prev e) in
  let tv := nano_current_get (env_clock_prev e) in
  {| times_not_scheduled := times_not_scheduled st;
     stop_main_loop := stop_main_loop st;
     display_statistics := display_statistics st;
     guest_prev := gs;
     tv_now := tv; tv_prev := tv; tv_diff := tv_diff st;
     tv_max_allowed_diff := tv_max_allowed_diff st; tv_start := tv_start st;
     steal_now := steal; steal_prev := steal;
     steal_diff := steal_diff st; poll_res := poll_res st;
     poll_timeout := poll_timeout st; steal_perc := steal_perc st;
     trace := trace st ++ evs |}.

(** [if (display_statistics) { print_statistics(tv_start);
     display_statistics = 0; }] *)
Definition show_statistics (e : iter_env) (st : state) : state :=
  if negb (display_statistics st =? 0) then
    set_display_statistics 0
      (handle_signals (env_sig_print e) (print_statistics (env_clock_stat e) st))
  else handle_signals (env_sig_print e) st.

(** The debug line of the iteration. *)
Definition log_iteration (st : state) : state :=
  emit [EvLog LOG_DEBUG
          (MsgIteration (tv_now st) (tv_max_allowed_diff st) (poll_timeout st)
             (steal_now st))] st.

(** [if (poll_timeout < 0) poll_timeout = 0;
     poll_res = poll(NULL, 0, poll_timeout);] *)
Definition call_poll (e : iter_env) (st : state) : state :=
  let timeout := if poll_timeout st <? 0 then 0 else poll_timeout st in
  {| times_not_scheduled := times_not_scheduled st;
     stop_main_loop := stop_main_loop st;
     display_statistics := display_statistics st;
     guest_prev := guest_prev st;
     tv_now := tv_now st; tv_prev := tv_prev st; tv_diff := tv_diff st;
     tv_max_allowed_diff := tv_max_allowed_diff st; tv_start := tv_start st;
     steal_now := steal_now st; steal_prev := steal_prev st;
     steal_diff := steal_diff st; poll_res := env_poll_res e;
     poll_timeout := timeout; steal_perc := steal_perc st;
     trace := trace st ++ [EvPoll timeout] |}.

(** The first half of the loop body, up to the return of [poll]. *)
Definition poll_iter_enter (cfg : config) (e : iter_env) (st : state) : state :=
  handle_signals (env_sig_wait e)
    (call_poll e
       (log_iteration
          (show_statistics e
             (handle_signals (env_sig_enter e) (sample_before cfg e st))))).

(** The second half: the two samples taken after the wait, and the verdict. *)
Definition poll_iter_measure (cfg : config) (e : iter_env) (st : state) : state :=
  let now := nano_current_get (env_clock_now e) in
  let diff := wrap64 (now - tv_prev st) in
  let '(steal, gs, evs) := nano_stealtime_get cfg (guest_prev st) (env_steal_now e) in
  let sdiff := wrap64 (steal - steal_prev st) in
  let perc := steal_percent sdiff diff in
  let overrun := diff >? tv_max_allowed_diff st in
  {| times_not_scheduled :=
       if overrun then wrap64 (times_not_scheduled st + 1)
       else times_not_scheduled st;
     stop_main_loop := stop_main_loop st;
     display_statistics := display_statistics st;
     guest_prev := gs;
     tv_now := now; tv_prev := tv_prev st; tv_diff := diff;
     tv_max_allowed_diff := tv_max_allowed_diff st; tv_start := tv_start st;
     steal_now := steal; steal_prev := steal_prev st;
     steal_diff := sdiff; poll_res := poll_res st;
     poll_timeout := poll_timeout st; steal_perc := perc;
     trace :=
       trace st ++ evs ++
       (if overrun then
          EvLog LOG_ERR (MsgNotScheduled diff (tv_max_allowed_diff st) sdiff perc)
          :: (if Double.gt perc (max_steal_threshold cfg)
              then [EvLog LOG_WARNING (MsgStealHigh (max_steal_threshold cfg))]
              else [])
        else []) |}.

(** How one iteration ends: the loop goes on, or the process exits. *)
Inductive iter_result : Type :=
| Continue (st : state)
| Exit (code : Z) (st : state).

(** One iteration of [while (!stop_main_loop) { ... }]. *)
Definition poll_iter (cfg : config) (e : iter_env) (st : state) : iter_result :=
  let st := poll_iter_enter cfg e st in
  if (poll_res st =? -1) && negb (env_errno e =? EINTR) then
    Exit 2 (emit [EvLog LOG_ERR (MsgPollError (env_errno e))] st)
  else Continue (poll_iter_measure cfg e st).

(** What follows the loop: one line, and the statistics. *)
Definition poll_run_finish (clock : timespec) (st : state) : state :=
  print_statistics clock (emit [EvLog LOG_INFO MsgStopped] st).

(** How a run over a finite part of the future ends. *)
Inductive run_result : Type :=
| Stopped (st : state)             (* the loop was left, poll_run returned *)
| Exited (code : Z) (st : state)   (* exit was called *)
| Running (st : state).            (* still in the loop after all of [envs] *)

(** The loop over the iterations the environment provides; [clock_stop] is
    the clock read by the final [print_statistics]. *)
Fixpoint poll_loop (cfg : config) (clock_stop : timespec)
    (envs : list iter_env) (st : state) : run_result :=
  if negb (stop_main_loop st =? 0) then Stopped (poll_run_finish clock_stop st)
  else
    match envs with
    | [] => Running st
    | e :: envs' =>
        match poll_iter cfg e st with
        | Continue st' => poll_loop cfg clock_stop envs' st'
        | Exit code st' => Exited code st'
        end
    end.

(** The globals [poll_run] finds when it is called. *)
Record globals : Type := {
  g_times_not_scheduled : Z;
  g_stop_main_loop : Z;
  g_display_statistics : Z
}.

(** The globals as the program text initialises them. *)
Definition globals_init : globals :=
  {| g_times_not_scheduled := 0; g_stop_main_loop := 0;
     g_display_statistics := 0 |}.

(** The state at the first loop test.  The locals the C code leaves
    uninitialised are given the value 0: each of them is written in the loop
    body before it is read. *)
Definition poll_run_init (cfg : config) (g : globals) (timeout : Z)
    (clock_start : timespec) : state :=
  {| times_not_scheduled := g_times_not_scheduled g;
     stop_main_loop := g_stop_main_loop g;
     display_statistics := g_display_statistics g;
     guest_prev := guest_static_init;
     tv_now := 0; tv_prev := 0; tv_diff := 0;
     tv_max_allowed_diff := wrap64 (timeout * NO_NS_IN_MSEC);
     tv_start := nano_current_get clock_start;
     steal_now := 0; steal_prev := 0; steal_diff := 0;
     poll_res := 0;
     poll_timeout := wrap_int (timeout / 3);
     steal_perc := Double.of_Z 0;
     trace := [EvLog LOG_INFO (MsgRunning timeout (max_steal_threshold cfg))] |}.

(** [poll_run(timeout)] *)
Definition poll_run (cfg : config) (g : globals) (timeout : Z)
    (clock_start clock_stop : timespec) (envs : list iter_env) : run_result :=
  poll_loop cfg clock_stop envs (poll_run_init cfg g timeout clock_start).

(** ** Notions the statements below are written with *)

(** What a run leaves behind, however it ended. *)
Definition final_state (r : run_result) : state :=
  match r with
  | Stopped st | Exited _ st | Running st => st
  end.

(** The events a step added to the trace, between [st] and [st']. *)
Definition new_events (st st' : state) : list event :=
  skipn (List.length (trace st)) (trace st').

(** The signals handled during an iteration. *)
Definition signals_of (e : iter_env) : list signal :=
  env_sig_enter e ++ env_sig_print e ++ env_sig_wait e.

Definition stop_delivered (e : iter_env) : bool :=
  existsb is_stop_signal (signals_of e).

(** A wait that fails for a reason other than an interruption. *)
Definition poll_fatal (e : iter_env) : bool :=
  (env_poll_res e =? -1) && negb (env_errno e =? EINTR).

(** The same surroundings, with another outcome of [poll]. *)
Definition with_poll (res errno : Z) (e : iter_env) : iter_env :=
  {| env_steal_prev := env_steal_prev e; env_clock_prev := env_clock_prev e;
     env_sig_enter := env_sig_enter e; env_clock_stat := env_clock_stat e;
     env_sig_print := env_sig_print e; env_sig_wait := env_sig_wait e;
     env_poll_res := res; env_errno := errno;
     env_clock_now := env_clock_now e; env_steal_now := env_steal_now e |}.

(** [first_valid_line f buf]: reading [f] with [fgets], [buf] is the first
    buffer that holds a valid line. *)
Inductive first_valid_line : string -> string -> Prop :=
| fvl_here (f buf rest : string) :
    Scan.fgets 4096 f = Some (buf, rest) ->
    valid_line buf = true ->
    first_valid_line f buf
| fvl_later (f skipped rest buf : string) :
    Scan.fgets 4096 f = Some (skipped, rest) ->
    valid_line skipped = false ->
    first_valid_line rest buf ->
    first_valid_line f buf.

(** [no_valid_line f]: no buffer [fgets] reads from [f] holds a valid line. *)
Inductive no_valid_line : string -> Prop :=
| nvl_eof : no_valid_line EmptyString
| nvl_skip (f skipped rest : string) :
    Scan.fgets 4096 f = Some (skipped, rest) ->
    valid_line skipped = false ->
    no_valid_line rest ->
    no_valid_line f.

(** The clock frequency the conversion uses: 100 when [sysconf] fails. *)
Definition effective_hz (clk : clk_tck_result) : Z :=
  match clk with
  | ClkTckError => 100
  | ClkTck hz => Zpos hz
  end.


(** The statistics line of an iteration that was asked for it. *)
Definition stat_event (e : iter_env) (st : state) : event :=
  EvLog LOG_INFO
    (MsgStatistics (wrap64 (nano_current_get (env_clock_stat e) - tv_start st))
       (times_not_scheduled st)).

(** The events of the first half of an iteration. *)
Definition enter_events (cfg : config) (e : iter_env) (st : state) : list event :=
  let sb := handle_signals (env_sig_enter e) (sample_before cfg e st) in
  snd (nano_stealtime_get cfg (guest_prev st) (env_steal_prev e))
  ++ (if negb (display_statistics sb =? 0) then [stat_event e st] else [])
  ++ [EvLog LOG_DEBUG
        (MsgIteration (nano_current_get (env_clock_prev e)) (tv_max_allowed_diff st)
           (poll_timeout st)
           (fst (fst (nano_stealtime_get cfg (guest_prev st) (env_steal_prev e)))));
      EvPoll (Z.max 0 (poll_timeout st))].

(** The events of the second half of an iteration, entered in state [st1]. *)
Definition measure_events (cfg : config) (e : iter_env) (st1 : state) : list event :=
  let diff := wrap64 (nano_current_get (env_clock_now e) - tv_prev st1) in
  let r := nano_stealtime_get cfg (guest_prev st1) (env_steal_now e) in
  let sdiff := wrap64 (fst (fst r) - steal_prev st1) in
  let perc := steal_percent sdiff diff in
  snd r ++
  (if diff >? tv_max_allowed_diff st1 then
     EvLog LOG_ERR (MsgNotScheduled diff (tv_max_allowed_diff st1) sdiff perc)
     :: (if Double.gt perc (max_steal_threshold cfg)
         then [EvLog LOG_WARNING (MsgStealHigh (max_steal_threshold cfg))]
         else [])
   else []).

(** The two lines [poll_run] ends with. *)
Definition finish_events (clock : timespec) (st : state) : list event :=
  [EvLog LOG_INFO MsgStopped;
   EvLog LOG_INFO
     (MsgStatistics (wrap64 (nano_current_get clock - tv_start st))
        (times_not_scheduled st))].

(** The timeouts [poll] was called with, in order. *)
Definition poll_args (t : list event) : list Z :=
  flat_map (fun ev => match ev with EvPoll a => [a] | _ => [] end) t.

(** The same state, with another value in the local [poll_res]. *)
Definition set_poll_res (v : Z) (st : state) : state :=
  {| times_not_scheduled := times_not_scheduled st;
     stop_main_loop := stop_main_loop st;
     display_statistics := display_statistics st;
     guest_prev := guest_prev st;
     tv_now := tv_now st; tv_prev := tv_prev st; tv_diff := tv_diff st;
     tv_max_allowed_diff := tv_max_allowed_diff st; tv_start := tv_start st;
     steal_now := steal_now st; steal_prev := steal_prev st;
     steal_diff := steal_diff st; poll_res := v;
     poll_timeout := poll_timeout st; steal_perc := steal_perc st;
     trace := trace st |}.


(** ** Lines written out digit by digit *)

Definition end_of_line : string := String Scan.newline EmptyString.

(** The character of the decimal digit [d]. *)
Definition digit_char (d : nat) : ascii := ascii_of_nat (48 + d).

(** A field of a line, given by its decimal digits, first digit first: its
    text and its value. *)
Definition digits_text (ds : list nat) : string :=
  fold_right (fun d s => String (digit_char d) s) EmptyString ds.

Definition digits_value (ds : list nat) : Z :=
  fold_left (fun a d => a * 10 + Z.of_nat d) ds 0.

(** A field has one decimal digit at least. *)
Definition decimal_field (ds : list nat) : Prop :=
  ds <> [] /\ Forall (fun d => (d < 10)%nat) ds.

(** The fields, a space before each, and then [tail]. *)
Definition fields_text (fields : list (list nat)) (tail : string) : string :=
  fold_right (fun ds s => String " "%char (digits_text ds ++ s)%string) tail fields.

(** The line "cpu f1 f2 ... fk" with its newline. *)
Definition cpu_line (fields : list (list nat)) : string :=
  ("cpu" ++ fields_text fields end_of_line)%string.

(** What [sscanf] stores for a field. *)
Definition field_value (ds : list nat) : Z :=
  Scan.strtoull_value false (digits_value ds).

(** A string that does not go on with a digit. *)
Definition stops_digits (s : string) : Prop :=
  match s with
  | EmptyString => True
  | String c _ => Scan.isdigit c = false
  end.

(** A character that is neither a newline nor a NUL. *)
Definition plain_char (c : ascii) : Prop :=
  Ascii.eqb c Scan.newline = false /\ Ascii.eqb c Scan.nul = false.

(** [n] times " %PRIu64". *)
Fixpoint conversions (n : nat) : list Scan.directive :=
  match n with
  | O => []
  | S n' => Scan.Blank :: Scan.ConvU64 :: conversions n'
  end.

(** ** Sample inputs *)

Module Sample.

Definition cfg : config :=
  {| max_steal_threshold := Double.of_Z DEFAULT_MAX_STEAL_THRESHOLD;
     use_vmguestlib_stealtime := false |}.

Definition cfg_guest : config :=
  {| max_steal_threshold := Double.of_Z DEFAULT_MAX_STEAL_THRESHOLD_GL;
     use_vmguestlib_stealtime := true |}.

(** The clock at [n] nanoseconds. *)
Definition clock (n : Z) : timespec :=
  {| tv_sec := n / NO_NS_IN_SEC; tv_nsec := n mod NO_NS_IN_SEC |}.

(** Contents of /proc/stat. *)
Definition proc_stat_line : string := "cpu 100 5 50 800 2 1 3 40" ++ end_of_line.
Definition proc_stat_41 : string := "cpu 100 5 50 800 2 1 3 41" ++ end_of_line.
Definition proc_stat_short : string :=
  "cpu 100 5 50 800 2" ++ end_of_line ++ "cpu 7 7 7 7 7 7 7 99" ++ end_of_line.
Definition proc_stat_per_cpu : string := "cpu0 1 2 3 4 5 6 7 8" ++ end_of_line.

Definition kernel_of (f : option string) : kernel_env :=
  {| proc_stat := f; clk_tck := ClkTck 100 |}.

Definition guest_ok (stolen_ms : Z) : guest_env :=
  {| gl_update_err := VMGUESTLIB_ERROR_SUCCESS;
     gl_stolen_err := VMGUESTLIB_ERROR_SUCCESS;
     gl_stolen_ms := stolen_ms; gl_used_ms := Some 0; gl_elapsed_ms := Some 0 |}.

Definition guest_failing : guest_env :=
  {| gl_update_err := 1; gl_stolen_err := VMGUESTLIB_ERROR_SUCCESS;
     gl_stolen_ms := 0; gl_used_ms := None; gl_elapsed_ms := None |}.

Definition steal_of (f : option string) (g : guest_env) : steal_env :=
  {| kernel := kernel_of f; guest := g |}.

(** An iteration from [t0] to [t1] nanoseconds, with the given sources of
    steal time before and after, signals during the wait, and outcome of
    poll. *)
Definition iteration (s0 s1 : steal_env) (t0 t1 : Z) (sigs : list signal)
    (res errno : Z) : iter_env :=
  {| env_steal_prev := s0; env_clock_prev := clock t0;
     env_sig_enter := []; env_clock_stat := clock t0;
     env_sig_print := []; env_sig_wait := sigs;
     env_poll_res := res; env_errno := errno;
     env_clock_now := clock t1; env_steal_now := s1 |}.

Definition quiet : steal_env := steal_of (Some proc_stat_line) (guest_ok 0).

(** The state at the first loop test, for the default timeout. *)
Definition start (c : config) : state :=
  poll_run_init c globals_init DEFAULT_TIMEOUT (clock 1000000000).

Definition after (r : iter_result) : state :=
  match r with Continue st | Exit _ st => st end.

(** 66 ms asked for, 250 ms gone: an overrun. *)
Definition late : iter_env := iteration quiet quiet 1000000000 1250000000 [] 0 0.
(** 66 ms asked for, 66 ms gone. *)
Definition on_time : iter_env := iteration quiet quiet 2000000000 2066000000 [] 0 0.
(** A wait cut short by SIGTERM. *)
Definition interrupted : iter_env :=
  iteration quiet quiet 3000000000 3010000000 [SIGTERM] (-1) EINTR.
(** A wait that fails with ENOMEM. *)
Definition failing : iter_env :=
  iteration quiet quiet 3000000000 3010000000 [] (-1) 12.
(** The clock did not move, and the steal counter went from 40 to 41 ticks. *)
Definition no_time : iter_env :=
  iteration quiet (steal_of (Some proc_stat_41) (guest_ok 0))
    4000000000 4000000000 [] 0 0.
(** The guest library fails after the wait: 5 ms of stolen time, then 0. *)
Definition guest_lost : iter_env :=
  iteration (steal_of None (guest_ok 5)) (steal_of None guest_failing)
    5000000000 5066000000 [] 0 0.

End Sample.

(** ** Numbers on the command line: [strtoll] and [util_strtonum] *)

Definition LLONG_MAX : Z := 2 ^ 63 - 1.
Definition LLONG_MIN : Z := - 2 ^ 63.
Definition UINT32_MAX : Z := 2 ^ 32 - 1.

(** [errno] value of a result out of range. *)
Definition ERANGE : Z := 34.

(** What [strtoll(str, &ep, 10)] leaves behind: the value it returns, the
    string [ep] points to ([None] when [ep] is [str] itself: no number was
    found), and [errno], which was 0 before the call. *)
Record strtoll_result : Type := {
  ll_value : Z;
  ll_end : option string;
  ll_errno : Z
}.

(** Leading white space is skipped, an optional sign is read, then decimal
    digits, as many as there are; a number that does not fit [long long] is
    replaced by the nearest bound, with [ERANGE]. *)
Definition strtoll (str : string) : strtoll_result :=
  let nothing := {| ll_value := 0; ll_end := None; ll_errno := 0 |} in
  match Scan.skip_space str with
  | EmptyString => nothing
  | String c s' =>
      let neg := Ascii.eqb c "-"%char in
      let body := if Ascii.eqb c "-"%char || Ascii.eqb c "+"%char then s' else String c s' in
      match body with
      | String d _ =>
          if Scan.isdigit d then
            let (n, rest) := Scan.scan_digits 0 body in
            let v := if neg then - n else n in
            if v >? LLONG_MAX then
              {| ll_value := LLONG_MAX; ll_end := Some rest; ll_errno := ERANGE |}
            else if v <? LLONG_MIN then
              {| ll_value := LLONG_MIN; ll_end := Some rest; ll_errno := ERANGE |}
            else {| ll_value := v; ll_end := Some rest; ll_errno := 0 |}
          else nothing
      | EmptyString => nothing
      end
  end.

(** [util_strtonum(str, min_val, max_val, &res)]: [Some v] when it returns 0
    and stores [v], [None] when it returns -1. *)
Definition util_strtonum (str : string) (min_val max_val : Z) : option Z :=
  if min_val >? max_val then None
  else
    let r := strtoll (Scan.c_str str) in
    match ll_end r with
    | None => None                              (* ep == str *)
    | Some rest =>
        if negb (String.eqb rest EmptyString)   (* *ep != '\0' *)
           || negb (ll_errno r =? 0) then None
        else if (ll_value r <? min_val) || (ll_value r >? max_val) then None
        else Some (ll_value r)
    end.

(** ** Comparing without case: [strcasecmp] *)

(** [tolower] in the C locale. *)
Definition tolower (c : ascii) : ascii :=
  let n := nat_of_ascii c in
  if Nat.leb 65 n && Nat.leb n 90 then ascii_of_nat (n + 32) else c.

(** The two strings are compared character by character, in lower case; the
    result is the difference of the first two characters that differ, the
    end of a string counting as the character 0. *)
Fixpoint strcasecmp_from (a b : string) : Z :=
  match a, b with
  | EmptyString, EmptyString => 0
  | EmptyString, String d _ => - Z.of_nat (nat_of_ascii (tolower d))
  | String c _, EmptyString => Z.of_nat (nat_of_ascii (tolower c))
  | String c a', String d b' =>
      let r := Z.of_nat (nat_of_ascii (tolower c)) - Z.of_nat (nat_of_ascii (tolower d)) in
      if r =? 0 then strcasecmp_from a' b' else r
  end.

Definition strcasecmp (a b : string) : Z :=
  strcasecmp_from (Scan.c_str a) (Scan.c_str b).

(** ** Logging *)

Definition PROGRAM_NAME : string := "spausedd".

Definition log_month_str : list string :=
  ["Jan"; "Feb"; "Mar"; "Apr"; "May"; "Jun";
   "Jul"; "Aug"; "Sep"; "Oct"; "Nov"; "Dec"]%string.

(** The three globals of the logging functions. *)
Record log_globals : Type := {
  log_debug : Z;
  log_to_syslog : Z;
  log_to_stderr : Z
}.

(** The fields of the [struct tm] that [localtime_r] fills in and the
    function prints. *)
Record tm : Type := {
  tm_mon : Z; tm_mday : Z; tm_hour : Z; tm_min : Z; tm_sec : Z
}.

(** What a call of [log_vprintf] writes: a line on stderr, made of the time,
    the name of the program and the message, and a record for syslog. *)
Inductive output (M : Type) : Type :=
| OutStderr (month : string) (mday hour min sec : Z) (program : string) (msg : M)
| OutSyslog (priority : Z) (msg : M).

Arguments OutStderr {M} month mday hour min sec program msg.
Arguments OutSyslog {M} priority msg.

(** [log_vprintf(priority, format, ap)], with the time it reads; [msg] stands
    for the format and its arguments. *)
Definition log_vprintf {M : Type} (lg : log_globals) (now : tm) (priority : Z) (msg : M)
  : list (output M) :=
  if (priority <? LOG_DEBUG)
     || ((priority =? LOG_DEBUG) && (log_debug lg >=? 1))
     || ((priority =? LOG_TRACE) && (log_debug lg >=? 2))
  then
    (if negb (log_to_stderr lg =? 0) then
       [OutStderr (nth (Z.to_nat (tm_mon now)) log_month_str EmptyString)
          (tm_mday now) (tm_hour now) (tm_min now) (tm_sec now) PROGRAM_NAME msg]
     else [])
    ++ (if negb (log_to_syslog lg =? 0) then
          [OutSyslog (if priority >? LOG_INFO then LOG_INFO else priority) msg]
        else [])
  else [].

(** ** Starting up *)

(** The lines the functions called by [main] log. *)
Inductive notice : Type :=
| MsgMemlockLimit
    (* "Could not increase RLIMIT_MEMLOCK, not locking memory" *)
| MsgMlockall
    (* "Could not mlockall" *)
| MsgSchedMaxPriority (errno : Z)
    (* "Can't get maximum SCHED_RR priority (%u): %s" *)
| MsgSchedSet (errno : Z)
    (* "Can't set SCHED_RR (%u): %s" *)
| MsgSchedPlatform
    (* "Platform without sched_get_priority_min" *)
| MsgCgroupNone
    (* "cpu.rt_runtime_us or cgroup.procs doesn't exist -> system without cgroup
       or with disabled CONFIG_RT_GROUP_SCHED" *)
| MsgCgroupV2
    (* "Moving main pid to cgroup v2 root cgroup" *)
| MsgCgroupV1
    (* "Moving main pid to cgroup v1 root cgroup" *)
| MsgCgroupOpen
    (* "Can't open cgroups tasks file for writing" *)
| MsgCgroupWrite
    (* "Can't write spausedd pid into cgroups tasks file" *)
| MsgCgroupClose
    (* "Can't close cgroups tasks file" *)
| MsgGuestOpenFailed (gl_err : Z)
    (* "Can't open guestlib handle: %s" *)
| MsgGuestUsing
    (* "Using VMGuestLib" *)
| MsgGuestCloseFailed (gl_err : Z).
    (* "Can't close guestlib handle: %s" *)

(** The lines [err] and [errx] print before the process exits. *)
Inductive complaint : Type :=
| ErrFork (errno : Z)             (* "Can't create child process" *)
| ErrDevNull (errno : Z)          (* "Can't open /dev/null" *)
| ErrDup2 (errno : Z)             (* "Can't dup2 stdin/out/err to /dev/null" *)
| ErrStealThreshold (arg : string)  (* "Steal percent threshold %s is invalid" *)
| ErrTimeout (arg : string)         (* "Timeout %s is invalid" *)
| ErrCgroupMode (arg : string)      (* "Move to root cgroup mode %s is invalid" *)
| ErrUnhandled (ch : ascii).        (* "Unhandled option %c" *)

(** What the program does outside of the main loop, call by call. *)
Inductive action : Type :=
| ActLog (priority : Z) (msg : notice)          (* log_printf, log_perror *)
| ActLoop (ev : event)                          (* what poll_run does *)
| ActErr (msg : complaint)                      (* err, errx *)
| ActUsage                                      (* usage: the help text *)
| ActSetrlimit                                  (* setrlimit(RLIMIT_MEMLOCK, infinity) *)
| ActMlockall                                   (* mlockall(MCL_CURRENT | MCL_FUTURE) *)
| ActFork
| ActSetsid
| ActOpenDevNull                                (* open("/dev/null", O_RDWR) *)
| ActDup2 (newfd : Z)                           (* dup2(devnull, newfd) *)
| ActCloseDevNull
| ActOpenlog
| ActCloselog
| ActSchedGetPriorityMax                        (* sched_get_priority_max(SCHED_RR) *)
| ActSchedSetscheduler (priority : Z)           (* sched_setscheduler(0, SCHED_RR, ...) *)
| ActFopen (path mode : string) (opened : bool) (* fopen, and whether it gave a stream *)
| ActWritePid (path : string) (pid : Z)         (* fprintf(f, "%jd\n", pid) *)
| ActFclose (path : string)
| ActSigaction (sig : signal) (handler : state -> state)
| ActGuestOpen                                  (* VMGuestLib_OpenHandle *)
| ActGuestClose.                                (* VMGuestLib_CloseHandle *)

(** How a part of the program ends: it returns a value, it calls [exit], or
    it is still in the main loop where the known future ends.  In each case
    with what it did until then. *)
Inductive outcome (A : Type) : Type :=
| Done (a : A) (acts : list action)
| Halt (code : Z) (acts : list action)
| Pending (acts : list action).

Arguments Done {A} a acts.
Arguments Halt {A} code acts.
Arguments Pending {A} acts.

Definition bind {A B : Type} (m : outcome A) (k : A -> outcome B) : outcome B :=
  match m with
  | Done a acts =>
      match k a with
      | Done b acts' => Done b (acts ++ acts')
      | Halt code acts' => Halt code (acts ++ acts')
      | Pending acts' => Pending (acts ++ acts')
      end
  | Halt code acts => Halt code acts
  | Pending acts => Pending acts
  end.

Declare Scope outcome_scope.
Delimit Scope outcome_scope with outcome.

Notation "x <- m ;; k" := (bind m (fun x => k))
  (at level 61, m at next level, right associativity) : outcome_scope.
Notation "m ;;; k" := (bind m (fun _ => k))
  (at level 61, right associativity) : outcome_scope.

(** To do [acts] and go on. *)
Definition perform (acts : list action) : outcome unit := Done tt acts.

Definition actions {A : Type} (m : outcome A) : list action :=
  match m with
  | Done _ acts | Halt _ acts | Pending acts => acts
  end.

(** *** [utils_mlockall] *)

(** What [setrlimit] and [mlockall] return. *)
Record mlock_env : Type := {
  env_setrlimit : Z;
  env_mlockall : Z
}.

Definition utils_mlockall (e : mlock_env) : list action :=
  if env_setrlimit e =? -1 then
    [ActSetrlimit; ActLog LOG_WARNING MsgMemlockLimit]
  else
    [ActSetrlimit; ActMlockall]
    ++ (if env_mlockall e =? -1 then [ActLog LOG_WARNING MsgMlockall] else []).

(** *** [utils_tty_detach] *)

(** What [fork], [open] and the three calls of [dup2] return, and the
    [errno] that [err] finds. *)
Record detach_env : Type := {
  env_fork : Z;
  env_devnull : Z;
  env_dup2_stdin : Z;
  env_dup2_stdout : Z;
  env_dup2_stderr : Z;
  env_detach_errno : Z
}.

Definition utils_tty_detach (e : detach_env) : outcome unit :=
  (perform [ActFork] ;;;
   if env_fork e =? -1 then Halt 1 [ActErr (ErrFork (env_detach_errno e))]
   else if env_fork e =? 0 then
     perform [ActSetsid; ActOpenDevNull] ;;;
     if env_devnull e =? -1 then Halt 1 [ActErr (ErrDevNull (env_detach_errno e))]
     else
       let failed := Halt 1 [ActCloseDevNull; ActErr (ErrDup2 (env_detach_errno e))] in
       perform [ActDup2 0] ;;;
       if env_dup2_stdin e <? 0 then failed
       else
         perform [ActDup2 1] ;;;
         if env_dup2_stdout e <? 0 then failed
         else
           perform [ActDup2 2] ;;;
           if env_dup2_stderr e <? 0 then failed
           else perform [ActCloseDevNull]
   else Halt 0 [])%outcome.

(** *** [utils_set_rr_scheduler] *)

(** What [sched_get_priority_max] and [sched_setscheduler] return, and the
    [errno] that [log_perror] finds. *)
Record sched_env : Type := {
  env_max_prio : Z;
  env_setscheduler : Z;
  env_sched_errno : Z
}.

(** [posix] tells whether _POSIX_PRIORITY_SCHEDULING is defined.  The value
    returned, and what was done. *)
Definition utils_set_rr_scheduler (posix : bool) (silent : Z) (e : sched_env)
  : Z * list action :=
  if posix then
    if env_max_prio e =? -1 then
      (-1,
       ActSchedGetPriorityMax
       :: (if silent =? 0
           then [ActLog LOG_WARNING (MsgSchedMaxPriority (env_sched_errno e))]
           else []))
    else if env_setscheduler e =? -1 then
      (-1,
       [ActSchedGetPriorityMax; ActSchedSetscheduler (env_max_prio e)]
       ++ (if silent =? 0
           then [ActLog LOG_WARNING (MsgSchedSet (env_sched_errno e))]
           else []))
    else (0, [ActSchedGetPriorityMax; ActSchedSetscheduler (env_max_prio e)])
  else (0, [ActLog LOG_WARNING MsgSchedPlatform]).

(** *** [utils_move_to_root_cgroup] *)

Definition cgroup_rt_runtime : string := "/sys/fs/cgroup/cpu/cpu.rt_runtime_us".
Definition cgroup_v1_tasks : string := "/sys/fs/cgroup/cpu/tasks".
Definition cgroup_v2_procs : string := "/sys/fs/cgroup/cgroup.procs".

(** Whether the files can be opened, what [fprintf] and [fclose] return for
    the tasks file, and the process id. *)
Record cgroup_env : Type := {
  env_rt_runtime_opens : bool;
  env_procs_opens : bool;
  env_tasks_opens : bool;
  env_tasks_fprintf : Z;
  env_tasks_fclose : Z;
  env_getpid : Z
}.

(** The second half of the function: the file found is closed, and the pid
    is written into the tasks file [fname]. *)
Definition cgroup_write_pid (e : cgroup_env) (found fname : string) : list action :=
  [ActFclose found; ActFopen fname "w" (env_tasks_opens e)]
  ++ (if env_tasks_opens e then
        [ActWritePid fname (env_getpid e)]
        ++ (if env_tasks_fprintf e <=? 0 then [ActLog LOG_WARNING MsgCgroupWrite] else [])
        ++ [ActFclose fname]
        ++ (if negb (env_tasks_fclose e =? 0) then [ActLog LOG_WARNING MsgCgroupClose]
            else [])
      else [ActLog LOG_WARNING MsgCgroupOpen]).

Definition utils_move_to_root_cgroup (e : cgroup_env) : list action :=
  if env_rt_runtime_opens e then
    [ActFopen cgroup_rt_runtime "rt" true; ActLog LOG_DEBUG MsgCgroupV1]
    ++ cgroup_write_pid e cgroup_rt_runtime cgroup_v1_tasks
  else if env_procs_opens e then
    [ActFopen cgroup_rt_runtime "rt" false; ActFopen cgroup_v2_procs "rt" true;
     ActLog LOG_DEBUG MsgCgroupV2]
    ++ cgroup_write_pid e cgroup_v2_procs cgroup_v2_procs
  else
    [ActFopen cgroup_rt_runtime "rt" false; ActFopen cgroup_v2_procs "rt" false;
     ActLog LOG_DEBUG MsgCgroupNone].

(** *** [signal_handlers_register] *)

Definition signal_handlers_register : list action :=
  [ActSigaction SIGINT signal_int_handler;
   ActSigaction SIGTERM signal_int_handler;
   ActSigaction SIGUSR1 signal_usr1_handler].

(** *** The variables of [main] *)

Inductive move_to_root_cgroup_mode : Type :=
| MOVE_TO_ROOT_CGROUP_MODE_OFF
| MOVE_TO_ROOT_CGROUP_MODE_ON
| MOVE_TO_ROOT_CGROUP_MODE_AUTO.

Definition mode_eqb (a b : move_to_root_cgroup_mode) : bool :=
  match a, b with
  | MOVE_TO_ROOT_CGROUP_MODE_OFF, MOVE_TO_ROOT_CGROUP_MODE_OFF
  | MOVE_TO_ROOT_CGROUP_MODE_ON, MOVE_TO_ROOT_CGROUP_MODE_ON
  | MOVE_TO_ROOT_CGROUP_MODE_AUTO, MOVE_TO_ROOT_CGROUP_MODE_AUTO => true
  | _, _ => false
  end.

(** The locals of [main] and the globals it sets. *)
Record vars : Type := {
  (* locals *)
  foreground : Z;
  timeout : Z;
  set_prio : Z;
  move_to_root_cgroup : move_to_root_cgroup_mode;
  (* globals *)
  logging : log_globals;
  threshold : double;                  (* max_steal_threshold *)
  max_steal_threshold_user_set : Z;
  use_guestlib : Z                     (* use_vmguestlib_stealtime *)
}.

(** The variables before the first call of [getopt]. *)
Definition vars_init : vars :=
  {| foreground := 1;
     timeout := DEFAULT_TIMEOUT;
     set_prio := 1;
     move_to_root_cgroup := MOVE_TO_ROOT_CGROUP_MODE_AUTO;
     logging := {| log_debug := 0; log_to_syslog := 0; log_to_stderr := 0 |};
     threshold := Double.of_Z DEFAULT_MAX_STEAL_THRESHOLD;
     max_steal_threshold_user_set := 0;
     use_guestlib := 0 |}.

Definition set_foreground (x : Z) (v : vars) : vars :=
  {| foreground := x; timeout := timeout v; set_prio := set_prio v;
     move_to_root_cgroup := move_to_root_cgroup v; logging := logging v;
     threshold := threshold v;
     max_steal_threshold_user_set := max_steal_threshold_user_set v;
     use_guestlib := use_guestlib v |}.

Definition set_timeout (x : Z) (v : vars) : vars :=
  {| foreground := foreground v; timeout := x; set_prio := set_prio v;
     move_to_root_cgroup := move_to_root_cgroup v; logging := logging v;
     threshold := threshold v;
     max_steal_threshold_user_set := max_steal_threshold_user_set v;
     use_guestlib := use_guestlib v |}.

Definition set_set_prio (x : Z) (v : vars) : vars :=
  {| foreground := foreground v; timeout := timeout v; set_prio := x;
     move_to_root_cgroup := move_to_root_cgroup v; logging := logging v;
     threshold := threshold v;
     max_steal_threshold_user_set := max_steal_threshold_user_set v;
     use_guestlib := use_guestlib v |}.

Definition set_move_to_root_cgroup (x : move_to_root_cgroup_mode) (v : vars) : vars :=
  {| foreground := foreground v; timeout := timeout v; set_prio := set_prio v;
     move_to_root_cgroup := x; logging := logging v;
     threshold := threshold v;
     max_steal_threshold_user_set := max_steal_threshold_user_set v;
     use_guestlib := use_guestlib v |}.

Definition set_logging (x : log_globals) (v : vars) : vars :=
  {| foreground := foreground v; timeout := timeout v; set_prio := set_prio v;
     move_to_root_cgroup := move_to_root_cgroup v; logging := x;
     threshold := threshold v;
     max_steal_threshold_user_set := max_steal_threshold_user_set v;
     use_guestlib := use_guestlib v |}.

Definition set_threshold (x : double) (user_set : Z) (v : vars) : vars :=
  {| foreground := foreground v; timeout := timeout v; set_prio := set_prio v;
     move_to_root_cgroup := move_to_root_cgroup v; logging := logging v;
     threshold := x;
     max_steal_threshold_user_set := user_set;
     use_guestlib := use_guestlib v |}.

Definition set_use_guestlib (x : Z) (v : vars) : vars :=
  {| foreground := foreground v; timeout := timeout v; set_prio := set_prio v;
     move_to_root_cgroup := move_to_root_cgroup v; logging := logging v;
     threshold := threshold v;
     max_steal_threshold_user_set := max_steal_threshold_user_set v;
     use_guestlib := x |}.

(** *** [guestlib_init] and [guestlib_fini] *)

(** [have] tells whether HAVE_VMGUESTLIB is defined; [gl_err] is what
    [VMGuestLib_OpenHandle] returns. *)
Definition guestlib_init (have : bool) (gl_err : Z) (v : vars) : vars * list action :=
  if have then
    if negb (gl_err =? VMGUESTLIB_ERROR_SUCCESS) then
      (v, [ActGuestOpen; ActLog LOG_DEBUG (MsgGuestOpenFailed gl_err)])
    else
      let v := set_use_guestlib 1 v in
      (if max_steal_threshold_user_set v =? 0
       then set_threshold (Double.of_Z DEFAULT_MAX_STEAL_THRESHOLD_GL)
              (max_steal_threshold_user_set v) v
       else v,
       [ActGuestOpen; ActLog LOG_INFO MsgGuestUsing])
  else (v, []).

(** [gl_err] is what [VMGuestLib_CloseHandle] returns. *)
Definition guestlib_fini (have : bool) (gl_err : Z) (v : vars) : list action :=
  if have then
    if negb (use_guestlib v =? 0) then
      ActGuestClose
      :: (if negb (gl_err =? VMGUESTLIB_ERROR_SUCCESS)
          then [ActLog LOG_DEBUG (MsgGuestCloseFailed gl_err)] else [])
    else []
  else [].

(** *** The options *)

(** One answer of [getopt]: the option character it returns, and [optarg]. *)
Record option_found : Type := {
  opt_ch : ascii;
  opt_arg : string
}.

(** The body of the [switch] in [main].  [log_debug] is an [int]; its
    increment is not wrapped here: past [INT_MAX] it has no defined result. *)
Definition main_option (v : vars) (o : option_found) : outcome vars :=
  let ch := opt_ch o in
  let optarg := opt_arg o in
  if Ascii.eqb ch "D"%char then Done (set_foreground 0 v) []
  else if Ascii.eqb ch "d"%char then
    Done (set_logging {| log_debug := log_debug (logging v) + 1;
                         log_to_syslog := log_to_syslog (logging v);
                         log_to_stderr := log_to_stderr (logging v) |} v) []
  else if Ascii.eqb ch "f"%char then Done (set_foreground 1 v) []
  else if Ascii.eqb ch "m"%char then
    match util_strtonum optarg 1 UINT32_MAX with
    | None => Halt 1 [ActErr (ErrStealThreshold optarg)]
    | Some tmpll => Done (set_threshold (Double.of_Z tmpll) 1 v) []
    end
  else if Ascii.eqb ch "t"%char then
    match util_strtonum optarg 1 MAX_TIMEOUT with
    | None => Halt 1 [ActErr (ErrTimeout optarg)]
    | Some tmpll => Done (set_timeout (wrap64 tmpll) v) []
    end
  else if Ascii.eqb ch "h"%char || Ascii.eqb ch "?"%char then Halt 1 [ActUsage]
  else if Ascii.eqb ch "P"%char then
    if strcasecmp optarg "on" =? 0 then
      Done (set_move_to_root_cgroup MOVE_TO_ROOT_CGROUP_MODE_ON v) []
    else if strcasecmp optarg "off" =? 0 then
      Done (set_move_to_root_cgroup MOVE_TO_ROOT_CGROUP_MODE_OFF v) []
    else if strcasecmp optarg "auto" =? 0 then
      Done (set_move_to_root_cgroup MOVE_TO_ROOT_CGROUP_MODE_AUTO v) []
    else Halt 1 [ActErr (ErrCgroupMode optarg)]
  else if Ascii.eqb ch "p"%char then Done (set_set_prio 0 v) []
  else Halt 1 [ActErr (ErrUnhandled ch)].

(** The [while ((ch = getopt(...)) != -1)] loop, over the answers of
    [getopt] that come before its -1. *)
Fixpoint main_options (opts : list option_found) (v : vars) : outcome vars :=
  match opts with
  | [] => Done v []
  | o :: opts' => (v' <- main_option v o ;; main_options opts' v')%outcome
  end.

(** *** [main] *)

(** How the program was built. *)
Record build : Type := {
  have_vmguestlib : bool;               (* HAVE_VMGUESTLIB *)
  posix_priority_scheduling : bool      (* _POSIX_PRIORITY_SCHEDULING *)
}.

(** What [main] meets, in the order in which it meets it. *)
Record main_env : Type := {
  env_getopt : list option_found;
  env_detach : detach_env;
  env_mlock : mlock_env;
  env_cgroup_on : cgroup_env;           (* the call made in mode "on" *)
  env_sched : sched_env;                (* the first try to set the scheduler *)
  env_cgroup_auto : cgroup_env;         (* the call made when that try failed *)
  env_sched_again : sched_env;          (* the second try *)
  env_guest_open : Z;                   (* VMGuestLib_OpenHandle *)
  env_sig_start : list signal;          (* signals handled after the handlers are
                                           registered and before the first loop test *)
  env_clock_start : timespec;           (* read by poll_run for tv_start *)
  env_iterations : list iter_env;
  env_clock_stop : timespec;            (* read by the last print_statistics *)
  env_guest_close : Z                   (* VMGuestLib_CloseHandle *)
}.

(** The handlers, on the globals, for the time before [poll_run] has its
    state. *)
Definition globals_signal (g : globals) (sig : signal) : globals :=
  match sig with
  | SIGINT | SIGTERM =>
      {| g_times_not_scheduled := g_times_not_scheduled g;
         g_stop_main_loop := 1;
         g_display_statistics := g_display_statistics g |}
  | SIGUSR1 =>
      {| g_times_not_scheduled := g_times_not_scheduled g;
         g_stop_main_loop := g_stop_main_loop g;
         g_display_statistics := 1 |}
  end.

(** [if (foreground) log_to_stderr = 1; else { log_to_syslog = 1;
     utils_tty_detach(); openlog(...); }] *)
Definition main_detach (e : main_env) (v : vars) : outcome vars :=
  if negb (foreground v =? 0) then
    Done (set_logging {| log_debug := log_debug (logging v);
                         log_to_syslog := log_to_syslog (logging v);
                         log_to_stderr := 1 |} v) []
  else
    (utils_tty_detach (env_detach e) ;;;
     Done (set_logging {| log_debug := log_debug (logging v);
                          log_to_syslog := 1;
                          log_to_stderr := log_to_stderr (logging v) |} v)
          [ActOpenlog])%outcome.

(** From [utils_mlockall()] to the second try of the scheduler. *)
Definition main_privileges (b : build) (e : main_env) (v : vars) : list action :=
  utils_mlockall (env_mlock e)
  ++ (if mode_eqb (move_to_root_cgroup v) MOVE_TO_ROOT_CGROUP_MODE_ON
      then utils_move_to_root_cgroup (env_cgroup_on e) else [])
  ++ (if negb (set_prio v =? 0) then
        let silent :=
          if mode_eqb (move_to_root_cgroup v) MOVE_TO_ROOT_CGROUP_MODE_AUTO then 1 else 0 in
        let tried := utils_set_rr_scheduler (posix_priority_scheduling b) silent (env_sched e) in
        snd tried
        ++ (if (fst tried =? -1)
               && mode_eqb (move_to_root_cgroup v) MOVE_TO_ROOT_CGROUP_MODE_AUTO
            then
              utils_move_to_root_cgroup (env_cgroup_auto e)
              ++ snd (utils_set_rr_scheduler (posix_priority_scheduling b) 0
                        (env_sched_again e))
            else [])
      else []).

(** What [poll_run] reads of the globals. *)
Definition main_config (v : vars) : config :=
  {| max_steal_threshold := threshold v;
     use_vmguestlib_stealtime := negb (use_guestlib v =? 0) |}.

(** [poll_run(timeout)], as [main] calls it. *)
Definition main_loop (e : main_env) (v : vars) : outcome unit :=
  let g := fold_left globals_signal (env_sig_start e) globals_init in
  match poll_run (main_config v) g (timeout v) (env_clock_start e) (env_clock_stop e)
          (env_iterations e) with
  | Stopped st => Done tt (map ActLoop (trace st))
  | Exited code st => Halt code (map ActLoop (trace st))
  | Running st => Pending (map ActLoop (trace st))
  end.

(** [main]: the value is the one it returns. *)
Definition main (b : build) (e : main_env) : outcome Z :=
  (v <- main_options (env_getopt e) vars_init ;;
   v <- main_detach e v ;;
   perform (main_privileges b e v) ;;;
   perform signal_handlers_register ;;;
   v <- (let (v', acts) := guestlib_init (have_vmguestlib b) (env_guest_open e) v in
         Done v' acts) ;;
   main_loop e v ;;;
   perform (guestlib_fini (have_vmguestlib b) (env_guest_close e) v) ;;;
   perform (if foreground v =? 0 then [ActCloselog] else []) ;;;
   Done 0 [])%outcome.

(** ** Further notions *)

Definition is_statistics_signal (sig : signal) : bool :=
  match sig with SIGUSR1 => true | SIGINT | SIGTERM => false end.

(** The debug line of an iteration. *)
Definition is_iteration_line (ev : event) : bool :=
  match ev with EvLog _ (MsgIteration _ _ _ _) => true | _ => false end.

(** A [struct timespec] as [clock_gettime] fills it in. *)
Definition normal_time (ts : timespec) : Prop :=
  0 <= tv_sec ts /\ 0 <= tv_nsec ts < NO_NS_IN_SEC.

(** The time of a [struct timespec], in nanoseconds. *)
Definition nanoseconds (ts : timespec) : Z :=
  tv_sec ts * NO_NS_IN_SEC + tv_nsec ts.

(** The log lines of a trace that are printed at debug level [d]. *)
Definition shown_events (d : Z) (t : list event) : list event :=
  filter (fun ev => match ev with
                    | EvLog priority _ => log_shown d priority
                    | EvPoll _ => false
                    end) t.

(** The time an iteration measures between its two readings of the clock. *)
Definition elapsed (e : iter_env) : Z :=
  wrap64 (nano_current_get (env_clock_now e) - nano_current_get (env_clock_prev e)).

(** A run of white space. *)
Definition blank (s : string) : Prop :=
  Forall (fun c => Scan.isspace c = true) (list_ascii_of_string s).

Inductive sign : Type := NoSign | Plus | Minus.

Definition sign_text (s : sign) : string :=
  match s with
  | NoSign => EmptyString
  | Plus => "+"
  | Minus => "-"
  end.

Definition signed (s : sign) (n : Z) : Z :=
  match s with
  | Minus => - n
  | NoSign | Plus => n
  end.


(** The argument of the last option [ch] among [opts]. *)
Definition last_arg (ch : ascii) (opts : list option_found) : option string :=
  fold_left (fun acc o => if Ascii.eqb (opt_ch o) ch then Some (opt_arg o) else acc)
    opts None.

(** The last of the options [opts] that is one of the two characters. *)
Definition last_of (ch1 ch2 : ascii) (opts : list option_found) : option ascii :=
  fold_left (fun acc o =>
               if Ascii.eqb (opt_ch o) ch1 || Ascii.eqb (opt_ch o) ch2
               then Some (opt_ch o) else acc)
    opts None.

Definition count_options (ch : ascii) (opts : list option_found) : nat :=
  List.length (filter (fun o => Ascii.eqb (opt_ch o) ch) opts).

Definition count_actions (p : action -> bool) (acts : list action) : nat :=
  List.length (filter p acts).

(** Each call of [utils_move_to_root_cgroup] starts with one [fopen] of
    cpu.rt_runtime_us. *)
Definition is_cgroup_call (a : action) : bool :=
  match a with
  | ActFopen path _ _ => String.eqb path cgroup_rt_runtime
  | _ => false
  end.

Definition is_write_pid (a : action) : bool :=
  match a with ActWritePid _ _ => true | _ => false end.

Definition is_stream_opened (a : action) : bool :=
  match a with ActFopen _ _ opened => opened | _ => false end.

Definition is_fclose (a : action) : bool :=
  match a with ActFclose _ => true | _ => false end.

Definition is_setscheduler (a : action) : bool :=
  match a with ActSchedSetscheduler _ => true | _ => false end.

Definition is_sched_call (a : action) : bool :=
  match a with ActSchedGetPriorityMax => true | _ => false end.

Definition is_sched_warning (a : action) : bool :=
  match a with
  | ActLog _ (MsgSchedMaxPriority _) | ActLog _ (MsgSchedSet _) => true
  | _ => false
  end.

Definition is_loop_action (a : action) : bool :=
  match a with ActLoop _ => true | _ => false end.

(** Whether a try to set the scheduler fails. *)
Definition sched_fails (e : sched_env) : bool :=
  (env_max_prio e =? -1) || (env_setscheduler e =? -1).

(** Whether [utils_tty_detach] returns, in the child. *)
Definition detaches (e : detach_env) : bool :=
  (env_fork e =? 0) && negb (env_devnull e =? -1)
  && negb (env_dup2_stdin e <? 0) && negb (env_dup2_stdout e <? 0)
  && negb (env_dup2_stderr e <? 0).

(** What the variables hold when all options are read. *)
Definition options_read (opts : list option_found) (v : vars) : Prop :=
  match last_arg "t" opts with
  | None => timeout v = DEFAULT_TIMEOUT
  | Some arg => util_strtonum arg 1 MAX_TIMEOUT = Some (timeout v)
  end
  /\ 1 <= timeout v <= MAX_TIMEOUT
  /\ match last_arg "m" opts with
     | None =>
         threshold v = Double.of_Z DEFAULT_MAX_STEAL_THRESHOLD
         /\ max_steal_threshold_user_set v = 0
     | Some arg =>
         exists n,
           util_strtonum arg 1 UINT32_MAX = Some n
           /\ 1 <= n <= UINT32_MAX
           /\ threshold v = Double.of_Z n
           /\ max_steal_threshold_user_set v = 1
     end
  /\ log_debug (logging v) = Z.of_nat (count_options "d" opts)
  /\ foreground v
     = match last_of "D" "f" opts with
       | Some ch => if Ascii.eqb ch "D" then 0 else 1
       | None => 1
       end
  /\ set_prio v = (if (count_options "p" opts =? 0)%nat then 1 else 0)
  /\ match last_arg "P" opts with
     | None => move_to_root_cgroup v = MOVE_TO_ROOT_CGROUP_MODE_AUTO
     | Some arg =>
         main_option vars_init {| opt_ch := "P"; opt_arg := arg |}
         = Done (set_move_to_root_cgroup (move_to_root_cgroup v) vars_init) []
     end
  /\ log_to_stderr (logging v) = 0
  /\ log_to_syslog (logging v) = 0
  /\ use_guestlib v = 0.

Definition is_open_devnull (a : action) : bool :=
  match a with ActOpenDevNull => true | _ => false end.

Definition is_close_devnull (a : action) : bool :=
  match a with ActCloseDevNull => true | _ => false end.

Definition is_dup2 (a : action) : bool :=
  match a with ActDup2 _ => true | _ => false end.

Definition is_guest_open (a : action) : bool :=
  match a with ActGuestOpen => true | _ => false end.

Definition is_guest_close (a : action) : bool :=
  match a with ActGuestClose => true | _ => false end.

Definition is_sigaction (a : action) : bool :=
  match a with ActSigaction _ _ => true | _ => false end.

(** What [poll_run] did, among the actions of [main]. *)
Definition loop_events (acts : list action) : list event :=
  flat_map (fun a => match a with ActLoop ev => [ev] | _ => [] end) acts.

(** The variables after [guestlib_init], and the run of the loop that [main]
    starts with them. *)
Definition main_vars (b : build) (e : main_env) (v : vars) : vars :=
  fst (guestlib_init (have_vmguestlib b) (env_guest_open e) v).

Definition main_run (b : build) (e : main_env) (v : vars) : run_result :=
  poll_run (main_config (main_vars b e v))
    (fold_left globals_signal (env_sig_start e) globals_init)
    (timeout (main_vars b e v)) (env_clock_start e) (env_clock_stop e)
    (env_iterations e).

(** Whether the guest library is used: the program was built with it, and
    the handle could be opened. *)
Definition guest_used (b : build) (e : main_env) : bool :=
  have_vmguestlib b && (env_guest_open e =? VMGUESTLIB_ERROR_SUCCESS).

(** The actions of [main] that are not made between [utils_mlockall] and the
    second try of the scheduler. *)
Definition outside_privileges (a : action) : bool :=
  match a with
  | ActLoop _ | ActErr _ | ActUsage
  | ActFork | ActSetsid | ActOpenDevNull | ActDup2 _ | ActCloseDevNull
  | ActOpenlog | ActCloselog | ActSigaction _ _ | ActGuestOpen | ActGuestClose
  | ActLog _ (MsgGuestOpenFailed _) | ActLog _ MsgGuestUsing
  | ActLog _ (MsgGuestCloseFailed _) => true
  | _ => false
  end.

(** A "Not scheduled" line that reports the gap [G] and a time above it;
    any other event. *)
Definition overrun_line (G : Z) (ev : event) : Prop :=
  match ev with
  | EvLog _ (MsgNotScheduled d g _ _) => g = G /\ G < d
  | _ => True
  end.

(** [main] gets as far as the main loop: it stays in the foreground, or it
    is the child of a [fork] that left the terminal. *)
Definition starts (e : main_env) (v : vars) : Prop :=
  foreground v <> 0 \/ detaches (env_detach e) = true.

(** The same surroundings, with other results of the calls made between
    [utils_mlockall] and the second try of the scheduler. *)
Definition with_privileges (m : mlock_env) (c_on : cgroup_env) (s : sched_env)
    (c_auto : cgroup_env) (s_again : sched_env) (e : main_env) : main_env :=
  {| env_getopt := env_getopt e;
     env_detach := env_detach e;
     env_mlock := m;
     env_cgroup_on := c_on;
     env_sched := s;
     env_cgroup_auto := c_auto;
     env_sched_again := s_again;
     env_guest_open := env_guest_open e;
     env_sig_start := env_sig_start e;
     env_clock_start := env_clock_start e;
     env_iterations := env_iterations e;
     env_clock_stop := env_clock_stop e;
     env_guest_close := env_guest_close e |}.

(** A line logged with the priority [LOG_TRACE]. *)
Definition is_trace_event (ev : event) : bool :=
  match ev with
  | EvLog priority _ => priority =? LOG_TRACE
  | EvPoll _ => false
  end.

(** More sample inputs. *)
Module Fixture.

(** Two SIGUSR1 before the flag is tested, one more while the statistics are
    printed. *)
Definition asked_thrice : iter_env :=
  {| env_steal_prev := Sample.quiet; env_clock_prev := Sample.clock 2000000000;
     env_sig_enter := [SIGUSR1; SIGUSR1]; env_clock_stat := Sample.clock 2000001000;
     env_sig_print := [SIGUSR1]; env_sig_wait := [];
     env_poll_res := 0; env_errno := 0;
     env_clock_now := Sample.clock 2066000000; env_steal_now := Sample.quiet |}.

(** The guest library reports 5 ms of stolen time, then 12 ms. *)
Definition guest_steady : iter_env :=
  Sample.iteration (Sample.steal_of None (Sample.guest_ok 5))
    (Sample.steal_of None (Sample.guest_ok 12)) 5000000000 5066000000 [] 0 0.



Definition detach_ok : detach_env :=
  {| env_fork := 0; env_devnull := 3; env_dup2_stdin := 0; env_dup2_stdout := 1;
     env_dup2_stderr := 2; env_detach_errno := 0 |}.

(** In the parent, [fork] returns the process id of the child. *)
Definition detach_parent : detach_env :=
  {| env_fork := 4711; env_devnull := 3; env_dup2_stdin := 0; env_dup2_stdout := 1;
     env_dup2_stderr := 2; env_detach_errno := 0 |}.

Definition mlock_ok : mlock_env := {| env_setrlimit := 0; env_mlockall := 0 |}.

Definition sched_ok : sched_env :=
  {| env_max_prio := 99; env_setscheduler := 0; env_sched_errno := 0 |}.

(** [sched_setscheduler] fails with EPERM. *)
Definition sched_eperm : sched_env :=
  {| env_max_prio := 99; env_setscheduler := -1; env_sched_errno := 1 |}.

Definition cgroup_v1 : cgroup_env :=
  {| env_rt_runtime_opens := true; env_procs_opens := false; env_tasks_opens := true;
     env_tasks_fprintf := 5; env_tasks_fclose := 0; env_getpid := 4712 |}.

Definition plain : build :=
  {| have_vmguestlib := false; posix_priority_scheduling := true |}.

Definition with_guestlib : build :=
  {| have_vmguestlib := true; posix_priority_scheduling := true |}.

(** A start in which the first try to set the scheduler fails and the second
    one succeeds, followed by the given iterations. *)
Definition env (opts : list option_found) (sigs : list signal)
    (iterations : list iter_env) : main_env :=
  {| env_getopt := opts;
     env_detach := detach_ok;
     env_mlock := mlock_ok;
     env_cgroup_on := cgroup_v1;
     env_sched := sched_eperm;
     env_cgroup_auto := cgroup_v1;
     env_sched_again := sched_ok;
     env_guest_open := VMGUESTLIB_ERROR_SUCCESS;
     env_sig_start := sigs;
     env_clock_start := Sample.clock 1000000000;
     env_iterations := iterations;
     env_clock_stop := Sample.clock 9000000000;
     env_guest_close := VMGUESTLIB_ERROR_SUCCESS |}.

Definition opt (ch : ascii) (arg : string) : option_found :=
  {| opt_ch := ch; opt_arg := arg |}.

End Fixture.

(** * Properties *)

(** ** Signals only touch the two flags *)

Section HandleSignals.
Variable sigs : list signal.

Lemma handle_signals_frame (st : state) :
  let st' := handle_signals sigs st in
  times_not_scheduled st' = times_not_scheduled st
  /\ guest_prev st' = guest_prev st
  /\ tv_now st' = tv_now st /\ tv_prev st' = tv_prev st
  /\ tv_diff st' = tv_diff st
  /\ tv_max_allowed_diff st' = tv_max_allowed_diff st
  /\ tv_start st' = tv_start st
  /\ steal_now st' = steal_now st /\ steal_prev st' = steal_prev st
  /\ steal_diff st' = steal_diff st
  /\ poll_res st' = poll_res st /\ poll_timeout st' = poll_timeout st
  /\ steal_perc st' = steal_perc st
  /\ trace st' = trace st.
Proof.
  unfold handle_signals. revert st.
  induction sigs as [|sig sigs' IH]; intros st; simpl.
  - repeat split.
  - specialize (IH (handle_signal st sig)). simpl in IH.
    destruct sig; simpl in *; exact IH.
Qed.
End HandleSignals.

Lemma handle_signals_stop_sticky (sigs : list signal) (st : state) :
  stop_main_loop st <> 0 -> stop_main_loop (handle_signals sigs st) <> 0.
Proof.
  unfold handle_signals. revert st.
  induction sigs as [|sig sigs' IH]; intros st H; simpl; auto.
  apply IH. destruct sig; simpl; auto; discriminate.
Qed.

Lemma handle_signals_stop_delivered (sigs : list signal) (st : state) :
  existsb is_stop_signal sigs = true ->
  stop_main_loop (handle_signals sigs st) <> 0.
Proof.
  unfold handle_signals. revert st.
  induction sigs as [|sig sigs' IH]; intros st H; simpl in *; try discriminate.
  destruct (is_stop_signal sig) eqn:Hs; simpl in H.
  - apply (handle_signals_stop_sticky sigs').
    destruct sig; simpl in *; discriminate.
  - apply IH; assumption.
Qed.

Lemma handle_signals_app (s1 s2 : list signal) (st : state) :
  handle_signals (s1 ++ s2) st = handle_signals s2 (handle_signals s1 st).
Proof. unfold handle_signals. apply fold_left_app. Qed.

Lemma new_events_app (st st' : state) (evs : list event) :
  trace st' = trace st ++ evs -> new_events st st' = evs.
Proof.
  intros H. unfold new_events. rewrite H.
  rewrite skipn_app, skipn_all, Nat.sub_diag. reflexivity.
Qed.

(** ** The steal-time sources *)

Lemma wrap64_range (z : Z) : 0 <= wrap64 z < 2 ^ 64.
Proof. unfold wrap64. apply Z.mod_pos_bound. reflexivity. Qed.

Lemma wrap64_small (z : Z) : 0 <= z < 2 ^ 64 -> wrap64 z = z.
Proof. intros H. unfold wrap64. apply Z.mod_small. exact H. Qed.

Lemma kernel_steal_of_line_events (clk : clk_tck_result) (buf : string) :
  forallb is_steal_source_event (snd (kernel_steal_of_line clk buf)) = true.
Proof.
  unfold kernel_steal_of_line. simpl.
  destruct (sysconf_clk_tck clk =? -1); reflexivity.
Qed.

Lemma kernel_steal_of_line_range (clk : clk_tck_result) (buf : string) :
  0 <= fst (kernel_steal_of_line clk buf) < 2 ^ 64.
Proof. unfold kernel_steal_of_line. simpl. apply wrap64_range. Qed.

Lemma kernel_scan_events (fuel : nat) (clk : clk_tck_result) (f : string) :
  forallb is_steal_source_event (snd (kernel_scan fuel clk f)) = true.
Proof.
  revert f. induction fuel as [|fuel IH]; intros f; simpl; auto.
  destruct (Scan.fgets 4096 f) as [[buf f']|]; auto.
  destruct (valid_line buf); auto using kernel_steal_of_line_events.
Qed.

Lemma kernel_scan_range (fuel : nat) (clk : clk_tck_result) (f : string) :
  0 <= fst (kernel_scan fuel clk f) < 2 ^ 64.
Proof.
  revert f. induction fuel as [|fuel IH]; intros f; simpl; try (simpl; lia).
  destruct (Scan.fgets 4096 f) as [[buf f']|]; try (simpl; lia).
  destruct (valid_line buf); auto using kernel_steal_of_line_range.
Qed.

Lemma nano_stealtime_get_events cfg gs e :
  forallb is_steal_source_event (snd (nano_stealtime_get cfg gs e)) = true.
Proof.
  unfold nano_stealtime_get, nano_stealtime_vmguestlib_get, nano_stealtime_kernel_get.
  destruct (use_vmguestlib_stealtime cfg).
  - destruct (negb (gl_update_err (guest e) =? _)); [reflexivity|].
    destruct (negb (gl_stolen_err (guest e) =? _)); reflexivity.
  - destruct (proc_stat (kernel e)) as [f|]; [|reflexivity].
    pose proof (kernel_scan_events (S (String.length f)) (clk_tck (kernel e)) f) as H.
    destruct (kernel_scan _ _ f) as [r evs]. exact H.
Qed.

Lemma nano_stealtime_get_range cfg gs e :
  0 <= fst (fst (nano_stealtime_get cfg gs e)) < 2 ^ 64.
Proof.
  unfold nano_stealtime_get, nano_stealtime_vmguestlib_get, nano_stealtime_kernel_get.
  destruct (use_vmguestlib_stealtime cfg).
  - destruct (negb (gl_update_err (guest e) =? _)); [simpl; lia|].
    destruct (negb (gl_stolen_err (guest e) =? _)); [simpl; lia|].
    simpl. apply wrap64_range.
  - destruct (proc_stat (kernel e)) as [f|]; [|simpl; lia].
    pose proof (kernel_scan_range (S (String.length f)) (clk_tck (kernel e)) f) as H.
    destruct (kernel_scan _ _ f) as [r evs]. exact H.
Qed.

(** ** The steps of the loop body *)

Lemma show_statistics_frame (e : iter_env) (st : state) :
  let st' := show_statistics e st in
  times_not_scheduled st' = times_not_scheduled st
  /\ guest_prev st' = guest_prev st
  /\ tv_now st' = tv_now st /\ tv_prev st' = tv_prev st
  /\ tv_max_allowed_diff st' = tv_max_allowed_diff st
  /\ tv_start st' = tv_start st
  /\ steal_now st' = steal_now st /\ steal_prev st' = steal_prev st
  /\ poll_timeout st' = poll_timeout st
  /\ trace st' =
       trace st ++ (if negb (display_statistics st =? 0) then [stat_event e st] else []).
Proof.
  unfold show_statistics.
  destruct (negb (display_statistics st =? 0)); simpl.
  - pose proof (handle_signals_frame (env_sig_print e)
                  (print_statistics (env_clock_stat e) st)) as H.
    simpl in H. intuition.
  - pose proof (handle_signals_frame (env_sig_print e) st) as H.
    simpl in H. rewrite app_nil_r. intuition.
Qed.

Lemma show_statistics_stop_sticky (e : iter_env) (st : state) :
  stop_main_loop st <> 0 -> stop_main_loop (show_statistics e st) <> 0.
Proof.
  intros H. unfold show_statistics.
  destruct (negb (display_statistics st =? 0)); simpl;
    apply handle_signals_stop_sticky; simpl; exact H.
Qed.

Lemma show_statistics_stop_delivered (e : iter_env) (st : state) :
  existsb is_stop_signal (env_sig_print e) = true ->
  stop_main_loop (show_statistics e st) <> 0.
Proof.
  intros H. unfold show_statistics.
  destruct (negb (display_statistics st =? 0)); simpl;
    apply handle_signals_stop_delivered; exact H.
Qed.

Lemma sample_before_frame cfg e st :
  let st' := sample_before cfg e st in
  times_not_scheduled st' = times_not_scheduled st
  /\ stop_main_loop st' = stop_main_loop st
  /\ display_statistics st' = display_statistics st
  /\ tv_prev st' = nano_current_get (env_clock_prev e)
  /\ tv_now st' = nano_current_get (env_clock_prev e)
  /\ tv_max_allowed_diff st' = tv_max_allowed_diff st
  /\ tv_start st' = tv_start st
  /\ steal_prev st' = fst (fst (nano_stealtime_get cfg (guest_prev st) (env_steal_prev e)))
  /\ steal_now st' = steal_prev st'
  /\ guest_prev st' = snd (fst (nano_stealtime_get cfg (guest_prev st) (env_steal_prev e)))
  /\ poll_timeout st' = poll_timeout st
  /\ trace st' = trace st ++ snd (nano_stealtime_get cfg (guest_prev st) (env_steal_prev e)).
Proof.
  unfold sample_before.
  destruct (nano_stealtime_get cfg (guest_prev st) (env_steal_prev e)) as [[steal gs] evs].
  simpl. repeat split.
Qed.

Lemma poll_iter_enter_frame cfg e st :
  let st' := poll_iter_enter cfg e st in
  times_not_scheduled st' = times_not_scheduled st
  /\ tv_prev st' = nano_current_get (env_clock_prev e)
  /\ tv_max_allowed_diff st' = tv_max_allowed_diff st
  /\ tv_start st' = tv_start st
  /\ steal_prev st' = fst (fst (nano_stealtime_get cfg (guest_prev st) (env_steal_prev e)))
  /\ guest_prev st' = snd (fst (nano_stealtime_get cfg (guest_prev st) (env_steal_prev e)))
  /\ poll_timeout st' = Z.max 0 (poll_timeout st)
  /\ poll_res st' = env_poll_res e
  /\ trace st' = trace st ++ enter_events cfg e st.
Proof.
  unfold poll_iter_enter, enter_events.
  pose proof (sample_before_frame cfg e st) as Hs. simpl in Hs.
  set (s1 := sample_before cfg e st) in *.
  pose proof (handle_signals_frame (env_sig_enter e) s1) as H2. simpl in H2.
  set (s2 := handle_signals (env_sig_enter e) s1) in *.
  pose proof (show_statistics_frame e s2) as H3. simpl in H3.
  set (s3 := show_statistics e s2) in *.
  set (s5 := call_poll e (log_iteration s3)).
  pose proof (handle_signals_frame (env_sig_wait e) s5) as H6. simpl in H6.
  destruct Hs as (?&?&?&?&?&?&?&?&?&?&?&?).
  destruct H2 as (?&?&?&?&?&?&?&?&?&?&?&?&?&?).
  destruct H3 as (?&?&?&?&?&?&?&?&?&?).
  destruct H6 as (?&?&?&?&?&?&?&?&?&?&?&?&?&?).
  assert (Hto : (if poll_timeout s3 <? 0 then 0 else poll_timeout s3)
                = Z.max 0 (poll_timeout st)).
  { replace (poll_timeout s3) with (poll_timeout st) by congruence.
    destruct (Z.ltb_spec (poll_timeout st) 0); lia. }
  repeat split; subst s5; simpl in *; try congruence.
  match goal with H : trace (handle_signals (env_sig_wait e) _) = _ |- _ => rewrite H end.
  rewrite Hto.
  unfold stat_event.
  replace (trace s3) with
    (trace s2 ++ (if negb (display_statistics s2 =? 0)
                  then [stat_event e s2] else [])) by (symmetry; assumption).
  unfold stat_event.
  replace (tv_now s3) with (nano_current_get (env_clock_prev e)) by congruence.
  replace (tv_max_allowed_diff s3) with (tv_max_allowed_diff st) by congruence.
  replace (poll_timeout s3) with (poll_timeout st) by congruence.
  replace (steal_now s3) with
    (fst (fst (nano_stealtime_get cfg (guest_prev st) (env_steal_prev e)))) by congruence.
  replace (tv_start s2) with (tv_start st) by congruence.
  replace (times_not_scheduled s2) with (times_not_scheduled st) by congruence.
  replace (trace s2) with
    (trace st ++ snd (nano_stealtime_get cfg (guest_prev st) (env_steal_prev e)))
    by congruence.
  rewrite <- !app_assoc. reflexivity.
Qed.

Lemma poll_iter_enter_stop_sticky cfg e st :
  stop_main_loop st <> 0 -> stop_main_loop (poll_iter_enter cfg e st) <> 0.
Proof.
  intros H. unfold poll_iter_enter.
  apply handle_signals_stop_sticky. simpl.
  apply show_statistics_stop_sticky, handle_signals_stop_sticky.
  pose proof (sample_before_frame cfg e st) as Hs. simpl in Hs.
  destruct Hs as (_ & Hs & _). rewrite Hs. exact H.
Qed.

Lemma poll_iter_enter_stop_delivered cfg e st :
  stop_delivered e = true -> stop_main_loop (poll_iter_enter cfg e st) <> 0.
Proof.
  unfold stop_delivered, signals_of. rewrite !existsb_app.
  intros H. unfold poll_iter_enter.
  destruct (existsb is_stop_signal (env_sig_wait e)) eqn:Hw.
  { apply handle_signals_stop_delivered. exact Hw. }
  apply handle_signals_stop_sticky. simpl.
  destruct (existsb is_stop_signal (env_sig_print e)) eqn:Hp.
  { apply show_statistics_stop_delivered. exact Hp. }
  apply show_statistics_stop_sticky.
  apply handle_signals_stop_delivered.
  destruct (existsb is_stop_signal (env_sig_enter e)); [reflexivity|discriminate].
Qed.

Lemma poll_iter_measure_frame cfg e st :
  let st' := poll_iter_measure cfg e st in
  let r := nano_stealtime_get cfg (guest_prev st) (env_steal_now e) in
  tv_diff st' = wrap64 (nano_current_get (env_clock_now e) - tv_prev st)
  /\ tv_now st' = nano_current_get (env_clock_now e)
  /\ tv_prev st' = tv_prev st
  /\ steal_now st' = fst (fst r)
  /\ steal_prev st' = steal_prev st
  /\ steal_diff st' = wrap64 (steal_now st' - steal_prev st')
  /\ steal_perc st' = steal_percent (steal_diff st') (tv_diff st')
  /\ tv_max_allowed_diff st' = tv_max_allowed_diff st
  /\ tv_start st' = tv_start st
  /\ poll_timeout st' = poll_timeout st
  /\ stop_main_loop st' = stop_main_loop st
  /\ times_not_scheduled st' =
       (if tv_diff st' >? tv_max_allowed_diff st'
        then wrap64 (times_not_scheduled st + 1) else times_not_scheduled st)
  /\ trace st' = trace st ++ measure_events cfg e st.
Proof.
  unfold poll_iter_measure, measure_events.
  destruct (nano_stealtime_get cfg (guest_prev st) (env_steal_now e)) as [[steal gs] evs].
  simpl. repeat split.
Qed.

Lemma steal_events_no (p : event -> bool) (evs : list event) :
  (forall ev, is_steal_source_event ev = true -> p ev = false) ->
  forallb is_steal_source_event evs = true ->
  filter p evs = [].
Proof.
  intros Hp. induction evs as [|ev evs IH]; simpl; auto.
  intros H. apply andb_true_iff in H. destruct H as [H1 H2].
  rewrite (Hp ev H1). auto.
Qed.

Lemma steal_source_not_poll ev : is_steal_source_event ev = true -> is_poll ev = false.
Proof. destruct ev as [p m|t]; [destruct m|]; simpl; congruence. Qed.

Lemma steal_source_not_statistics ev :
  is_steal_source_event ev = true -> is_statistics ev = false.
Proof. destruct ev as [p m|t]; [destruct m|]; simpl; congruence. Qed.

Lemma steal_source_not_not_scheduled ev :
  is_steal_source_event ev = true -> is_not_scheduled ev = false.
Proof. destruct ev as [p m|t]; [destruct m|]; simpl; congruence. Qed.

Lemma steal_source_not_steal_high ev :
  is_steal_source_event ev = true -> is_steal_high ev = false.
Proof. destruct ev as [p m|t]; [destruct m|]; simpl; congruence. Qed.

Lemma count_events_app p (l1 l2 : list event) :
  count_events p (l1 ++ l2) = (count_events p l1 + count_events p l2)%nat.
Proof. unfold count_events. rewrite filter_app, length_app. reflexivity. Qed.

Lemma count_steal_events p evs :
  (forall ev, is_steal_source_event ev = true -> p ev = false) ->
  forallb is_steal_source_event evs = true ->
  count_events p evs = 0%nat.
Proof.
  intros Hp H. unfold count_events. rewrite (steal_events_no p evs Hp H). reflexivity.
Qed.

Lemma enter_events_counts cfg e st :
  count_events is_poll (enter_events cfg e st) = 1%nat
  /\ count_events is_not_scheduled (enter_events cfg e st) = 0%nat
  /\ count_events is_steal_high (enter_events cfg e st) = 0%nat.
Proof.
  unfold enter_events.
  pose proof (nano_stealtime_get_events cfg (guest_prev st) (env_steal_prev e)) as He.
  rewrite !count_events_app.
  rewrite (count_steal_events is_poll _ steal_source_not_poll He).
  rewrite (count_steal_events is_not_scheduled _ steal_source_not_not_scheduled He).
  rewrite (count_steal_events is_steal_high _ steal_source_not_steal_high He).
  destruct (negb (display_statistics _ =? 0)); repeat split; reflexivity.
Qed.

Lemma measure_events_counts cfg e st :
  let diff := wrap64 (nano_current_get (env_clock_now e) - tv_prev st) in
  count_events is_poll (measure_events cfg e st) = 0%nat
  /\ count_events is_statistics (measure_events cfg e st) = 0%nat
  /\ count_events is_not_scheduled (measure_events cfg e st)
     = (if diff >? tv_max_allowed_diff st then 1%nat else 0%nat)
  /\ (count_events is_steal_high (measure_events cfg e st)
      <= count_events is_not_scheduled (measure_events cfg e st))%nat.
Proof.
  unfold measure_events.
  pose proof (nano_stealtime_get_events cfg (guest_prev st) (env_steal_now e)) as He.
  rewrite !count_events_app.
  rewrite (count_steal_events is_poll _ steal_source_not_poll He).
  rewrite (count_steal_events is_statistics _ steal_source_not_statistics He).
  rewrite (count_steal_events is_not_scheduled _ steal_source_not_not_scheduled He).
  rewrite (count_steal_events is_steal_high _ steal_source_not_steal_high He).
  destruct (_ >? _); [destruct (Double.gt _ _)|]; repeat split; auto;
    unfold count_events; simpl; lia.
Qed.

(** ** One iteration *)

Lemma poll_iter_cases cfg e st :
  poll_iter cfg e st =
  if poll_fatal e
  then Exit 2 (emit [EvLog LOG_ERR (MsgPollError (env_errno e))] (poll_iter_enter cfg e st))
  else Continue (poll_iter_measure cfg e (poll_iter_enter cfg e st)).
Proof.
  unfold poll_iter, poll_fatal.
  pose proof (poll_iter_enter_frame cfg e st) as H. simpl in H.
  destruct H as (_&_&_&_&_&_&_&H&_). rewrite H. reflexivity.
Qed.

Lemma poll_fatal_iff e :
  poll_fatal e = true <-> env_poll_res e = -1 /\ env_errno e <> EINTR.
Proof.
  unfold poll_fatal. rewrite andb_true_iff, negb_true_iff, Z.eqb_eq, Z.eqb_neq.
  reflexivity.
Qed.

Lemma poll_iter_continue cfg e st st' :
  poll_iter cfg e st = Continue st' ->
  poll_fatal e = false /\ st' = poll_iter_measure cfg e (poll_iter_enter cfg e st).
Proof.
  rewrite poll_iter_cases. destruct (poll_fatal e); intros H; inversion H; auto.
Qed.

Lemma poll_iter_exit cfg e st code st' :
  poll_iter cfg e st = Exit code st' ->
  poll_fatal e = true /\ code = 2
  /\ st' = emit [EvLog LOG_ERR (MsgPollError (env_errno e))] (poll_iter_enter cfg e st).
Proof.
  rewrite poll_iter_cases. destruct (poll_fatal e); intros H; inversion H; auto.
Qed.

(** What an iteration that goes on has done. *)
Lemma poll_iter_continue_spec cfg e st st' :
  poll_iter cfg e st = Continue st' ->
  let st1 := poll_iter_enter cfg e st in
  tv_diff st' = wrap64 (nano_current_get (env_clock_now e)
                        - nano_current_get (env_clock_prev e))
  /\ tv_max_allowed_diff st' = tv_max_allowed_diff st
  /\ tv_start st' = tv_start st
  /\ poll_timeout st' = Z.max 0 (poll_timeout st)
  /\ steal_diff st' = wrap64 (steal_now st' - steal_prev st')
  /\ steal_perc st' = steal_percent (steal_diff st') (tv_diff st')
  /\ times_not_scheduled st' =
       (if tv_diff st' >? tv_max_allowed_diff st
        then wrap64 (times_not_scheduled st + 1) else times_not_scheduled st)
  /\ trace st' = trace st ++ enter_events cfg e st ++ measure_events cfg e st1
  /\ count_events is_not_scheduled (enter_events cfg e st ++ measure_events cfg e st1)
     = (if tv_diff st' >? tv_max_allowed_diff st then 1%nat else 0%nat)
  /\ (count_events is_steal_high (enter_events cfg e st ++ measure_events cfg e st1)
      <= count_events is_not_scheduled
           (enter_events cfg e st ++ measure_events cfg e st1))%nat
  /\ count_events is_poll (enter_events cfg e st ++ measure_events cfg e st1) = 1%nat.
Proof.
  intros H. apply poll_iter_continue in H. destruct H as [_ ->].
  pose proof (poll_iter_enter_frame cfg e st) as He. simpl in He.
  destruct He as (Ht & Hp & Hm & Hs & Hsp & Hg & Hto & Hr & Htr).
  pose proof (poll_iter_measure_frame cfg e (poll_iter_enter cfg e st)) as Hf.
  simpl in Hf.
  destruct Hf as (F1&F2&F3&F4&F5&F6&F7&F8&F9&F10&F11&F12&F13).
  pose proof (enter_events_counts cfg e st) as (C1 & C2 & C3).
  pose proof (measure_events_counts cfg e (poll_iter_enter cfg e st)) as C.
  simpl in C. destruct C as (D1 & D2 & D3 & D4).
  rewrite Hp, Hm in *.
  assert (Hd : tv_diff (poll_iter_measure cfg e (poll_iter_enter cfg e st))
               = wrap64 (nano_current_get (env_clock_now e)
                         - nano_current_get (env_clock_prev e))) by exact F1.
  simpl. rewrite !count_events_app, C1, C2, C3, D1, D3, Hd.
  split; [reflexivity|].
  split; [congruence|].
  split; [congruence|].
  split; [congruence|].
  split; [exact F6|].
  split; [rewrite F7, Hd; reflexivity|].
  split; [rewrite F12, Hd, F8, Ht; reflexivity|].
  split; [rewrite F13, Htr, app_assoc; reflexivity|].
  split; [reflexivity|].
  split; [rewrite D3 in D4; simpl; exact D4|].
  reflexivity.
Qed.

(** ** The whole loop *)

Lemma poll_loop_stopped cfg clock envs st :
  stop_main_loop st <> 0 ->
  poll_loop cfg clock envs st = Stopped (poll_run_finish clock st).
Proof.
  intros H. apply Z.eqb_neq in H.
  destruct envs; simpl; rewrite H; reflexivity.
Qed.

Lemma poll_loop_step cfg clock e envs st :
  stop_main_loop st = 0 ->
  poll_loop cfg clock (e :: envs) st =
  match poll_iter cfg e st with
  | Continue st' => poll_loop cfg clock envs st'
  | Exit code st' => Exited code st'
  end.
Proof. intros H. simpl. rewrite H. reflexivity. Qed.

Lemma poll_loop_nil cfg clock st :
  stop_main_loop st = 0 -> poll_loop cfg clock [] st = Running st.
Proof. intros H. simpl. rewrite H. reflexivity. Qed.

Lemma poll_run_finish_spec clock st :
  let st' := poll_run_finish clock st in
  times_not_scheduled st' = times_not_scheduled st
  /\ poll_timeout st' = poll_timeout st
  /\ trace st' = trace st ++ finish_events clock st.
Proof.
  unfold poll_run_finish, print_statistics, finish_events. simpl.
  rewrite <- app_assoc. repeat split.
Qed.


(** ** Runs of the loop *)

Lemma wrap64_succ_neq (t : Z) : wrap64 (t + 1) <> t.
Proof.
  unfold wrap64. intros H.
  assert (0 <= t < 2 ^ 64) as Ht by (rewrite <- H; apply Z.mod_pos_bound; reflexivity).
  destruct (Z.eq_dec t (2 ^ 64 - 1)) as [->|Hn].
  - vm_compute in H. discriminate.
  - rewrite Z.mod_small in H by lia. lia.
Qed.

(** The counter along a run. *)
Lemma poll_loop_counter cfg clock envs :
  forall st,
    0 <= times_not_scheduled st ->
    times_not_scheduled st + Z.of_nat (List.length envs) < 2 ^ 64 ->
    let fin := final_state (poll_loop cfg clock envs st) in
    exists evs,
      trace fin = trace st ++ evs
      /\ times_not_scheduled fin
         = times_not_scheduled st + Z.of_nat (count_events is_not_scheduled evs)
      /\ (count_events is_not_scheduled evs <= List.length envs)%nat.
Proof.
  induction envs as [|e envs IH]; intros st H0 Hb fin.
  - subst fin. destruct (Z.eq_dec (stop_main_loop st) 0) as [Hs|Hs].
    + rewrite poll_loop_nil by exact Hs. cbn [final_state]. exists []. rewrite app_nil_r.
      unfold count_events. simpl. repeat split; lia.
    + rewrite poll_loop_stopped by exact Hs. cbn [final_state].
      pose proof (poll_run_finish_spec clock st) as (F1 & _ & F3).
      exists (finish_events clock st). rewrite F1.
      unfold count_events. simpl. repeat split; auto; lia.
  - subst fin. destruct (Z.eq_dec (stop_main_loop st) 0) as [Hs|Hs].
    + rewrite poll_loop_step by exact Hs.
      destruct (poll_iter cfg e st) as [st1|code st1] eqn:Hi.
      * pose proof (poll_iter_continue_spec cfg e st st1 Hi) as S. simpl in S.
        destruct S as (_ & _ & _ & _ & _ & _ & Ht & Htr & Hc & _ & _).
        assert (Hstep : times_not_scheduled st1
                        = times_not_scheduled st
                          + Z.of_nat (count_events is_not_scheduled
                                        (enter_events cfg e st
                                         ++ measure_events cfg e (poll_iter_enter cfg e st)))
                          /\ (count_events is_not_scheduled
                                (enter_events cfg e st
                                 ++ measure_events cfg e (poll_iter_enter cfg e st)) <= 1)%nat).
        { rewrite Hc, Ht. cbn [Datatypes.length] in Hb.
          destruct (tv_diff st1 >? tv_max_allowed_diff st).
          - rewrite wrap64_small by lia. simpl. lia.
          - simpl. lia. }
        destruct Hstep as [Hstep Hle].
        cbn [Datatypes.length] in Hb.
        destruct (IH st1) as (evs & E1 & E2 & E3); [lia|lia|].
        exists ((enter_events cfg e st
                 ++ measure_events cfg e (poll_iter_enter cfg e st)) ++ evs).
        rewrite count_events_app.
        split; [rewrite E1, Htr, <- !app_assoc; reflexivity|].
        split; [rewrite E2, Hstep; lia|]. cbn [Datatypes.length]. lia.
      * apply poll_iter_exit in Hi. destruct Hi as (_ & _ & ->). cbn [final_state emit trace times_not_scheduled].
        pose proof (poll_iter_enter_frame cfg e st) as He. simpl in He.
        destruct He as (Ht & _ & _ & _ & _ & _ & _ & _ & Htr).
        pose proof (enter_events_counts cfg e st) as (_ & C2 & _).
        exists (enter_events cfg e st ++ [EvLog LOG_ERR (MsgPollError (env_errno e))]).
        rewrite count_events_app, C2, Htr, Ht, <- app_assoc.
        unfold count_events at 1 2. simpl. repeat split; lia.
    + rewrite poll_loop_stopped by exact Hs. cbn [final_state].
      pose proof (poll_run_finish_spec clock st) as (F1 & _ & F3).
      exists (finish_events clock st). rewrite F1.
      unfold count_events. simpl. repeat split; auto; lia.
Qed.

Lemma poll_loop_exited cfg clock envs :
  forall st code st',
    poll_loop cfg clock envs st = Exited code st' ->
    code = 2 /\ exists e, In e envs /\ poll_fatal e = true.
Proof.
  induction envs as [|e envs IH]; intros st code st' H.
  - simpl in H. destruct (negb (stop_main_loop st =? 0)); discriminate.
  - simpl in H. destruct (negb (stop_main_loop st =? 0)); [discriminate|].
    destruct (poll_iter cfg e st) as [st1|c st1] eqn:Hi.
    + destruct (IH _ _ _ H) as (Hc & e' & Hin & Hf).
      split; [exact Hc|]. exists e'. split; [right; exact Hin|exact Hf].
    + inversion H; subst. apply poll_iter_exit in Hi. destruct Hi as (Hf & Hc & _).
      split; [exact Hc|]. exists e. split; [left; reflexivity|exact Hf].
Qed.

Lemma handle_signals_set_poll_res sigs v st :
  handle_signals sigs (set_poll_res v st) = set_poll_res v (handle_signals sigs st).
Proof.
  unfold handle_signals. revert st.
  induction sigs as [|sig sigs IH]; intros st; simpl; [reflexivity|].
  rewrite <- IH. destruct sig; reflexivity.
Qed.

Lemma poll_iter_enter_with_poll cfg res errno e st :
  poll_iter_enter cfg (with_poll res errno e) st
  = set_poll_res res (poll_iter_enter cfg e st).
Proof.
  unfold poll_iter_enter. cbn [with_poll env_sig_wait env_sig_enter].
  rewrite <- handle_signals_set_poll_res. reflexivity.
Qed.

Lemma poll_iter_measure_with_poll cfg res errno e st :
  poll_iter_measure cfg (with_poll res errno e) (set_poll_res res st)
  = set_poll_res res (poll_iter_measure cfg e st).
Proof.
  unfold poll_iter_measure.
  cbn [with_poll env_clock_now env_steal_now set_poll_res guest_prev tv_prev].
  destruct (nano_stealtime_get cfg (guest_prev st) (env_steal_now e)) as [[steal gs] evs].
  reflexivity.
Qed.

(** The timeout passed to poll along a run. *)
Lemma poll_args_app (l1 l2 : list event) :
  poll_args (l1 ++ l2) = poll_args l1 ++ poll_args l2.
Proof. unfold poll_args. apply flat_map_app. Qed.

Lemma poll_args_steal evs :
  forallb is_steal_source_event evs = true -> poll_args evs = [].
Proof.
  induction evs as [|ev evs IH]; simpl; auto.
  intros H. apply andb_true_iff in H. destruct H as [H1 H2].
  rewrite (IH H2). destruct ev as [p m|a]; [reflexivity|discriminate].
Qed.

Lemma poll_args_enter cfg e st :
  poll_args (enter_events cfg e st) = [Z.max 0 (poll_timeout st)].
Proof.
  unfold enter_events. rewrite !poll_args_app.
  rewrite poll_args_steal by apply nano_stealtime_get_events.
  destruct (negb (_ =? 0)); reflexivity.
Qed.

Lemma poll_args_measure cfg e st : poll_args (measure_events cfg e st) = [].
Proof.
  unfold measure_events. rewrite !poll_args_app.
  rewrite poll_args_steal by apply nano_stealtime_get_events.
  destruct (_ >? _); [destruct (Double.gt _ _)|]; reflexivity.
Qed.

Lemma poll_loop_poll_args cfg clock envs (p : Z) :
  0 <= p ->
  forall st,
    poll_timeout st = p ->
    Forall (fun a => a = p) (poll_args (trace st)) ->
    Forall (fun a => a = p) (poll_args (trace (final_state (poll_loop cfg clock envs st)))).
Proof.
  intros Hp. induction envs as [|e envs IH]; intros st Ht Hall.
  - simpl. destruct (negb (stop_main_loop st =? 0)); [|exact Hall].
    cbn [final_state].
    pose proof (poll_run_finish_spec clock st) as (_ & _ & F). rewrite F.
    rewrite poll_args_app. simpl. rewrite app_nil_r. exact Hall.
  - simpl. destruct (negb (stop_main_loop st =? 0)).
    + cbn [final_state].
      pose proof (poll_run_finish_spec clock st) as (_ & _ & F). rewrite F.
      rewrite poll_args_app. simpl. rewrite app_nil_r. exact Hall.
    + destruct (poll_iter cfg e st) as [st1|code st1] eqn:Hi.
      * pose proof (poll_iter_continue_spec cfg e st st1 Hi) as S. simpl in S.
        destruct S as (_ & _ & _ & Hto & _ & _ & _ & Htr & _).
        apply IH.
        -- rewrite Hto, Ht. lia.
        -- rewrite Htr, !poll_args_app, poll_args_enter, poll_args_measure, Ht.
           rewrite app_nil_r. apply Forall_app. split; [exact Hall|].
           constructor; [lia|constructor].
      * apply poll_iter_exit in Hi. destruct Hi as (_ & _ & ->).
        cbn [final_state emit trace].
        pose proof (poll_iter_enter_frame cfg e st) as He. simpl in He.
        destruct He as (_ & _ & _ & _ & _ & _ & _ & _ & Htr).
        rewrite Htr, !poll_args_app, poll_args_enter, Ht. simpl.
        rewrite app_nil_r. apply Forall_app. split; [exact Hall|].
        constructor; [lia|constructor].
Qed.

Lemma wrap_int_small (z : Z) : - 2 ^ 31 <= z < 2 ^ 31 -> wrap_int z = z.
Proof. intros H. unfold wrap_int. rewrite Z.mod_small; lia. Qed.


(** ** fgets and the scan of the file *)

Lemma fgets_chars_length (room : nat) (f : string) :
  (String.length (fst (Scan.fgets_chars room f))
   + String.length (snd (Scan.fgets_chars room f)))%nat
  = String.length f.
Proof.
  revert f. induction room as [|room IH]; intros f; simpl; [reflexivity|].
  destruct f as [|c f']; simpl; [reflexivity|].
  destruct (Ascii.eqb c Scan.newline); simpl; [reflexivity|].
  specialize (IH f'). destruct (Scan.fgets_chars room f') as [buf rest]. simpl in *.
  rewrite IH. reflexivity.
Qed.

Lemma fgets_chars_consumes (room : nat) (c : ascii) (f : string) :
  (1 <= room)%nat ->
  (String.length (snd (Scan.fgets_chars room (String c f))) < String.length (String c f))%nat.
Proof.
  intros Hr. destruct room as [|room]; [lia|].
  cbn [Scan.fgets_chars].
  destruct (Ascii.eqb c Scan.newline); [simpl; lia|].
  pose proof (fgets_chars_length room f) as L.
  destruct (Scan.fgets_chars room f) as [b r]. simpl in *. lia.
Qed.

Lemma fgets_consumes (f buf rest : string) :
  Scan.fgets 4096 f = Some (buf, rest) ->
  (String.length rest < String.length f)%nat.
Proof.
  unfold Scan.fgets. destruct f as [|c f']; [discriminate|].
  intros H.
  pose proof (fgets_chars_consumes (4096 - 1) c f') as L.
  replace (Scan.fgets_chars (4096 - 1) (String c f')) with (buf, rest) in L
    by congruence.
  apply L. lia.
Qed.

Lemma kernel_scan_first_valid clk (f buf : string) :
  first_valid_line f buf ->
  forall fuel, (String.length f < fuel)%nat ->
  kernel_scan fuel clk f = kernel_steal_of_line clk buf.
Proof.
  induction 1 as [f buf rest Hg Hv | f skipped rest buf Hg Hv Hrest IH];
    intros fuel Hfuel.
  - destruct fuel as [|fuel]; [lia|]. simpl. rewrite Hg, Hv. reflexivity.
  - destruct fuel as [|fuel]; [lia|]. simpl. rewrite Hg, Hv.
    apply IH. pose proof (fgets_consumes _ _ _ Hg). lia.
Qed.

Lemma kernel_scan_no_valid clk (f : string) :
  no_valid_line f -> forall fuel, kernel_scan fuel clk f = (0, []).
Proof.
  induction 1 as [| f skipped rest Hg Hv Hrest IH]; intros fuel.
  - destruct fuel; reflexivity.
  - destruct fuel as [|fuel]; [reflexivity|]. simpl. rewrite Hg, Hv. apply IH.
Qed.

(** Every file has a first valid line or none. *)
Lemma valid_line_or_none_fuel (fuel : nat) :
  forall f, (String.length f < fuel)%nat ->
  no_valid_line f \/ exists buf, first_valid_line f buf.
Proof.
  induction fuel as [|fuel IH]; intros f Hf; [lia|].
  destruct (Scan.fgets 4096 f) as [[buf rest]|] eqn:Hg.
  - destruct (valid_line buf) eqn:Hv.
    + right. exists buf. eapply fvl_here; eassumption.
    + pose proof (fgets_consumes _ _ _ Hg) as Hl.
      destruct (IH rest) as [Hn|[b Hb]]; [lia| |].
      * left. eapply nvl_skip; eassumption.
      * right. exists b. eapply fvl_later; eassumption.
  - left. destruct f; [constructor|discriminate].
Qed.

Lemma valid_line_or_none (f : string) :
  no_valid_line f \/ exists buf, first_valid_line f buf.
Proof. apply (valid_line_or_none_fuel (S (String.length f))). lia. Qed.

(** ** sscanf *)

Lemma input_failure_spec (done : list Z) :
  fst (Scan.input_failure done) = Scan.EOF /\ snd (Scan.input_failure done) = [] /\ done = []
  \/ fst (Scan.input_failure done) = Z.of_nat (List.length done)
     /\ snd (Scan.input_failure done) = done.
Proof. destruct done; simpl; auto. Qed.

(** [sscanf] returns the number of values it stored, or EOF without any. *)
Lemma sscanf_from_count (fmt : list Scan.directive) :
  forall s done,
    let r := Scan.sscanf_from fmt s done in
    (fst r = Scan.EOF /\ snd r = [])
    \/ fst r = Z.of_nat (List.length (snd r)).
Proof.
  induction fmt as [|d fmt IH]; intros s done; simpl; [right; reflexivity|].
  destruct d as [c| |].
  - destruct s as [|c' s'].
    + destruct (input_failure_spec done) as [(H1 & H2 & _)|(H1 & H2)];
        [left; auto|right; rewrite H1, H2; reflexivity].
    + destruct (Ascii.eqb c' c); [apply IH|right; reflexivity].
  - apply IH.
  - destruct (Scan.scan_u64 s) as [v rest| |].
    + apply IH.
    + right; reflexivity.
    + destruct (input_failure_spec done) as [(H1 & H2 & _)|(H1 & H2)];
        [left; auto|right; rewrite H1, H2; reflexivity].
Qed.

Lemma sscanf_count (fmt : list Scan.directive) (buf : string) (n : Z) (vals : list Z) :
  Scan.sscanf fmt buf = (n, vals) ->
  0 <= n -> n = Z.of_nat (List.length vals).
Proof.
  unfold Scan.sscanf. intros H Hn.
  pose proof (sscanf_from_count fmt (Scan.c_str buf) []) as Hc. simpl in Hc.
  rewrite H in Hc. simpl in Hc. unfold Scan.EOF in Hc. destruct Hc as [[Hc _]|Hc]; lia.
Qed.

(** A field whose conversion did not happen is 0. *)
Lemma stored_field_missing (vals : list Z) (i : nat) :
  (List.length vals <= i)%nat -> nth i vals 0 = 0.
Proof. intros H. apply nth_overflow. exact H. Qed.



Lemma scan_digits_nonneg (s : string) :
  forall acc, 0 <= acc -> 0 <= fst (Scan.scan_digits acc s).
Proof.
  induction s as [|c s IH]; intros acc Ha; simpl; [exact Ha|].
  destruct (Scan.isdigit c); [|exact Ha].
  apply IH. unfold Scan.digit_val. lia.
Qed.

Lemma strtoull_value_range (neg : bool) (n : Z) :
  0 <= n -> 0 <= Scan.strtoull_value neg n < 2 ^ 64.
Proof.
  intros Hn. unfold Scan.strtoull_value, UINT64_MAX.
  destruct (Z.ltb_spec (2 ^ 64 - 1) n); [lia|].
  destruct neg; [apply wrap64_range|lia].
Qed.

Lemma scan_u64_range (s : string) (v : Z) (rest : string) :
  Scan.scan_u64 s = Scan.ConvOk v rest -> 0 <= v < 2 ^ 64.
Proof.
  unfold Scan.scan_u64.
  destruct (Scan.skip_space s) as [|c s']; [discriminate|].
  match goal with
  | |- context [if ?b then s' else String c s'] =>
      destruct (if b then s' else String c s') as [|d b']
  end; [discriminate|].
  destruct (Scan.isdigit d); [|discriminate].
  pose proof (scan_digits_nonneg (String d b') 0 ltac:(lia)) as Hd.
  destruct (Scan.scan_digits 0 (String d b')) as [n r]. simpl in Hd.
  intros H. inversion H; subst. apply strtoull_value_range. exact Hd.
Qed.

Lemma sscanf_from_range (fmt : list Scan.directive) :
  forall s done,
    Forall (fun v => 0 <= v < 2 ^ 64) done ->
    Forall (fun v => 0 <= v < 2 ^ 64) (snd (Scan.sscanf_from fmt s done)).
Proof.
  induction fmt as [|d fmt IH]; intros s done Hd; simpl; [exact Hd|].
  destruct d as [c| |].
  - destruct s as [|c' s']; [destruct done; exact Hd|].
    destruct (Ascii.eqb c' c); [apply IH; exact Hd|exact Hd].
  - apply IH; exact Hd.
  - destruct (Scan.scan_u64 s) as [v rest| |] eqn:Hs.
    + apply IH. apply Forall_app. split; [exact Hd|].
      constructor; [eapply scan_u64_range; exact Hs|constructor].
    + exact Hd.
    + destruct done; exact Hd.
Qed.

Lemma stored_steal_range (buf : string) :
  0 <= s_steal (stored_fields (snd (Scan.sscanf Scan.cpu_format buf))) < 2 ^ 64.
Proof.
  pose proof (sscanf_from_range Scan.cpu_format (Scan.c_str buf) [] (Forall_nil _)) as H.
  unfold Scan.sscanf. set (vals := snd _) in *. cbn [stored_fields s_steal].
  destruct (Nat.lt_ge_cases 7 (List.length vals)) as [Hl|Hl].
  - rewrite Forall_forall in H. apply H. apply nth_In. exact Hl.
  - rewrite nth_overflow by exact Hl. lia.
Qed.


(** ** Lines written out digit by digit *)

Lemma digit_char_spec (d : nat) :
  (d < 10)%nat ->
  Scan.isdigit (digit_char d) = true
  /\ Scan.isspace (digit_char d) = false
  /\ Scan.digit_val (digit_char d) = Z.of_nat d
  /\ Ascii.eqb (digit_char d) "-"%char = false
  /\ Ascii.eqb (digit_char d) "+"%char = false
  /\ Ascii.eqb (digit_char d) Scan.newline = false
  /\ Ascii.eqb (digit_char d) Scan.nul = false.
Proof.
  intros H.
  do 10 (destruct d as [|d]; [repeat split|]). lia.
Qed.

Lemma scan_digits_text (ds : list nat) :
  forall acc rest,
    Forall (fun d => (d < 10)%nat) ds ->
    stops_digits rest ->
    Scan.scan_digits acc (digits_text ds ++ rest)
    = (fold_left (fun a d => a * 10 + Z.of_nat d) ds acc, rest).
Proof.
  induction ds as [|d ds IH]; intros acc rest Hd Hr.
  - simpl. destruct rest as [|c r]; [reflexivity|].
    simpl in *. rewrite Hr. reflexivity.
  - inversion Hd as [|? ? Hd1 Hd2]; subst.
    destruct (digit_char_spec d Hd1) as (E1 & _ & E3 & _).
    cbn [digits_text fold_right append Scan.scan_digits fold_left].
    rewrite E1, E3. apply IH; assumption.
Qed.

Lemma fields_text_stops (fields : list (list nat)) :
  stops_digits (fields_text fields end_of_line).
Proof. destruct fields; reflexivity. Qed.

Lemma scan_u64_field (ds : list nat) (rest : string) :
  decimal_field ds ->
  stops_digits rest ->
  Scan.scan_u64 (String " "%char (digits_text ds ++ rest)) = Scan.ConvOk (field_value ds) rest.
Proof.
  intros [Hne Hd] Hr.
  destruct ds as [|d ds]; [congruence|].
  inversion Hd as [|? ? Hd1 Hd2]; subst.
  destruct (digit_char_spec d Hd1) as (E1 & E2 & E3 & E4 & E5 & _).
  unfold Scan.scan_u64.
  cbn [digits_text fold_right append Scan.skip_space].
  change (Scan.isspace " "%char) with true. cbn iota.
  cbn [Scan.skip_space]. rewrite E2, E4, E5. cbn [orb]. cbv iota. rewrite E1.
  pose proof (scan_digits_text (d :: ds) 0 rest Hd Hr) as Hs.
  cbn [digits_text fold_right append] in Hs. rewrite Hs. reflexivity.
Qed.

Lemma skip_space_idem (s : string) :
  Scan.skip_space (Scan.skip_space s) = Scan.skip_space s.
Proof.
  induction s as [|c s IH]; simpl; [reflexivity|].
  destruct (Scan.isspace c) eqn:E; [exact IH|]. simpl. rewrite E. reflexivity.
Qed.

Lemma scan_u64_skip_space (s : string) :
  Scan.scan_u64 (Scan.skip_space s) = Scan.scan_u64 s.
Proof. unfold Scan.scan_u64. rewrite skip_space_idem. reflexivity. Qed.

Lemma sscanf_fields (n : nat) :
  forall fields done,
    Forall decimal_field fields ->
    Scan.sscanf_from (conversions n) (fields_text fields end_of_line) done
    = let vals := done ++ map field_value (firstn n fields) in
      if (n <=? List.length fields)%nat then (Z.of_nat (List.length vals), vals)
      else Scan.input_failure vals.
Proof.
  induction n as [|n IH]; intros fields done Hf.
  - simpl. rewrite app_nil_r. reflexivity.
  - destruct fields as [|ds fs].
    + simpl. rewrite app_nil_r. reflexivity.
    + inversion Hf as [|? ? Hf1 Hf2]; subst.
      cbn [conversions Scan.sscanf_from].
      rewrite scan_u64_skip_space.
      cbn [fields_text fold_right].
      rewrite scan_u64_field by (try exact Hf1; apply fields_text_stops).
      fold (fields_text fs end_of_line).
      rewrite IH by exact Hf2.
      cbn [firstn map Datatypes.length Nat.leb].
      rewrite <- app_assoc. reflexivity.
Qed.

Lemma c_str_nul_free (s : string) :
  (forall c, In c (list_ascii_of_string s) -> Ascii.eqb c Scan.nul = false) ->
  Scan.c_str s = s.
Proof.
  induction s as [|c s IH]; intros H; simpl; [reflexivity|].
  rewrite (H c) by (left; reflexivity). f_equal. apply IH.
  intros c' Hc. apply H. right. exact Hc.
Qed.

Lemma in_append (c : ascii) (s1 s2 : string) :
  In c (list_ascii_of_string (s1 ++ s2)) ->
  In c (list_ascii_of_string s1) \/ In c (list_ascii_of_string s2).
Proof.
  induction s1 as [|c1 s1 IH]; simpl; [auto|].
  intros [H|H]; [auto|]. destruct (IH H); auto.
Qed.

Lemma digits_text_plain (ds : list nat) :
  Forall (fun d => (d < 10)%nat) ds ->
  forall c, In c (list_ascii_of_string (digits_text ds)) -> plain_char c.
Proof.
  induction 1 as [|d ds Hd Hds IH]; intros c; simpl; [tauto|].
  intros [<-|Hc]; [|apply IH; exact Hc].
  destruct (digit_char_spec d Hd) as (_&_&_&_&_&E6&E7). split; assumption.
Qed.

Lemma fields_text_plain (fields : list (list nat)) :
  Forall decimal_field fields ->
  forall c, In c (list_ascii_of_string (fields_text fields EmptyString)) -> plain_char c.
Proof.
  induction 1 as [|ds fs [_ Hd] Hfs IH]; intros c; simpl; [tauto|].
  intros [<-|Hc]; [split; reflexivity|].
  apply in_append in Hc. destruct Hc as [Hc|Hc];
    [eapply digits_text_plain; eassumption|apply IH; exact Hc].
Qed.

Lemma fields_text_tail (fields : list (list nat)) (tail : string) :
  fields_text fields tail = (fields_text fields EmptyString ++ tail)%string.
Proof.
  induction fields as [|ds fs IH]; simpl; [reflexivity|].
  fold (fields_text fs tail). fold (fields_text fs EmptyString).
  rewrite IH. f_equal. induction (digits_text ds) as [|c s IHs]; simpl; [reflexivity|].
  rewrite IHs. reflexivity.
Qed.

Lemma append_length (s1 s2 : string) :
  String.length (s1 ++ s2) = (String.length s1 + String.length s2)%nat.
Proof. induction s1 as [|c s1 IH]; simpl; [reflexivity|]. rewrite IH. reflexivity. Qed.

Lemma append_assoc (s1 s2 s3 : string) :
  ((s1 ++ s2) ++ s3 = s1 ++ (s2 ++ s3))%string.
Proof. induction s1 as [|c s1 IH]; simpl; [reflexivity|]. rewrite IH. reflexivity. Qed.

(** [fgets] takes a whole line that fits the buffer. *)
Lemma fgets_chars_line (body : string) :
  forall room rest,
    (forall c, In c (list_ascii_of_string body) -> Ascii.eqb c Scan.newline = false) ->
    (String.length body < room)%nat ->
    Scan.fgets_chars room (body ++ end_of_line ++ rest)
    = ((body ++ end_of_line)%string, rest).
Proof.
  induction body as [|c body IH]; intros room rest Hn Hl.
  - destruct room as [|room]; [simpl in Hl; lia|]. reflexivity.
  - destruct room as [|room]; [simpl in Hl; lia|].
    cbn [append Scan.fgets_chars].
    rewrite (Hn c) by (left; reflexivity).
    rewrite IH; [reflexivity| |simpl in Hl; lia].
    intros c' Hc. apply Hn. right. exact Hc.
Qed.

Lemma fgets_cpu_line (fields : list (list nat)) (rest : string) :
  Forall decimal_field fields ->
  (String.length (cpu_line fields) <= 4095)%nat ->
  Scan.fgets 4096 (cpu_line fields ++ rest) = Some (cpu_line fields, rest).
Proof.
  intros Hf Hl. unfold cpu_line in *. rewrite fields_text_tail in *.
  set (body := ("cpu" ++ fields_text fields EmptyString)%string).
  assert (E : ("cpu" ++ fields_text fields EmptyString ++ end_of_line)%string
              = (body ++ end_of_line)%string).
  { subst body. rewrite append_assoc. reflexivity. }
  rewrite E in *. rewrite append_assoc.
  unfold Scan.fgets.
  assert (Hb : exists c b, body = String c b) by (subst body; simpl; eauto).
  destruct Hb as (c & b & Hb).
  replace ((body ++ end_of_line ++ rest)%string)
    with (String c (b ++ end_of_line ++ rest)%string) by (rewrite Hb; reflexivity).
  replace (String c (b ++ end_of_line ++ rest)%string)
    with ((body ++ end_of_line ++ rest)%string) by (rewrite Hb; reflexivity).
  rewrite fgets_chars_line; [reflexivity| |].
  - intros c' Hc. subst body. apply in_append in Hc. destruct Hc as [Hc|Hc].
    + simpl in Hc. destruct Hc as [<-|[<-|[<-|[]]]]; reflexivity.
    + apply (fields_text_plain fields Hf c' Hc).
  - rewrite append_length in Hl. change (String.length end_of_line) with 1%nat in Hl. lia.
Qed.

Lemma sscanf_cpu_line (fields : list (list nat)) :
  Forall decimal_field fields ->
  Scan.sscanf Scan.cpu_format (cpu_line fields)
  = let vals := map field_value (firstn 8 fields) in
    if (8 <=? List.length fields)%nat then (Z.of_nat (List.length vals), vals)
    else Scan.input_failure vals.
Proof.
  intros Hf. unfold Scan.sscanf.
  rewrite c_str_nul_free.
  - change Scan.cpu_format
      with (Scan.Lit "c"%char :: Scan.Lit "p"%char :: Scan.Lit "u"%char :: conversions 8).
    unfold cpu_line. cbn [append Scan.sscanf_from]. cbn [Ascii.eqb Bool.eqb].
    cbv iota. rewrite (sscanf_fields 8 fields [] Hf). reflexivity.
  - intros c Hc. unfold cpu_line in Hc. rewrite fields_text_tail in Hc.
    apply in_append in Hc. destruct Hc as [Hc|Hc].
    + simpl in Hc. destruct Hc as [<-|[<-|[<-|[]]]]; reflexivity.
    + apply in_append in Hc. destruct Hc as [Hc|Hc].
      * apply (fields_text_plain fields Hf c Hc).
      * simpl in Hc. destruct Hc as [<-|[]]. reflexivity.
Qed.

(** A line "cpu f1 ... fk" of five fields or more that fits the buffer is the
    first valid line of a file that starts with it. *)
Lemma first_valid_cpu_line (fields : list (list nat)) (rest : string) :
  Forall decimal_field fields ->
  (5 <= List.length fields)%nat ->
  (String.length (cpu_line fields) <= 4095)%nat ->
  first_valid_line (cpu_line fields ++ rest) (cpu_line fields)
  /\ Scan.sscanf Scan.cpu_format (cpu_line fields)
     = (Z.of_nat (Nat.min 8 (List.length fields)), map field_value (firstn 8 fields)).
Proof.
  intros Hf H5 Hl.
  assert (Hs : Scan.sscanf Scan.cpu_format (cpu_line fields)
               = (Z.of_nat (Nat.min 8 (List.length fields)),
                  map field_value (firstn 8 fields))).
  { rewrite (sscanf_cpu_line fields Hf). cbv zeta.
    assert (Hlen : List.length (map field_value (firstn 8 fields))
                   = Nat.min 8 (List.length fields)).
    { rewrite length_map, length_firstn. reflexivity. }
    destruct (Nat.leb_spec 8 (List.length fields)).
    - rewrite Hlen. reflexivity.
    - unfold Scan.input_failure.
      destruct (map field_value (firstn 8 fields)) as [|v vs] eqn:E.
      + cbn [Datatypes.length] in Hlen. lia.
      + rewrite <- Hlen. reflexivity. }
  split; [|exact Hs].
  apply fvl_here with (rest := rest).
  - apply fgets_cpu_line; assumption.
  - unfold valid_line. rewrite Hs. cbn [fst]. apply Z.gtb_lt. lia.
Qed.

Lemma field_value_small (ds : list nat) :
  digits_value ds < 2 ^ 64 -> field_value ds = digits_value ds.
Proof.
  intros H. unfold field_value, Scan.strtoull_value, UINT64_MAX.
  destruct (Z.ltb_spec (2 ^ 64 - 1) (digits_value ds)); [lia|reflexivity].
Qed.

Lemma digits_value_nonneg (ds : list nat) : 0 <= digits_value ds.
Proof.
  unfold digits_value.
  assert (H : forall acc, 0 <= acc ->
                0 <= fold_left (fun a d => a * 10 + Z.of_nat d) ds acc).
  { induction ds as [|d ds IH]; intros acc Ha; simpl; [exact Ha|]. apply IH. lia. }
  apply H. lia.
Qed.

(** ** Rounding to binary64 *)

Lemma digits2_pos_spec (p : positive) :
  2 ^ (Zpos (digits2_pos p) - 1) <= Zpos p < 2 ^ Zpos (digits2_pos p).
Proof.
  induction p as [p IH|p IH|]; cbn [digits2_pos].
  - rewrite Pos2Z.inj_succ.
    replace (Z.succ (Zpos (digits2_pos p)) - 1) with (Z.succ (Zpos (digits2_pos p) - 1)) by lia.
    rewrite !Z.pow_succ_r by lia. lia.
  - rewrite Pos2Z.inj_succ.
    replace (Z.succ (Zpos (digits2_pos p)) - 1) with (Z.succ (Zpos (digits2_pos p) - 1)) by lia.
    rewrite !Z.pow_succ_r by lia. lia.
  - simpl. lia.
Qed.

Lemma Zdigits2_spec (m : Z) :
  0 < m -> 2 ^ (Zdigits2 m - 1) <= m < 2 ^ Zdigits2 m.
Proof. destruct m as [|p|p]; try lia. intros _. apply digits2_pos_spec. Qed.

Lemma Zdigits2_pos (m : Z) : 0 < m -> 0 < Zdigits2 m.
Proof. destruct m; simpl; lia. Qed.

Lemma Zdigits2_unique (m k : Z) :
  2 ^ (k - 1) <= m < 2 ^ k -> 0 < m -> Zdigits2 m = k.
Proof.
  intros Hk Hm.
  pose proof (Zdigits2_spec m Hm) as Hd.
  pose proof (Zdigits2_pos m Hm) as Hp.
  assert (0 < k).
  { destruct (Z_lt_le_dec 0 k); auto.
    assert (2 ^ k <= 2 ^ 0) by (apply Z.pow_le_mono_r; lia).
    change (2 ^ 0) with 1 in *. lia. }
  destruct (Z_lt_le_dec (Zdigits2 m) k).
  - assert (2 ^ Zdigits2 m <= 2 ^ (k - 1)) by (apply Z.pow_le_mono_r; lia). lia.
  - destruct (Z_lt_le_dec k (Zdigits2 m)); [|lia].
    assert (2 ^ k <= 2 ^ (Zdigits2 m - 1)) by (apply Z.pow_le_mono_r; lia). lia.
Qed.

Lemma shr_m_of_loc (m : Z) (l : location) : shr_m (shr_record_of_loc m l) = m.
Proof. destruct l as [|[| |]]; reflexivity. Qed.

Lemma shr_1_m (mrs : shr_record) :
  0 <= shr_m mrs -> shr_m (shr_1 mrs) = shr_m mrs / 2.
Proof.
  destruct mrs as [m r s]. cbn [shr_m]. intros Hm.
  destruct m as [|[p|p|]|p]; cbn [shr_1 shr_m]; try lia.
  - reflexivity.
  - apply Z.div_unique with 1; lia.
  - apply Z.div_unique with 0; lia.
  - reflexivity.
Qed.

Lemma iter_pos_shr_m (n : positive) :
  forall mrs, 0 <= shr_m mrs ->
    shr_m (iter_pos shr_1 n mrs) = shr_m mrs / 2 ^ Zpos n.
Proof.
  induction n as [n IH|n IH|]; intros mrs Hm; cbn [iter_pos].
  - assert (H1 : 0 <= shr_m (shr_1 mrs)).
    { rewrite shr_1_m by exact Hm. apply Z.div_pos; lia. }
    assert (H2 : 0 <= shr_m (iter_pos shr_1 n (shr_1 mrs))).
    { rewrite IH by exact H1. apply Z.div_pos; [exact H1|]. apply Z.pow_pos_nonneg; lia. }
    rewrite IH by exact H2. rewrite IH by exact H1. rewrite shr_1_m by exact Hm.
    assert (Hp : 0 < 2 ^ Zpos n) by (apply Z.pow_pos_nonneg; lia).
    assert (E : 2 ^ Zpos n~1 = 2 * 2 ^ Zpos n * 2 ^ Zpos n).
    { replace (Zpos n~1) with (1 + Zpos n + Zpos n) by lia.
      rewrite !Z.pow_add_r by lia. reflexivity. }
    rewrite E, !Z.div_div by lia. f_equal. lia.
  - assert (H2 : 0 <= shr_m (iter_pos shr_1 n mrs)).
    { rewrite IH by exact Hm. apply Z.div_pos; [exact Hm|]. apply Z.pow_pos_nonneg; lia. }
    rewrite IH by exact H2. rewrite IH by exact Hm.
    assert (Hp : 0 < 2 ^ Zpos n) by (apply Z.pow_pos_nonneg; lia).
    assert (E : 2 ^ Zpos n~0 = 2 ^ Zpos n * 2 ^ Zpos n).
    { replace (Zpos n~0) with (Zpos n + Zpos n) by lia.
      rewrite !Z.pow_add_r by lia. reflexivity. }
    rewrite E, !Z.div_div by lia. reflexivity.
  - rewrite shr_1_m by exact Hm. reflexivity.
Qed.

Lemma shr_spec (mrs : shr_record) (e n : Z) :
  0 <= n -> 0 <= shr_m mrs ->
  shr_m (fst (shr mrs e n)) = shr_m mrs / 2 ^ n /\ snd (shr mrs e n) = e + n.
Proof.
  intros Hn Hm. destruct n as [|p|p]; try lia; simpl.
  - rewrite Z.div_1_r. split; [reflexivity|lia].
  - split; [apply iter_pos_shr_m; exact Hm|reflexivity].
Qed.

Lemma round_nearest_even_bounds (m : Z) (l : location) :
  m <= round_nearest_even m l <= m + 1.
Proof.
  destruct l as [|[| |]]; simpl; try lia.
  destruct (Z.even m); lia.
Qed.

(** Rounding a mantissa of at least 53 digits, away from the subnormal
    numbers and from overflow: the result has 53 digits, and its exponent is
    the one that fits, or the next when the rounding carries. *)
Lemma binary_round_aux_normal (sx : bool) (mx ex : Z) (lx : location) :
  0 < mx ->
  53 <= Zdigits2 mx ->
  - 1074 <= Zdigits2 mx + ex - 53 ->
  Zdigits2 mx + ex - 52 <= 971 ->
  exists m e,
    binary_round_aux 53 1024 sx mx ex lx = S754_finite sx m e
    /\ 2 ^ 52 <= Zpos m < 2 ^ 53
    /\ Zdigits2 mx + ex - 53 <= e <= Zdigits2 mx + ex - 52.
Proof.
  intros Hm Hd Hlo Hhi.
  pose proof (Zdigits2_spec mx Hm) as Hdig.
  set (d := Zdigits2 mx) in *.
  unfold binary_round_aux, shr_fexp.
  fold d.
  assert (Hn : fexp 53 1024 (d + ex) - ex = d - 53).
  { unfold fexp, emin. lia. }
  rewrite Hn.
  pose proof (shr_spec (shr_record_of_loc mx lx) ex (d - 53)) as Hs.
  rewrite shr_m_of_loc in Hs. destruct Hs as [Hs1 Hs2]; [lia|lia|].
  destruct (shr (shr_record_of_loc mx lx) ex (d - 53)) as [mrs1 e1].
  cbn [fst snd] in Hs1, Hs2. subst e1.
  set (m1 := shr_m mrs1) in *.
  assert (Hm1 : 2 ^ 52 <= m1 < 2 ^ 53).
  { rewrite Hs1.
    assert (Hp : 0 < 2 ^ (d - 53)) by (apply Z.pow_pos_nonneg; lia).
    assert (E1 : 2 ^ (d - 1) = 2 ^ 52 * 2 ^ (d - 53)).
    { rewrite <- Z.pow_add_r by lia. f_equal. lia. }
    assert (E2 : 2 ^ d = 2 ^ 53 * 2 ^ (d - 53)).
    { rewrite <- Z.pow_add_r by lia. f_equal. lia. }
    split.
    - apply Z.div_le_lower_bound; [exact Hp|]. lia.
    - apply Z.div_lt_upper_bound; [exact Hp|]. lia. }
  pose proof (round_nearest_even_bounds m1 (loc_of_shr_record mrs1)) as Hr.
  set (m2 := round_nearest_even m1 (loc_of_shr_record mrs1)) in *.
  assert (Hm2 : 0 < m2) by lia.
  destruct (Z_lt_le_dec m2 (2 ^ 53)) as [Hlt|Hge].
  - (* no carry *)
    assert (Hd2 : Zdigits2 m2 = 53) by (apply Zdigits2_unique; simpl; lia).
    rewrite Hd2.
    assert (Hn2 : fexp 53 1024 (53 + (ex + (d - 53))) - (ex + (d - 53)) = 0).
    { unfold fexp, emin. lia. }
    rewrite Hn2. cbn [shr shr_record_of_loc shr_m].
    destruct m2 as [|p2|p2]; try lia.
    assert (Hle : (ex + (d - 53) <=? 1024 - 53) = true) by (apply Z.leb_le; lia).
    rewrite Hle. exists p2, (ex + (d - 53)). repeat split; try lia.
  - (* the rounding carried to 2^53 *)
    assert (Heq : m2 = 2 ^ 53) by lia.
    rewrite Heq.
    change (Zdigits2 (2 ^ 53)) with 54.
    assert (Hn2 : fexp 53 1024 (54 + (ex + (d - 53))) - (ex + (d - 53)) = 1).
    { unfold fexp, emin. lia. }
    rewrite Hn2. cbn.
    assert (Hle : (ex + (d - 53) + 1 <=? 971) = true) by (apply Z.leb_le; lia).
    rewrite Hle. eexists; eexists. split; [reflexivity|]. split; [vm_compute; split; congruence|lia].
Qed.

Lemma Zdigits2_le (z k : Z) : 0 < z < 2 ^ k -> Zdigits2 z <= k.
Proof.
  intros [Hz Hk]. pose proof (Zdigits2_spec z Hz) as Hd.
  pose proof (Zdigits2_pos z Hz).
  destruct (Z_lt_le_dec k (Zdigits2 z)); [|lia].
  destruct (Z_lt_le_dec k 0).
  - rewrite Z.pow_neg_r in Hk by lia. lia.
  - assert (2 ^ k <= 2 ^ (Zdigits2 z - 1)) by (apply Z.pow_le_mono_r; lia). lia.
Qed.

Lemma Zdigits2_ge (z k : Z) : 0 < z -> 2 ^ (k - 1) <= z -> k <= Zdigits2 z.
Proof.
  intros Hz Hk. pose proof (Zdigits2_spec z Hz) as Hd.
  pose proof (Zdigits2_pos z Hz).
  destruct (Z_lt_le_dec (Zdigits2 z) k); [|lia].
  assert (2 ^ Zdigits2 z <= 2 ^ (k - 1)) by (apply Z.pow_le_mono_r; lia). lia.
Qed.

Lemma iter_xO_spec (k p : positive) :
  Zpos (Pos.iter xO p k) = Zpos p * 2 ^ Zpos k.
Proof.
  induction k as [|k IH] using Pos.peano_ind.
  - simpl. lia.
  - rewrite Pos.iter_succ, Pos2Z.inj_succ, Z.pow_succ_r by lia.
    rewrite Pos2Z.inj_xO, IH. lia.
Qed.

(** The double nearest to a positive 64-bit integer. *)
Lemma of_Z_finite (z : Z) :
  0 < z < 2 ^ 64 ->
  exists m e,
    Double.of_Z z = S754_finite false m e
    /\ 2 ^ 52 <= Zpos m < 2 ^ 53
    /\ Zdigits2 z - 53 <= e <= Zdigits2 z - 52.
Proof.
  intros [Hz Hlt].
  pose proof (Zdigits2_spec z Hz) as Hd.
  pose proof (Zdigits2_pos z Hz) as Hp.
  pose proof (Zdigits2_le z 64 (conj Hz Hlt)) as H64.
  destruct z as [|p|p]; try lia.
  unfold Double.of_Z, Double.prec, Double.emax, binary_normalize, binary_round.
  change (Zpos (digits2_pos p)) with (Zdigits2 (Zpos p)).
  set (d := Zdigits2 (Zpos p)) in *.
  assert (Hf : fexp 53 1024 (d + 0) = d - 53) by (unfold fexp, emin; lia).
  rewrite Hf. unfold shl_align.
  destruct (d - 53 - 0) as [|k|k] eqn:Hk.
  - destruct (binary_round_aux_normal false (Zpos p) 0 loc_Exact) as (m & e & E & Hm & He);
      fold d; try lia.
    exists m, e. fold d in He. repeat split; try tauto; lia.
  - destruct (binary_round_aux_normal false (Zpos p) 0 loc_Exact) as (m & e & E & Hm & He);
      fold d; try lia.
    exists m, e. fold d in He. repeat split; try tauto; lia.
  - assert (Hk' : Zpos k = 53 - d) by lia.
    assert (Hdig : Zdigits2 (Zpos (Pos.iter xO p k)) = 53).
    { apply Zdigits2_unique; [|lia]. rewrite iter_xO_spec, Hk'.
      assert (E1 : 2 ^ (53 - 1) = 2 ^ (d - 1) * 2 ^ (53 - d)).
      { rewrite <- Z.pow_add_r by lia. f_equal. lia. }
      assert (E2 : 2 ^ 53 = 2 ^ d * 2 ^ (53 - d)).
      { rewrite <- Z.pow_add_r by lia. f_equal. lia. }
      assert (0 < 2 ^ (53 - d)) by (apply Z.pow_pos_nonneg; lia).
      rewrite E1, E2. split; [apply Z.mul_le_mono_nonneg_r|apply Z.mul_lt_mono_pos_r]; lia. }
    destruct (binary_round_aux_normal false (Zpos (Pos.iter xO p k)) (d - 53) loc_Exact)
      as (m & e & E & Hm & He); rewrite ?Hdig; try lia.
    exists m, e. rewrite Hdig in He. repeat split; try tauto; lia.
Qed.

Lemma digits_53 (m : positive) : 2 ^ 52 <= Zpos m < 2 ^ 53 -> Zdigits2 (Zpos m) = 53.
Proof. intros H. apply Zdigits2_unique; [exact H|lia]. Qed.

(** The quotient of two positive doubles, away from underflow and overflow. *)
Lemma div_finite (m1 m2 : positive) (e1 e2 : Z) :
  2 ^ 52 <= Zpos m1 < 2 ^ 53 ->
  2 ^ 52 <= Zpos m2 < 2 ^ 53 ->
  - 1074 <= e1 - e2 - 53 ->
  e1 - e2 - 51 <= 971 ->
  exists m e,
    Double.div (S754_finite false m1 e1) (S754_finite false m2 e2) = S754_finite false m e
    /\ 2 ^ 52 <= Zpos m < 2 ^ 53
    /\ e1 - e2 - 53 <= e <= e1 - e2 - 51.
Proof.
  intros H1 H2 Hlo Hhi.
  unfold Double.div, Double.prec, Double.emax, SFdiv, SFdiv_core_binary.
  rewrite (digits_53 m1 H1), (digits_53 m2 H2).
  assert (He' : Z.min (fexp 53 1024 (53 + e1 - (53 + e2))) (e1 - e2) = e1 - e2 - 53).
  { unfold fexp, emin. lia. }
  rewrite He'.
  replace (e1 - e2 - (e1 - e2 - 53)) with 53 by lia.
  rewrite Z.shiftl_mul_pow2 by lia.
  pose proof (Z_div_mod (Zpos m1 * 2 ^ 53) (Zpos m2) ltac:(lia)) as Hdm.
  destruct (Z.div_eucl (Zpos m1 * 2 ^ 53) (Zpos m2)) as [q r].
  destruct Hdm as [Hq Hr].
  assert (Hqb : 2 ^ 52 <= q < 2 ^ 54).
  { change (2 ^ 54) with (2 * 2 ^ 53). split; nia. }
  assert (Hq0 : 0 < q) by lia.
  assert (Hdq : 53 <= Zdigits2 q <= 54).
  { split; [apply Zdigits2_ge; simpl; lia|apply Zdigits2_le; lia]. }
  destruct (binary_round_aux_normal false q (e1 - e2 - 53) (new_location (Zpos m2) r))
    as (m & e & E & Hm & He); try lia.
  exists m, e. simpl xorb. repeat split; try tauto; lia.
Qed.

(** The product of two positive doubles, away from underflow and overflow. *)
Lemma mul_finite (m1 m2 : positive) (e1 e2 : Z) :
  2 ^ 52 <= Zpos m1 < 2 ^ 53 ->
  2 ^ 52 <= Zpos m2 < 2 ^ 53 ->
  - 1074 <= e1 + e2 + 52 ->
  e1 + e2 + 54 <= 971 ->
  exists m e,
    Double.mul (S754_finite false m1 e1) (S754_finite false m2 e2) = S754_finite false m e
    /\ 2 ^ 52 <= Zpos m < 2 ^ 53
    /\ e1 + e2 + 52 <= e <= e1 + e2 + 54.
Proof.
  intros H1 H2 Hlo Hhi.
  unfold Double.mul, Double.prec, Double.emax, SFmul.
  assert (Hp : 2 ^ 104 <= Zpos (m1 * m2) < 2 ^ 106).
  { rewrite Pos2Z.inj_mul.
    change (2 ^ 104) with (2 ^ 52 * 2 ^ 52). change (2 ^ 106) with (2 ^ 53 * 2 ^ 53).
    split; nia. }
  assert (Hd : 105 <= Zdigits2 (Zpos (m1 * m2)) <= 106).
  { split; [apply Zdigits2_ge; simpl; lia|apply Zdigits2_le; lia]. }
  destruct (binary_round_aux_normal false (Zpos (m1 * m2)) (e1 + e2) loc_Exact)
    as (m & e & E & Hm & He); try lia.
  exists m, e. simpl xorb. repeat split; try tauto; lia.
Qed.

(** ** The steal percentage *)

Lemma of_Z_100 : Double.of_Z 100 = S754_finite false 7036874417766400 (-46).
Proof. reflexivity. Qed.

Lemma steal_percent_finite (a b : Z) :
  0 < a < 2 ^ 64 -> 0 < b < 2 ^ 64 ->
  exists m e,
    steal_percent a b = S754_finite false m e
    /\ 2 ^ 52 <= Zpos m < 2 ^ 53
    /\ Zdigits2 a - Zdigits2 b - 48 <= e <= Zdigits2 a - Zdigits2 b - 42.
Proof.
  intros Ha Hb.
  destruct (of_Z_finite a Ha) as (m1 & e1 & E1 & M1 & X1).
  destruct (of_Z_finite b Hb) as (m2 & e2 & E2 & M2 & X2).
  pose proof (Zdigits2_pos a ltac:(lia)). pose proof (Zdigits2_le a 64 Ha).
  pose proof (Zdigits2_pos b ltac:(lia)). pose proof (Zdigits2_le b 64 Hb).
  destruct (div_finite m1 m2 e1 e2 M1 M2) as (m3 & e3 & E3 & M3 & X3); try lia.
  assert (M100 : 2 ^ 52 <= Zpos 7036874417766400 < 2 ^ 53) by (vm_compute; split; congruence).
  destruct (mul_finite m3 7036874417766400 e3 (-46) M3 M100) as (m4 & e4 & E4 & M4 & X4);
    try lia.
  exists m4, e4. unfold steal_percent. rewrite E1, E2, E3, of_Z_100, E4.
  repeat split; try tauto; lia.
Qed.

Lemma steal_percent_zero_elapsed (a : Z) :
  0 <= a < 2 ^ 64 ->
  steal_percent a 0 = if a =? 0 then Double.nan else Double.pos_infinity.
Proof.
  intros Ha. destruct (Z.eqb_spec a 0) as [->|Hn]; [reflexivity|].
  destruct (of_Z_finite a ltac:(lia)) as (m & e & E & _).
  unfold steal_percent. rewrite E. reflexivity.
Qed.

Lemma steal_percent_not_negative (a b : Z) :
  0 <= a < 2 ^ 64 -> 0 <= b < 2 ^ 64 ->
  Double.is_negative (steal_percent a b) = false.
Proof.
  intros Ha Hb.
  destruct (Z.eq_dec b 0) as [->|Hb0].
  { rewrite steal_percent_zero_elapsed by exact Ha. destruct (a =? 0); reflexivity. }
  destruct (Z.eq_dec a 0) as [->|Ha0].
  { destruct (of_Z_finite b ltac:(lia)) as (m & e & E & _).
    unfold steal_percent. rewrite E. reflexivity. }
  destruct (steal_percent_finite a b) as (m & e & E & _); try lia.
  rewrite E. reflexivity.
Qed.

(** A steal difference that wrapped around, over a wait of less than 2^42
    nanoseconds (73 minutes), makes more than 2^25 percent. *)
Lemma steal_percent_huge (a b : Z) :
  2 ^ 63 <= a < 2 ^ 64 -> 0 < b < 2 ^ 42 ->
  Double.gt (steal_percent a b) (Double.of_Z (2 ^ 25)) = true.
Proof.
  intros Ha Hb.
  destruct (steal_percent_finite a b) as (m & e & E & M & X); try lia.
  assert (Hda : Zdigits2 a = 64).
  { apply Zdigits2_unique; simpl; lia. }
  assert (Hdb : Zdigits2 b <= 42) by (apply Zdigits2_le; lia).
  rewrite E.
  change (Double.of_Z (2 ^ 25)) with (S754_finite false 4503599627370496 (-27)).
  unfold Double.gt, SFltb, SFcompare.
  assert (Hc : (-27 ?= e) = Lt) by (apply Z.compare_lt_iff; lia).
  rewrite Hc. reflexivity.
Qed.

Example steal_percent_fixture :
  steal_percent 50000000 250000000 = Double.of_Z 20.
Proof. reflexivity. Qed.

(** ** The flag [display_statistics] *)

Lemma handle_signals_display (sigs : list signal) :
  forall st,
    display_statistics (handle_signals sigs st)
    = if existsb is_statistics_signal sigs then 1 else display_statistics st.
Proof.
  unfold handle_signals.
  induction sigs as [|s sigs IH]; intros st; [reflexivity|].
  simpl. rewrite IH. destruct s; simpl; try reflexivity.
  destruct (existsb is_statistics_signal sigs); reflexivity.
Qed.

Lemma sample_before_display cfg e st :
  display_statistics (sample_before cfg e st) = display_statistics st.
Proof.
  pose proof (sample_before_frame cfg e st) as H. simpl in H.
  destruct H as (_ & _ & H & _). exact H.
Qed.

(** The flag as the iteration finds it when it tests it. *)
Lemma display_at_test cfg e st :
  negb (display_statistics (handle_signals (env_sig_enter e) (sample_before cfg e st)) =? 0)
  = negb (display_statistics st =? 0) || existsb is_statistics_signal (env_sig_enter e).
Proof.
  rewrite handle_signals_display, sample_before_display.
  destruct (existsb is_statistics_signal (env_sig_enter e)); simpl.
  - rewrite orb_true_r. reflexivity.
  - rewrite orb_false_r. reflexivity.
Qed.

(** * The claims *)

(** The maximum gap of a configured timeout, in nanoseconds. *)
Lemma configured_gap_in_nanoseconds cfg g timeout clock_start :
  1 <= timeout <= MAX_TIMEOUT ->
  tv_max_allowed_diff (poll_run_init cfg g timeout clock_start)
  = timeout * NO_NS_IN_MSEC.
Proof.
  intros H. cbn [poll_run_init tv_max_allowed_diff]. apply wrap64_small.
  unfold MAX_TIMEOUT, NO_NS_IN_MSEC in *. lia.
Qed.

(** C1, as the claim states it, fails: in an iteration in which the clock did
    not move between the two samples ([tv_diff] is 0) the percentage is
    computed like in any other, by the division of [steal_diff] by
    [tv_diff].  Here 10,000,000 ns of steal time were accounted for in the
    meantime: the division by zero gives plus infinity, and that is the value
    [steal_perc] holds afterwards. *)
Lemma zero_elapsed_is_divided_by :
  let st := Sample.start Sample.cfg in
  let st' := Sample.after (poll_iter Sample.cfg Sample.no_time st) in
  poll_iter Sample.cfg Sample.no_time st = Continue st'
  /\ tv_diff st' = 0
  /\ steal_diff st' = 10000000
  /\ steal_perc st'
     = Double.mul (Double.div (Double.of_Z 10000000) (Double.of_Z 0)) (Double.of_Z 100)
  /\ steal_perc st' = Double.pos_infinity
  /\ Double.is_finite (steal_perc st') = false.
Proof. vm_compute. repeat split. Qed.

(** C1, amended: an iteration whose measured elapsed time is zero still
    computes the steal percentage by the floating-point division
    [steal_diff / tv_diff], there is no guard.  Dividing a double by zero
    does not trap: the result is a NaN when the steal difference is zero too
    and plus infinity otherwise, never a finite number.  Because 0 is not
    greater than any maximum gap, the iteration is not an overrun whatever
    that value is: the counter keeps its value and neither the "Not
    scheduled" line nor the steal warning is printed.  The iteration is
    reported by its debug line, which is logged once, directly before the
    call of [poll], and shown at debug level 1 and above.  Everything the
    iteration does is: the lines of the first steal sample, the statistics
    line if the flag is up when it is tested, the debug line, the call of
    [poll], and the lines of the second steal sample, in this order; the
    lines of a sample are those of the steal-time source. *)
Theorem zero_elapsed_iteration cfg e st st' :
  0 <= tv_max_allowed_diff st ->
  poll_iter cfg e st = Continue st' ->
  tv_diff st' = 0 ->
  steal_perc st'
  = Double.mul (Double.div (Double.of_Z (steal_diff st')) (Double.of_Z 0)) (Double.of_Z 100)
  /\ steal_perc st' = (if steal_diff st' =? 0 then Double.nan else Double.pos_infinity)
  /\ Double.is_finite (steal_perc st') = false
  /\ times_not_scheduled st' = times_not_scheduled st
  /\ count_events is_not_scheduled (new_events st st') = 0%nat
  /\ count_events is_steal_high (new_events st st') = 0%nat
  /\ In (EvLog LOG_DEBUG
           (MsgIteration (tv_prev st') (tv_max_allowed_diff st) (poll_timeout st)
              (steal_prev st')))
        (new_events st st')
  /\ (forall log_debug, log_shown log_debug LOG_DEBUG = (1 <=? log_debug))
  /\ new_events st st'
     = snd (nano_stealtime_get cfg (guest_prev st) (env_steal_prev e))
       ++ (if negb (display_statistics st =? 0)
              || existsb is_statistics_signal (env_sig_enter e)
           then [stat_event e st] else [])
       ++ [EvLog LOG_DEBUG
             (MsgIteration (tv_prev st') (tv_max_allowed_diff st) (poll_timeout st)
                (steal_prev st'));
           EvPoll (Z.max 0 (poll_timeout st))]
       ++ snd (nano_stealtime_get cfg (guest_prev (poll_iter_enter cfg e st))
                 (env_steal_now e))
  /\ forallb is_steal_source_event
       (snd (nano_stealtime_get cfg (guest_prev st) (env_steal_prev e))) = true
  /\ forallb is_steal_source_event
       (snd (nano_stealtime_get cfg (guest_prev (poll_iter_enter cfg e st))
               (env_steal_now e))) = true
  /\ count_events is_iteration_line (new_events st st') = 1%nat.
Proof.
  intros HG Hi H0.
  pose proof (poll_iter_continue_spec cfg e st st' Hi) as S. simpl in S.
  destruct S as (Hd & _ & _ & _ & Hsd & Hsp & Ht & Htr & Hc & Hh & _).
  rewrite (new_events_app st st' _ Htr).
  assert (Hov : (0 >? tv_max_allowed_diff st) = false).
  { rewrite Z.gtb_ltb. apply Z.ltb_ge. exact HG. }
  assert (Hr : 0 <= steal_diff st' < 2 ^ 64) by (rewrite Hsd; apply wrap64_range).
  assert (Hperc : steal_perc st'
                  = if steal_diff st' =? 0 then Double.nan else Double.pos_infinity).
  { rewrite Hsp, H0. apply steal_percent_zero_elapsed. exact Hr. }
  pose proof (nano_stealtime_get_events cfg (guest_prev st) (env_steal_prev e)) as Eb.
  pose proof (nano_stealtime_get_events cfg (guest_prev (poll_iter_enter cfg e st))
                (env_steal_now e)) as Ea.
  pose proof (poll_iter_enter_frame cfg e st) as He. cbv zeta in He.
  destruct He as (_ & Hp & Hm & _ & Hstp & _).
  assert (Hst' : st' = poll_iter_measure cfg e (poll_iter_enter cfg e st))
    by (apply poll_iter_continue in Hi; apply Hi).
  pose proof (poll_iter_measure_frame cfg e (poll_iter_enter cfg e st)) as Hf.
  cbv zeta in Hf. destruct Hf as (_ & _ & F3 & _ & F5 & _).
  rewrite <- Hst' in F3, F5.
  assert (Hshape :
    enter_events cfg e st ++ measure_events cfg e (poll_iter_enter cfg e st)
    = snd (nano_stealtime_get cfg (guest_prev st) (env_steal_prev e))
      ++ (if negb (display_statistics st =? 0)
             || existsb is_statistics_signal (env_sig_enter e)
          then [stat_event e st] else [])
      ++ [EvLog LOG_DEBUG
            (MsgIteration (tv_prev st') (tv_max_allowed_diff st) (poll_timeout st)
               (steal_prev st'));
          EvPoll (Z.max 0 (poll_timeout st))]
      ++ snd (nano_stealtime_get cfg (guest_prev (poll_iter_enter cfg e st))
                (env_steal_now e))).
  { unfold enter_events, measure_events. cbv zeta.
    rewrite display_at_test, Hp, Hm, <- Hd, H0, Hov, app_nil_r.
    rewrite F3, F5, Hp, Hstp.
    rewrite <- !app_assoc. reflexivity. }
  rewrite H0 in Hsp, Ht, Hc. rewrite Hov in Ht, Hc.
  split; [exact Hsp|]. split; [exact Hperc|].
  split; [rewrite Hperc; destruct (steal_diff st' =? 0); reflexivity|].
  split; [exact Ht|]. split; [exact Hc|]. split; [lia|].
  split.
  { rewrite Hshape. apply in_or_app. right. apply in_or_app. right.
    left. reflexivity. }
  split; [intros d; unfold log_shown; simpl; apply orb_false_r|].
  split; [exact Hshape|]. split; [exact Eb|]. split; [exact Ea|].
  rewrite Hshape, !count_events_app.
  assert (Hno : forall ev, is_steal_source_event ev = true -> is_iteration_line ev = false)
    by (intros [p m|t]; [destruct m|]; simpl; congruence).
  rewrite (count_steal_events is_iteration_line _ Hno Eb).
  rewrite (count_steal_events is_iteration_line _ Hno Ea).
  destruct (negb (display_statistics st =? 0)
            || existsb is_statistics_signal (env_sig_enter e)); reflexivity.
Qed.

Lemma zero_elapsed_iteration_witness :
  let st := Sample.start Sample.cfg in
  let st' := Sample.after (poll_iter Sample.cfg Sample.no_time st) in
  0 <= tv_max_allowed_diff st
  /\ poll_iter Sample.cfg Sample.no_time st = Continue st'
  /\ tv_diff st' = 0
  /\ times_not_scheduled st' = times_not_scheduled st.
Proof.
  intros st st'.
  assert (H1 : 0 <= tv_max_allowed_diff st) by (vm_compute; discriminate).
  assert (H2 : poll_iter Sample.cfg Sample.no_time st = Continue st')
    by (vm_compute; reflexivity).
  assert (H3 : tv_diff st' = 0) by (vm_compute; reflexivity).
  split; [exact H1|]. split; [exact H2|]. split; [exact H3|].
  destruct (zero_elapsed_iteration Sample.cfg Sample.no_time st st' H1 H2 H3)
    as (_ & _ & _ & Ht & _).
  exact Ht.
Defined.

(** C2: in every iteration that reaches the measurement, with [E] the elapsed
    time it measured (the second clock sample minus the first, modulo 2^64)
    and [G] the maximum gap in nanoseconds, the iteration is treated as an
    overrun (the "Not scheduled" line is printed, once, and the counter
    changes) if and only if [E > G].  With [E = G] it is not an overrun.  The
    gap itself is not changed by the iteration. *)
Theorem overrun_iff_elapsed_exceeds_gap cfg e st st' :
  poll_iter cfg e st = Continue st' ->
  let E := tv_diff st' in
  let G := tv_max_allowed_diff st in
  E = wrap64 (nano_current_get (env_clock_now e) - nano_current_get (env_clock_prev e))
  /\ (count_events is_not_scheduled (new_events st st') = 1%nat <-> E > G)
  /\ (count_events is_not_scheduled (new_events st st') = 0%nat <-> E <= G)
  /\ (times_not_scheduled st' <> times_not_scheduled st <-> E > G)
  /\ (E = G -> count_events is_not_scheduled (new_events st st') = 0%nat
               /\ times_not_scheduled st' = times_not_scheduled st)
  /\ tv_max_allowed_diff st' = G.
Proof.
  intros H E G.
  pose proof (poll_iter_continue_spec cfg e st st' H) as S. simpl in S.
  destruct S as (Hd & Hm & _ & _ & _ & _ & Ht & Htr & Hc & _ & _).
  rewrite (new_events_app st st' _ Htr), Hc, Ht.
  fold E G. subst E G.
  destruct (Z.gtb_spec (tv_diff st') (tv_max_allowed_diff st)) as [Hgt|Hle].
  - split; [exact Hd|]. split; [split; [lia|reflexivity]|].
    split; [split; [discriminate|lia]|].
    split; [split; [lia|intros _; apply wrap64_succ_neq]|].
    split; [lia|exact Hm].
  - split; [exact Hd|]. split; [split; [discriminate|lia]|].
    split; [split; [lia|reflexivity]|].
    split; [split; [congruence|lia]|].
    split; [auto|exact Hm].
Qed.

Lemma overrun_iff_elapsed_exceeds_gap_witness :
  let st := Sample.start Sample.cfg in
  let st' := Sample.after (poll_iter Sample.cfg Sample.late st) in
  poll_iter Sample.cfg Sample.late st = Continue st'
  /\ tv_diff st' = 250000000
  /\ tv_max_allowed_diff st = 200000000
  /\ count_events is_not_scheduled (new_events st st') = 1%nat.
Proof.
  intros st st'.
  assert (H : poll_iter Sample.cfg Sample.late st = Continue st')
    by (vm_compute; reflexivity).
  destruct (overrun_iff_elapsed_exceeds_gap Sample.cfg Sample.late st st' H)
    as (_ & Hiff & _).
  assert (Hgt : tv_diff st' > tv_max_allowed_diff st) by (vm_compute; reflexivity).
  split; [exact H|].
  split; [vm_compute; reflexivity|]. split; [vm_compute; reflexivity|].
  exact (proj2 Hiff Hgt).
Defined.

(** C3: as long as the counter has not reached 2^64 - 1, an iteration adds
    exactly 1 to [times_not_scheduled] when it is an overrun and 0 when it is
    not; it adds 1 also when the steal warning is printed, which neither
    holds the increment back nor changes it.  Over a whole run (of fewer than
    2^64 iterations from the counter's value) the counter never decreases,
    and it grows by the number of "Not scheduled" lines printed. *)
Theorem overrun_counter_counts_overruns cfg clock e envs st st' :
  0 <= times_not_scheduled st ->
  times_not_scheduled st + 1 < 2 ^ 64 ->
  times_not_scheduled st + Z.of_nat (List.length envs) < 2 ^ 64 ->
  poll_iter cfg e st = Continue st' ->
  let fin := final_state (poll_loop cfg clock envs st) in
  (* one iteration *)
  times_not_scheduled st'
  = times_not_scheduled st
    + (if tv_diff st' >? tv_max_allowed_diff st then 1 else 0)
  /\ times_not_scheduled st'
     = times_not_scheduled st
       + Z.of_nat (count_events is_not_scheduled (new_events st st'))
  /\ (count_events is_steal_high (new_events st st') = 1%nat ->
      times_not_scheduled st' = times_not_scheduled st + 1)
  (* a whole run *)
  /\ times_not_scheduled st <= times_not_scheduled fin
  /\ times_not_scheduled fin
     = times_not_scheduled st
       + Z.of_nat (count_events is_not_scheduled (new_events st fin)).
Proof.
  intros H0 H1 Hn Hi fin.
  pose proof (poll_iter_continue_spec cfg e st st' Hi) as S. simpl in S.
  destruct S as (_ & _ & _ & _ & _ & _ & Ht & Htr & Hc & Hh & _).
  rewrite (new_events_app st st' _ Htr), Hc, Ht.
  destruct (poll_loop_counter cfg clock envs st H0 Hn) as (evs & E1 & E2 & _).
  fold fin in E1, E2. rewrite (new_events_app st fin _ E1), E2.
  rewrite Hc in Hh.
  destruct (tv_diff st' >? tv_max_allowed_diff st).
  - rewrite wrap64_small by lia. simpl. repeat split; lia.
  - simpl. repeat split; lia.
Qed.

Lemma overrun_counter_counts_overruns_witness :
  let st := Sample.start Sample.cfg in
  let st' := Sample.after (poll_iter Sample.cfg Sample.late st) in
  let envs := [Sample.late; Sample.on_time; Sample.late] in
  let fin := final_state (poll_loop Sample.cfg (Sample.clock 9000000000) envs st) in
  0 <= times_not_scheduled st
  /\ times_not_scheduled st + 1 < 2 ^ 64
  /\ times_not_scheduled st + Z.of_nat (List.length envs) < 2 ^ 64
  /\ poll_iter Sample.cfg Sample.late st = Continue st'
  /\ times_not_scheduled st' = 1
  /\ times_not_scheduled fin = 2
  /\ times_not_scheduled fin
     = times_not_scheduled st
       + Z.of_nat (count_events is_not_scheduled (new_events st fin)).
Proof.
  intros st st' envs fin.
  assert (H0 : 0 <= times_not_scheduled st) by (vm_compute; discriminate).
  assert (H1 : times_not_scheduled st + 1 < 2 ^ 64) by (vm_compute; reflexivity).
  assert (H2 : times_not_scheduled st + Z.of_nat (List.length envs) < 2 ^ 64)
    by (vm_compute; reflexivity).
  assert (H : poll_iter Sample.cfg Sample.late st = Continue st')
    by (vm_compute; reflexivity).
  destruct (overrun_counter_counts_overruns Sample.cfg (Sample.clock 9000000000)
              Sample.late envs st st' H0 H1 H2 H) as (_ & _ & _ & _ & Hrun).
  split; [exact H0|]. split; [exact H1|]. split; [exact H2|]. split; [exact H|].
  split; [vm_compute; reflexivity|]. split; [vm_compute; reflexivity|].
  exact Hrun.
Defined.

(** C4: an iteration ends the process exactly when [poll] returned -1 with an
    [errno] other than [EINTR]; the exit status is then 2, the error is
    logged, and nothing is measured or counted.  A wait that was interrupted
    ([EINTR]) goes on exactly like one whose [poll] returned 0.  A run of the
    loop that ends in an exit ends with status 2, in an iteration whose wait
    failed in that way: there is no other exit inside the loop. *)
Theorem poll_failure_is_the_only_exit cfg clock e envs st :
  (* the process exits exactly when the wait fails and was not interrupted *)
  ((exists st', poll_iter cfg e st = Exit 2 st')
   <-> (env_poll_res e = -1 /\ env_errno e <> EINTR))
  /\ (forall code st', poll_iter cfg e st = Exit code st' ->
        code = 2
        /\ times_not_scheduled st' = times_not_scheduled st
        /\ new_events st st'
           = enter_events cfg e st ++ [EvLog LOG_ERR (MsgPollError (env_errno e))])
  (* an interrupted wait goes on like one that timed out *)
  /\ (env_poll_res e = -1 -> env_errno e = EINTR ->
      exists st1,
        poll_iter cfg e st = Continue st1
        /\ poll_iter cfg (with_poll 0 (env_errno e) e) st
           = Continue (set_poll_res 0 st1))
  (* no other way out of the loop than this exit and the stop flag *)
  /\ (forall code st', poll_loop cfg clock envs st = Exited code st' ->
        code = 2
        /\ exists e', In e' envs /\ env_poll_res e' = -1 /\ env_errno e' <> EINTR).
Proof.
  split; [|split; [|split]].
  - rewrite <- poll_fatal_iff, poll_iter_cases.
    destruct (poll_fatal e); split; intros H; try reflexivity; try discriminate.
    + eexists; reflexivity.
    + destruct H as [st' H]. discriminate.
  - intros code st' H. apply poll_iter_exit in H. destruct H as (_ & Hc & ->).
    pose proof (poll_iter_enter_frame cfg e st) as He. simpl in He.
    destruct He as (Ht & _ & _ & _ & _ & _ & _ & _ & Htr).
    split; [exact Hc|]. split; [exact Ht|].
    apply new_events_app. simpl. rewrite Htr, <- app_assoc. reflexivity.
  - intros Hr He.
    rewrite !poll_iter_cases.
    assert (F1 : poll_fatal e = false).
    { unfold poll_fatal. rewrite He. rewrite Z.eqb_refl. apply andb_false_r. }
    assert (F2 : poll_fatal (with_poll 0 (env_errno e) e) = false) by reflexivity.
    rewrite F1, F2.
    eexists. split; [reflexivity|].
    rewrite poll_iter_enter_with_poll, poll_iter_measure_with_poll. reflexivity.
  - intros code st' H. apply poll_loop_exited in H.
    destruct H as (Hc & e' & Hin & Hf). apply poll_fatal_iff in Hf.
    split; [exact Hc|]. exists e'. tauto.
Qed.

Lemma poll_failure_is_the_only_exit_witness :
  let st := Sample.start Sample.cfg in
  env_poll_res Sample.failing = -1
  /\ env_errno Sample.failing <> EINTR
  /\ exists st', poll_iter Sample.cfg Sample.failing st = Exit 2 st'.
Proof.
  intros st.
  assert (H1 : env_poll_res Sample.failing = -1) by reflexivity.
  assert (H2 : env_errno Sample.failing <> EINTR) by (vm_compute; discriminate).
  destruct (poll_failure_is_the_only_exit Sample.cfg (Sample.clock 9000000000)
              Sample.failing [] st) as (Hiff & _).
  split; [exact H1|]. split; [exact H2|].
  exact (proj2 Hiff (conj H1 H2)).
Defined.

(** C5: with [hz] the clock frequency [sysconf] gave (100 when it failed):
    when [buf] is the first valid line of /proc/stat and [s] the value stored
    for its steal field (the eighth), the sample is the [uint64_t] product
    [s * (1000000000 / hz)], that is the product modulo 2^64, and the product
    itself whenever it is below 2^64.  In particular, when the file starts
    with a line "cpu f1 f2 ... f8 ..." of at most 4095 characters, the sample
    is the number written in the eighth field times [1000000000 / hz],
    whenever that is below 2^64. *)
Theorem kernel_steal_is_ticks_times_factor
    (f buf : string) (clk : clk_tck_result) (fields : list (list nat)) (rest : string) :
  let hz := effective_hz clk in
  (* the first valid line, whatever it looks like *)
  (first_valid_line f buf ->
   let s := s_steal (stored_fields (snd (Scan.sscanf Scan.cpu_format buf))) in
   let sample := fst (nano_stealtime_kernel_get {| proc_stat := Some f; clk_tck := clk |}) in
   sample = wrap64 (s * (NO_NS_IN_SEC / hz))
   /\ (s * (NO_NS_IN_SEC / hz) < 2 ^ 64 -> sample = s * (NO_NS_IN_SEC / hz)))
  (* a first line "cpu f1 ... f8 ..." that fits the buffer *)
  /\ (Forall decimal_field fields ->
      (8 <= List.length fields)%nat ->
      (String.length (cpu_line fields) <= 4095)%nat ->
      let s := digits_value (nth 7 fields []) in
      s * (NO_NS_IN_SEC / hz) < 2 ^ 64 ->
      fst (nano_stealtime_kernel_get
             {| proc_stat := Some (cpu_line fields ++ rest)%string; clk_tck := clk |})
      = s * (NO_NS_IN_SEC / hz)).
Proof.
  intros hz.
  assert (Hhz : 0 < hz) by (subst hz; destruct clk; simpl; lia).
  assert (Hq : 0 <= NO_NS_IN_SEC / hz <= NO_NS_IN_SEC).
  { split; [apply Z.div_pos; unfold NO_NS_IN_SEC; lia|].
    apply Z.div_le_upper_bound; unfold NO_NS_IN_SEC; nia. }
  assert (General : forall f buf,
             first_valid_line f buf ->
             fst (nano_stealtime_kernel_get {| proc_stat := Some f; clk_tck := clk |})
             = wrap64 (s_steal (stored_fields (snd (Scan.sscanf Scan.cpu_format buf)))
                       * (NO_NS_IN_SEC / hz))).
  { intros f0 buf0 Hf. unfold nano_stealtime_kernel_get. cbn [proc_stat clk_tck].
    rewrite (kernel_scan_first_valid clk f0 buf0 Hf) by lia.
    unfold kernel_steal_of_line. cbn [fst].
    assert (Hz : (if sysconf_clk_tck clk =? -1 then 100 else sysconf_clk_tck clk) = hz).
    { subst hz. destruct clk; reflexivity. }
    rewrite Hz.
    rewrite (wrap64_small (NO_NS_IN_SEC / hz)) by (unfold NO_NS_IN_SEC in *; lia).
    reflexivity. }
  split.
  - intros Hf s sample.
    assert (Hs : sample = wrap64 (s * (NO_NS_IN_SEC / hz))) by (apply General; exact Hf).
    split; [exact Hs|]. intros Hlt. rewrite Hs. apply wrap64_small.
    pose proof (stored_steal_range buf) as Hr. fold s in Hr.
    split; [nia|exact Hlt].
  - intros Hfields H8 Hl s Hlt.
    destruct (first_valid_cpu_line fields rest Hfields ltac:(lia) Hl) as [Hfv Hscan].
    rewrite (General _ _ Hfv), Hscan. cbn [snd stored_fields s_steal].
    assert (Hnth : nth 7 (map field_value (firstn 8 fields)) 0
                   = field_value (nth 7 fields [])).
    { rewrite <- (firstn_skipn 8 fields) at 2.
      rewrite app_nth1 by (rewrite length_firstn; lia).
      change 0 with (field_value []) at 1. apply map_nth. }
    rewrite Hnth. fold s.
    pose proof (digits_value_nonneg (nth 7 fields [])) as Hs0. fold s in Hs0.
    destruct (Z.eq_dec (NO_NS_IN_SEC / hz) 0) as [E0|Hn0].
    + rewrite E0, !Z.mul_0_r. reflexivity.
    + assert (Hsmall : s < 2 ^ 64) by nia.
      unfold s in Hsmall. rewrite (field_value_small _ Hsmall). fold s.
      apply wrap64_small. split; [nia|exact Hlt].
Qed.

(** The line "cpu 100 5 50 800 2 1 3 40" at 100 Hz gives 400,000,000 ns,
    whatever follows it in the file. *)
Lemma kernel_steal_is_ticks_times_factor_witness :
  let fields : list (list nat) := [[1;0;0]; [5]; [5;0]; [8;0;0]; [2]; [1]; [3]; [4;0]]%nat in
  cpu_line fields = ("cpu 100 5 50 800 2 1 3 40" ++ end_of_line)%string
  /\ Forall decimal_field fields
  /\ (8 <= List.length fields)%nat
  /\ (String.length (cpu_line fields) <= 4095)%nat
  /\ digits_value (nth 7 fields []) * (NO_NS_IN_SEC / 100) < 2 ^ 64
  /\ fst (nano_stealtime_kernel_get
            {| proc_stat := Some (cpu_line fields ++ Sample.proc_stat_per_cpu)%string;
               clk_tck := ClkTck 100 |})
     = 400000000.
Proof.
  intros fields.
  assert (H1 : Forall decimal_field fields).
  { repeat constructor; try discriminate; lia. }
  assert (H2 : (8 <= List.length fields)%nat) by (simpl; lia).
  assert (H3 : (String.length (cpu_line fields) <= 4095)%nat) by (vm_compute; lia).
  assert (H4 : digits_value (nth 7 fields []) * (NO_NS_IN_SEC / 100) < 2 ^ 64)
    by (vm_compute; reflexivity).
  split; [reflexivity|]. split; [exact H1|]. split; [exact H2|].
  split; [exact H3|]. split; [exact H4|].
  exact (proj2 (kernel_steal_is_ticks_times_factor
                  EmptyString EmptyString (ClkTck 100) fields Sample.proc_stat_per_cpu)
           H1 H2 H3 H4).
Defined.




(** C7: when a stop signal (SIGINT or SIGTERM) is handled during an iteration
    that does not end the process, the flag is up at the next loop test, and
    the loop is left there whatever would have followed: after the state
    [st] the run called [poll] once, for the iteration in flight, and it ends
    with the line "Main poll loop stopped" and one statistics line, which
    gives the time since the start and the counter.  In general, every loop
    test that finds the flag up ends the loop in this way. *)
Theorem stop_flag_ends_loop cfg clock e envs st st' :
  stop_main_loop st = 0 ->
  stop_delivered e = true ->
  poll_iter cfg e st = Continue st' ->
  let fin := poll_run_finish clock st' in
  (* the flag is up at the next loop test *)
  stop_main_loop st' <> 0
  (* the loop is left there, whatever the future holds *)
  /\ poll_loop cfg clock (e :: envs) st = Stopped fin
  (* the iteration in flight was the last one *)
  /\ count_events is_poll (new_events st fin) = 1%nat
  (* and poll_run ends with the statistics, once *)
  /\ new_events st' fin
     = [EvLog LOG_INFO MsgStopped;
        EvLog LOG_INFO
          (MsgStatistics (wrap64 (nano_current_get clock - tv_start st))
             (times_not_scheduled st'))]
  (* in general: a loop test that finds the flag up ends the loop *)
  /\ (forall envs1 st1, stop_main_loop st1 <> 0 ->
        poll_loop cfg clock envs1 st1 = Stopped (poll_run_finish clock st1)
        /\ new_events st1 (poll_run_finish clock st1)
           = [EvLog LOG_INFO MsgStopped;
              EvLog LOG_INFO
                (MsgStatistics (wrap64 (nano_current_get clock - tv_start st1))
                   (times_not_scheduled st1))]).
Proof.
  intros Hs Hd Hi fin.
  pose proof (poll_iter_continue_spec cfg e st st' Hi) as S. simpl in S.
  destruct S as (_ & _ & Hst & _ & _ & _ & _ & Htr & _ & _ & Hp).
  pose proof (poll_iter_continue cfg e st st' Hi) as (_ & Heq).
  assert (Hflag : stop_main_loop st' <> 0).
  { rewrite Heq.
    pose proof (poll_iter_measure_frame cfg e (poll_iter_enter cfg e st)) as Hf.
    simpl in Hf. destruct Hf as (_&_&_&_&_&_&_&_&_&_&F11&_). rewrite F11.
    apply poll_iter_enter_stop_delivered. exact Hd. }
  pose proof (poll_run_finish_spec clock st') as (_ & _ & Hfin). fold fin in Hfin.
  split; [exact Hflag|].
  split; [rewrite poll_loop_step, Hi by exact Hs; apply poll_loop_stopped; exact Hflag|].
  split.
  { rewrite (new_events_app st fin
               ((enter_events cfg e st ++ measure_events cfg e (poll_iter_enter cfg e st))
                ++ finish_events clock st')).
    - rewrite count_events_app, Hp. reflexivity.
    - rewrite Hfin, Htr, <- !app_assoc. reflexivity. }
  split.
  { rewrite (new_events_app st' fin _ Hfin). unfold finish_events. rewrite Hst.
    reflexivity. }
  intros envs1 st1 H1. split; [apply poll_loop_stopped; exact H1|].
  pose proof (poll_run_finish_spec clock st1) as (_ & _ & Hfin1).
  rewrite (new_events_app _ _ _ Hfin1). reflexivity.
Qed.

Lemma stop_flag_ends_loop_witness :
  let st := Sample.start Sample.cfg in
  let st' := Sample.after (poll_iter Sample.cfg Sample.interrupted st) in
  let clock := Sample.clock 9000000000 in
  stop_main_loop st = 0
  /\ stop_delivered Sample.interrupted = true
  /\ poll_iter Sample.cfg Sample.interrupted st = Continue st'
  /\ poll_loop Sample.cfg clock [Sample.interrupted; Sample.late; Sample.late] st
     = Stopped (poll_run_finish clock st').
Proof.
  intros st st' clock.
  assert (H0 : stop_main_loop st = 0) by reflexivity.
  assert (H1 : stop_delivered Sample.interrupted = true) by reflexivity.
  assert (H : poll_iter Sample.cfg Sample.interrupted st = Continue st')
    by (vm_compute; reflexivity).
  destruct (stop_flag_ends_loop Sample.cfg clock Sample.interrupted
              [Sample.late; Sample.late] st st' H0 H1 H) as (_ & Hloop & _).
  split; [exact H0|]. split; [exact H1|]. split; [exact H|]. exact Hloop.
Defined.

(** C8: for a timeout [1 <= timeout <= 3600000] (milliseconds), [poll_timeout]
    is [timeout / 3], and every call of [poll] in every run is given that
    value, which is not negative.  Whatever [poll_timeout] holds, an
    iteration passes the larger of it and 0 to [poll]. *)
Theorem poll_timeout_is_a_third cfg g timeout clock_start clock_stop envs e st :
  1 <= timeout <= MAX_TIMEOUT ->
  let fin := final_state (poll_run cfg g timeout clock_start clock_stop envs) in
  poll_timeout (poll_run_init cfg g timeout clock_start) = timeout / 3
  /\ Forall (fun a => a = timeout / 3 /\ 0 <= a) (poll_args (trace fin))
  (* the floor: whatever poll_timeout holds, poll is not given less than 0 *)
  /\ poll_args (new_events st (poll_iter_enter cfg e st)) = [Z.max 0 (poll_timeout st)].
Proof.
  intros Ht fin. unfold MAX_TIMEOUT in Ht.
  assert (Hdiv : 0 <= timeout / 3 < 2 ^ 31).
  { split; [apply Z.div_pos; lia|]. apply Z.div_lt_upper_bound; lia. }
  assert (Hinit : poll_timeout (poll_run_init cfg g timeout clock_start) = timeout / 3).
  { simpl. apply wrap_int_small. lia. }
  split; [exact Hinit|]. split.
  - pose proof (poll_loop_poll_args cfg clock_stop envs (timeout / 3) (proj1 Hdiv)
                  (poll_run_init cfg g timeout clock_start) Hinit) as H.
    eapply Forall_impl; [|apply H].
    + intros a ->. lia.
    + simpl. constructor.
  - pose proof (poll_iter_enter_frame cfg e st) as He. simpl in He.
    destruct He as (_ & _ & _ & _ & _ & _ & _ & _ & Htr).
    rewrite (new_events_app _ _ _ Htr). apply poll_args_enter.
Qed.

Lemma poll_timeout_is_a_third_witness :
  let st := Sample.start Sample.cfg in
  1 <= DEFAULT_TIMEOUT <= MAX_TIMEOUT
  /\ poll_timeout st = DEFAULT_TIMEOUT / 3
  /\ poll_args (trace (final_state
                         (poll_run Sample.cfg globals_init DEFAULT_TIMEOUT
                            (Sample.clock 1000000000) (Sample.clock 9000000000)
                            [Sample.late; Sample.on_time])))
     = [66; 66].
Proof.
  intros st.
  assert (H : 1 <= DEFAULT_TIMEOUT <= MAX_TIMEOUT) by (vm_compute; split; discriminate).
  destruct (poll_timeout_is_a_third Sample.cfg globals_init DEFAULT_TIMEOUT
              (Sample.clock 1000000000) (Sample.clock 9000000000)
              [Sample.late; Sample.on_time] Sample.late st H) as (Hinit & _).
  split; [exact H|]. split; [exact Hinit|]. vm_compute. reflexivity.
Defined.

(** C9: the steal difference of an iteration is [steal_now - steal_prev]
    modulo 2^64, and the percentage is computed from it; the percentage is
    never negative.  When the second sample is smaller than the first, the
    difference is 2^64 minus the drop, and the percentage is plus infinity
    (no time gone) or a positive finite double, never zero.  If the drop is
    at most 2^63 and the elapsed time is positive and below 2^42 ns
    (73 minutes), the percentage is above 2^25.  The guest library's function
    returns 0 when one of its two queries fails, so a failure after a sample
    that was not 0 is such a drop. *)
Theorem steal_delta_wraps_around cfg e st st' :
  poll_iter cfg e st = Continue st' ->
  steal_diff st' = wrap64 (steal_now st' - steal_prev st')
  /\ steal_perc st' = steal_percent (steal_diff st') (tv_diff st')
  /\ Double.is_negative (steal_perc st') = false
  /\ (steal_now st' < steal_prev st' ->
      steal_diff st' = 2 ^ 64 - (steal_prev st' - steal_now st')
      /\ 2 ^ 64 - steal_prev st' <= steal_diff st' < 2 ^ 64
      /\ (tv_diff st' = 0 -> steal_perc st' = Double.pos_infinity)
      /\ (0 < tv_diff st' -> exists m e, steal_perc st' = S754_finite false m e)
      /\ (steal_prev st' - steal_now st' <= 2 ^ 63 ->
          0 < tv_diff st' < 2 ^ 42 ->
          Double.gt (steal_perc st') (Double.of_Z (2 ^ 25)) = true))
  /\ (forall gs g,
        gl_update_err g <> VMGUESTLIB_ERROR_SUCCESS
        \/ gl_stolen_err g <> VMGUESTLIB_ERROR_SUCCESS ->
        fst (fst (nano_stealtime_vmguestlib_get gs g)) = 0).
Proof.
  intros Hi.
  pose proof (poll_iter_continue_spec cfg e st st' Hi) as S. simpl in S.
  destruct S as (Hd & _ & _ & _ & Hsd & Hsp & _).
  apply poll_iter_continue in Hi. destruct Hi as [_ Heq].
  pose proof (poll_iter_measure_frame cfg e (poll_iter_enter cfg e st)) as Hf.
  simpl in Hf. rewrite <- Heq in Hf. destruct Hf as (_&_&_&F4&F5&_).
  pose proof (poll_iter_enter_frame cfg e st) as He. simpl in He.
  destruct He as (_ & _ & _ & _ & Hstp & _).
  assert (Rn : 0 <= steal_now st' < 2 ^ 64).
  { rewrite F4. apply nano_stealtime_get_range. }
  assert (Rp : 0 <= steal_prev st' < 2 ^ 64).
  { rewrite F5, Hstp. apply nano_stealtime_get_range. }
  assert (Rd : 0 <= steal_diff st' < 2 ^ 64) by (rewrite Hsd; apply wrap64_range).
  assert (Rt : 0 <= tv_diff st' < 2 ^ 64) by (rewrite Hd; apply wrap64_range).
  split; [exact Hsd|]. split; [exact Hsp|].
  split; [rewrite Hsp; apply steal_percent_not_negative; assumption|].
  split.
  - intros Hlt.
    assert (Hw : steal_diff st' = 2 ^ 64 - (steal_prev st' - steal_now st')).
    { rewrite Hsd. unfold wrap64.
      replace (steal_now st' - steal_prev st')
        with (2 ^ 64 - (steal_prev st' - steal_now st') + (-1) * 2 ^ 64) by lia.
      rewrite Z.mod_add by lia. apply Z.mod_small. lia. }
    split; [exact Hw|]. split; [lia|].
    split; [|split].
    + intros H0. rewrite Hsp, H0, steal_percent_zero_elapsed by exact Rd.
      destruct (Z.eqb_spec (steal_diff st') 0); [lia|reflexivity].
    + intros Hpos.
      destruct (steal_percent_finite (steal_diff st') (tv_diff st')) as (m & x & E & _);
        [lia|lia|].
      exists m, x. rewrite Hsp. exact E.
    + intros Hnear Htv. rewrite Hsp. apply steal_percent_huge; lia.
  - intros gs g Hg. unfold nano_stealtime_vmguestlib_get.
    destruct (Z.eqb_spec (gl_update_err g) VMGUESTLIB_ERROR_SUCCESS) as [Hu|Hu];
      [|reflexivity].
    destruct (Z.eqb_spec (gl_stolen_err g) VMGUESTLIB_ERROR_SUCCESS) as [Hs|Hs];
      [|reflexivity].
    tauto.
Qed.

Lemma steal_delta_wraps_around_witness :
  let st := Sample.start Sample.cfg_guest in
  let st' := Sample.after (poll_iter Sample.cfg_guest Sample.guest_lost st) in
  poll_iter Sample.cfg_guest Sample.guest_lost st = Continue st'
  /\ steal_prev st' = 5000000
  /\ steal_now st' = 0
  /\ steal_diff st' = 18446744073704551616
  /\ Double.gt (steal_perc st') (Double.of_Z (2 ^ 25)) = true.
Proof.
  intros st st'.
  assert (H : poll_iter Sample.cfg_guest Sample.guest_lost st = Continue st')
    by (vm_compute; reflexivity).
  destruct (steal_delta_wraps_around Sample.cfg_guest Sample.guest_lost st st' H)
    as (_ & _ & _ & Hw & _).
  assert (Hlt : steal_now st' < steal_prev st') by (vm_compute; reflexivity).
  destruct (Hw Hlt) as (Hd & _ & _ & _ & Hbig).
  split; [exact H|].
  split; [vm_compute; reflexivity|]. split; [vm_compute; reflexivity|].
  split; [vm_compute; reflexivity|].
  apply Hbig; [vm_compute; discriminate|vm_compute; split; reflexivity].
Defined.

(** C10: when the first valid line of /proc/stat is one on which [sscanf]
    converted five, six or seven fields, the line is taken as valid, the
    fields that were not converted (the steal field among them) keep the 0
    they were set to, the result is computed from this line alone, whatever
    follows it in the file, and the sample is 0.  A file that starts with a
    line "cpu f1 ... fk" of five, six or seven fields (and at most 4095
    characters) is such a file: [sscanf] converts the [k] fields, and the
    sample is 0. *)
Theorem truncated_line_is_taken
    (f buf : string) (clk : clk_tck_result) (fields : list (list nat)) (rest : string) :
  (* a first valid line on which five to seven fields were converted *)
  (first_valid_line f buf ->
   5 <= fst (Scan.sscanf Scan.cpu_format buf) <= 7 ->
   let k := {| proc_stat := Some f; clk_tck := clk |} in
   valid_line buf = true
   /\ (forall i, fst (Scan.sscanf Scan.cpu_format buf) <= Z.of_nat i ->
         nth i (snd (Scan.sscanf Scan.cpu_format buf)) 0 = 0)
   /\ s_steal (stored_fields (snd (Scan.sscanf Scan.cpu_format buf))) = 0
   /\ nano_stealtime_kernel_get k = kernel_steal_of_line clk buf
   /\ fst (nano_stealtime_kernel_get k) = 0)
  (* a first line "cpu f1 ... fk" with five to seven fields is such a line *)
  /\ (Forall decimal_field fields ->
      (5 <= List.length fields <= 7)%nat ->
      (String.length (cpu_line fields) <= 4095)%nat ->
      let k := {| proc_stat := Some (cpu_line fields ++ rest)%string; clk_tck := clk |} in
      valid_line (cpu_line fields) = true
      /\ fst (Scan.sscanf Scan.cpu_format (cpu_line fields)) = Z.of_nat (List.length fields)
      /\ fst (nano_stealtime_kernel_get k) = 0).
Proof.
  assert (General : forall f buf,
             first_valid_line f buf ->
             5 <= fst (Scan.sscanf Scan.cpu_format buf) <= 7 ->
             let k := {| proc_stat := Some f; clk_tck := clk |} in
             valid_line buf = true
             /\ (forall i, fst (Scan.sscanf Scan.cpu_format buf) <= Z.of_nat i ->
                   nth i (snd (Scan.sscanf Scan.cpu_format buf)) 0 = 0)
             /\ s_steal (stored_fields (snd (Scan.sscanf Scan.cpu_format buf))) = 0
             /\ nano_stealtime_kernel_get k = kernel_steal_of_line clk buf
             /\ fst (nano_stealtime_kernel_get k) = 0).
  { clear f buf. intros f buf Hf Hn k.
    destruct (Scan.sscanf Scan.cpu_format buf) as [n vals] eqn:Hs.
    cbn [fst snd] in *.
    pose proof (sscanf_count _ _ _ _ Hs ltac:(lia)) as Hlen.
    assert (Hmiss : forall i, n <= Z.of_nat i -> nth i vals 0 = 0).
    { intros i Hi. apply nth_overflow. lia. }
    assert (Hsteal : s_steal (stored_fields vals) = 0).
    { cbn [stored_fields s_steal]. apply Hmiss. simpl. lia. }
    assert (Hget : nano_stealtime_kernel_get k = kernel_steal_of_line clk buf).
    { subst k. unfold nano_stealtime_kernel_get. cbn [proc_stat clk_tck].
      apply kernel_scan_first_valid; [exact Hf|lia]. }
    split.
    { unfold valid_line. rewrite Hs. cbn [fst]. apply Z.gtb_lt. lia. }
    split; [exact Hmiss|]. split; [exact Hsteal|]. split; [exact Hget|].
    rewrite Hget. unfold kernel_steal_of_line. cbn [fst]. rewrite Hs. cbn [snd].
    rewrite Hsteal. reflexivity. }
  split; [apply General|].
  intros Hfields Hk Hl k.
  destruct (first_valid_cpu_line fields rest Hfields ltac:(lia) Hl) as [Hfv Hscan].
  assert (Hcount : fst (Scan.sscanf Scan.cpu_format (cpu_line fields))
                   = Z.of_nat (List.length fields)).
  { rewrite Hscan. cbn [fst]. f_equal. lia. }
  destruct (General _ _ Hfv ltac:(rewrite Hcount; lia)) as (Hv & _ & _ & _ & H0).
  split; [exact Hv|]. split; [exact Hcount|exact H0].
Qed.

(** The line "cpu 100 5 50 800 2" gives the sample 0, although a line with
    the steal field 99 follows it. *)
Lemma truncated_line_is_taken_witness :
  let fields : list (list nat) := [[1;0;0]; [5]; [5;0]; [8;0;0]; [2]]%nat in
  let rest := ("cpu 7 7 7 7 7 7 7 99" ++ end_of_line)%string in
  (cpu_line fields ++ rest)%string = Sample.proc_stat_short
  /\ Forall decimal_field fields
  /\ (5 <= List.length fields <= 7)%nat
  /\ (String.length (cpu_line fields) <= 4095)%nat
  /\ fst (nano_stealtime_kernel_get
            {| proc_stat := Some (cpu_line fields ++ rest)%string; clk_tck := ClkTck 100 |})
     = 0.
Proof.
  intros fields rest.
  assert (H1 : Forall decimal_field fields).
  { repeat constructor; try discriminate; lia. }
  assert (H2 : (5 <= List.length fields <= 7)%nat) by (simpl; lia).
  assert (H3 : (String.length (cpu_line fields) <= 4095)%nat) by (vm_compute; lia).
  split; [reflexivity|]. split; [exact H1|]. split; [exact H2|]. split; [exact H3|].
  exact (proj2 (proj2 (proj2 (truncated_line_is_taken
                         EmptyString EmptyString (ClkTck 100) fields rest) H1 H2 H3))).
Defined.

(** * Further properties *)

(** ** The clock *)

Lemma nano_current_get_normal (ts : timespec) :
  normal_time ts -> nanoseconds ts < 2 ^ 64 ->
  nano_current_get ts = nanoseconds ts.
Proof.
  unfold normal_time, nanoseconds, nano_current_get, NO_NS_IN_SEC.
  intros [Hs Hn] Hb.
  rewrite (wrap64_small (tv_sec ts * 1000000000)) by lia.
  rewrite (wrap64_small (tv_nsec ts)) by lia.
  apply wrap64_small. lia.
Qed.

(** X1: when the two readings of the clock in an iteration are ordinary
    [timespec] values below 2^63 ns, [tv_prev] and [tv_now] are these times
    in nanoseconds.  If the clock did not go back, [tv_diff] is the time
    between the readings, exactly; if it went back, [tv_diff] is 2^64 minus
    the step back, which is above every gap below 2^63. *)
Theorem elapsed_is_clock_difference cfg e st st' :
  poll_iter cfg e st = Continue st' ->
  normal_time (env_clock_prev e) ->
  normal_time (env_clock_now e) ->
  nanoseconds (env_clock_prev e) < 2 ^ 63 ->
  nanoseconds (env_clock_now e) < 2 ^ 63 ->
  tv_prev st' = nanoseconds (env_clock_prev e)
  /\ tv_now st' = nanoseconds (env_clock_now e)
  /\ (nanoseconds (env_clock_prev e) <= nanoseconds (env_clock_now e) ->
      tv_diff st' = nanoseconds (env_clock_now e) - nanoseconds (env_clock_prev e))
  /\ (nanoseconds (env_clock_now e) < nanoseconds (env_clock_prev e) ->
      tv_diff st'
      = 2 ^ 64 - (nanoseconds (env_clock_prev e) - nanoseconds (env_clock_now e))
      /\ 2 ^ 63 < tv_diff st').
Proof.
  intros Hi N0 N1 B0 B1.
  pose proof (poll_iter_continue_spec cfg e st st' Hi) as S. simpl in S.
  destruct S as (Hd & _).
  apply poll_iter_continue in Hi. destruct Hi as [_ Heq].
  pose proof (poll_iter_measure_frame cfg e (poll_iter_enter cfg e st)) as Hf.
  simpl in Hf. rewrite <- Heq in Hf. destruct Hf as (_ & F2 & F3 & _).
  pose proof (poll_iter_enter_frame cfg e st) as He. simpl in He.
  destruct He as (_ & Hp & _).
  assert (P0 : 0 <= nanoseconds (env_clock_prev e)).
  { destruct N0 as [? ?]. unfold nanoseconds, NO_NS_IN_SEC in *. lia. }
  assert (P1 : 0 <= nanoseconds (env_clock_now e)).
  { destruct N1 as [? ?]. unfold nanoseconds, NO_NS_IN_SEC in *. lia. }
  rewrite (nano_current_get_normal _ N0) in * by lia.
  rewrite (nano_current_get_normal _ N1) in * by lia.
  split; [congruence|]. split; [exact F2|].
  split.
  - intros Hle. rewrite Hd. apply wrap64_small. lia.
  - intros Hlt.
    assert (E : tv_diff st'
                = 2 ^ 64 - (nanoseconds (env_clock_prev e) - nanoseconds (env_clock_now e))).
    { rewrite Hd. unfold wrap64.
      replace (nanoseconds (env_clock_now e) - nanoseconds (env_clock_prev e))
        with (2 ^ 64 - (nanoseconds (env_clock_prev e) - nanoseconds (env_clock_now e))
              + (-1) * 2 ^ 64) by lia.
      rewrite Z.mod_add by lia. apply Z.mod_small. lia. }
    split; [exact E|]. lia.
Qed.

Lemma elapsed_is_clock_difference_witness :
  let st := Sample.start Sample.cfg in
  let st' := Sample.after (poll_iter Sample.cfg Sample.late st) in
  poll_iter Sample.cfg Sample.late st = Continue st'
  /\ tv_prev st' = 1000000000
  /\ tv_now st' = 1250000000
  /\ tv_diff st' = 250000000.
Proof.
  intros st st'.
  assert (H : poll_iter Sample.cfg Sample.late st = Continue st')
    by (vm_compute; reflexivity).
  assert (N0 : normal_time (env_clock_prev Sample.late))
    by (vm_compute; intuition discriminate).
  assert (N1 : normal_time (env_clock_now Sample.late))
    by (vm_compute; intuition discriminate).
  assert (B0 : nanoseconds (env_clock_prev Sample.late) < 2 ^ 63)
    by (vm_compute; reflexivity).
  assert (B1 : nanoseconds (env_clock_now Sample.late) < 2 ^ 63)
    by (vm_compute; reflexivity).
  destruct (elapsed_is_clock_difference Sample.cfg Sample.late st st' H N0 N1 B0 B1)
    as (Hp & Hn & Hd & _).
  split; [exact H|]. split; [exact Hp|]. split; [exact Hn|].
  apply Hd. vm_compute. discriminate.
Defined.

(** ** Statistics on request *)

Lemma show_statistics_display (e : iter_env) (st : state) :
  display_statistics (show_statistics e st)
  = if negb (display_statistics st =? 0) then 0
    else if existsb is_statistics_signal (env_sig_print e) then 1 else 0.
Proof.
  unfold show_statistics.
  destruct (display_statistics st =? 0) eqn:E; simpl.
  - rewrite handle_signals_display. apply Z.eqb_eq in E. rewrite E. reflexivity.
  - reflexivity.
Qed.

Lemma poll_iter_measure_display cfg e st :
  display_statistics (poll_iter_measure cfg e st) = display_statistics st.
Proof.
  unfold poll_iter_measure.
  destruct (nano_stealtime_get cfg (guest_prev st) (env_steal_now e)) as [[steal gs] evs].
  reflexivity.
Qed.

Lemma poll_iter_enter_display cfg e st :
  display_statistics (poll_iter_enter cfg e st)
  = if existsb is_statistics_signal (env_sig_wait e) then 1
    else if negb (display_statistics st =? 0)
            || existsb is_statistics_signal (env_sig_enter e) then 0
    else if existsb is_statistics_signal (env_sig_print e) then 1 else 0.
Proof.
  unfold poll_iter_enter.
  rewrite handle_signals_display.
  destruct (existsb is_statistics_signal (env_sig_wait e)); [reflexivity|].
  change (display_statistics (call_poll e ?s)) with (display_statistics s).
  unfold call_poll, log_iteration, emit. simpl.
  rewrite show_statistics_display, display_at_test. reflexivity.
Qed.

Lemma count_statistics_enter cfg e st :
  count_events is_statistics (enter_events cfg e st)
  = if negb (display_statistics st =? 0) || existsb is_statistics_signal (env_sig_enter e)
    then 1%nat else 0%nat.
Proof.
  unfold enter_events. cbv zeta.
  rewrite display_at_test.
  rewrite !count_events_app.
  rewrite (count_steal_events is_statistics _ steal_source_not_statistics
             (nano_stealtime_get_events cfg (guest_prev st) (env_steal_prev e))).
  destruct (negb (display_statistics st =? 0)
            || existsb is_statistics_signal (env_sig_enter e)); reflexivity.
Qed.

(** X2: an iteration that goes on prints the statistics once if the flag
    [display_statistics] is up when it is tested, that is if it was up at the
    start of the iteration or a SIGUSR1 was handled before the test, however
    many of them; it prints none otherwise.  The line gives the time since
    the start and the counter.  Afterwards the flag is up if a SIGUSR1 was
    handled after it was cleared or, when nothing was printed, after it was
    tested: a SIGUSR1 handled while the statistics are printed is lost. *)
Theorem statistics_on_request cfg e st st' :
  poll_iter cfg e st = Continue st' ->
  let asked :=
    negb (display_statistics st =? 0) || existsb is_statistics_signal (env_sig_enter e) in
  count_events is_statistics (new_events st st') = (if asked then 1%nat else 0%nat)
  /\ (asked = true ->
      In (EvLog LOG_INFO
            (MsgStatistics (wrap64 (nano_current_get (env_clock_stat e) - tv_start st))
               (times_not_scheduled st)))
         (new_events st st'))
  /\ (display_statistics st' <> 0 <->
      existsb is_statistics_signal (env_sig_wait e) = true
      \/ (asked = false /\ existsb is_statistics_signal (env_sig_print e) = true))
  /\ (display_statistics st' = 0 \/ display_statistics st' = 1).
Proof.
  intros Hi asked.
  pose proof (poll_iter_continue_spec cfg e st st' Hi) as S. simpl in S.
  destruct S as (_ & _ & _ & _ & _ & _ & _ & Htr & _).
  apply poll_iter_continue in Hi. destruct Hi as [_ Heq].
  rewrite (new_events_app _ _ _ Htr).
  pose proof (measure_events_counts cfg e (poll_iter_enter cfg e st)) as C.
  simpl in C. destruct C as (_ & D2 & _).
  assert (Hdisp : display_statistics st' = display_statistics (poll_iter_enter cfg e st)).
  { rewrite Heq. apply poll_iter_measure_display. }
  rewrite poll_iter_enter_display in Hdisp. fold asked in Hdisp.
  split.
  { rewrite count_events_app, D2, count_statistics_enter. fold asked. lia. }
  split.
  { intros Ha. apply in_or_app. left. unfold enter_events. cbv zeta.
    rewrite display_at_test. fold asked. rewrite Ha.
    apply in_or_app. right. left. reflexivity. }
  split.
  - rewrite Hdisp.
    destruct (existsb is_statistics_signal (env_sig_wait e));
      destruct asked;
      destruct (existsb is_statistics_signal (env_sig_print e));
      split; intros H; try lia; try (left; reflexivity); try (right; split; reflexivity);
      try (exfalso; destruct H as [H|[H1 H2]]; discriminate).
  - rewrite Hdisp.
    destruct (existsb is_statistics_signal (env_sig_wait e));
      destruct asked;
      destruct (existsb is_statistics_signal (env_sig_print e)); auto.
Qed.

(** ** The percentage of an overrun *)

Lemma steal_percent_nothing_stolen (b : Z) :
  0 < b < 2 ^ 64 -> steal_percent 0 b = S754_zero false.
Proof.
  intros Hb. unfold steal_percent.
  destruct (of_Z_finite b Hb) as (m & x & E & _).
  rewrite E, of_Z_100. reflexivity.
Qed.

Lemma gt_zero_not_negative (thr : double) :
  Double.is_negative thr = false -> Double.gt (S754_zero false) thr = false.
Proof.
  destruct thr as [s|s| |s m x]; simpl; intros H; try subst s; reflexivity.
Qed.

(** X3: in an iteration that is an overrun the elapsed time is not zero, so
    the percentage is an ordinary number: a finite double that is not
    negative, and zero when no steal time was accounted for.  The steal
    warning is printed once if that number is above the threshold and not at
    all otherwise, right after the "Not scheduled" line, and these two lines
    are the last ones of the iteration.  With a threshold that is not
    negative, an overrun without steal time prints no warning. *)
Theorem overrun_percentage_is_finite cfg e st st' :
  0 <= tv_max_allowed_diff st ->
  poll_iter cfg e st = Continue st' ->
  tv_diff st' > tv_max_allowed_diff st ->
  Double.is_finite (steal_perc st') = true
  /\ Double.is_negative (steal_perc st') = false
  /\ (steal_diff st' = 0 -> steal_perc st' = S754_zero false)
  /\ count_events is_steal_high (new_events st st')
     = (if Double.gt (steal_perc st') (max_steal_threshold cfg) then 1%nat else 0%nat)
  /\ (exists before,
        new_events st st'
        = before
          ++ EvLog LOG_ERR
               (MsgNotScheduled (tv_diff st') (tv_max_allowed_diff st) (steal_diff st')
                  (steal_perc st'))
          :: (if Double.gt (steal_perc st') (max_steal_threshold cfg)
              then [EvLog LOG_WARNING (MsgStealHigh (max_steal_threshold cfg))]
              else []))
  /\ (steal_diff st' = 0 -> Double.is_negative (max_steal_threshold cfg) = false ->
      count_events is_steal_high (new_events st st') = 0%nat).
Proof.
  intros Hg Hi Hover.
  pose proof (poll_iter_continue_spec cfg e st st' Hi) as S. simpl in S.
  destruct S as (Hd & _ & _ & _ & Hsd & Hsp & _ & Htr & _).
  apply poll_iter_continue in Hi. destruct Hi as [_ Heq].
  pose proof (poll_iter_measure_frame cfg e (poll_iter_enter cfg e st)) as Hf.
  simpl in Hf. rewrite <- Heq in Hf.
  destruct Hf as (F1 & _ & _ & F4 & F5 & F6 & _).
  pose proof (poll_iter_enter_frame cfg e st) as He. simpl in He.
  destruct He as (_ & Hp & Hm & _).
  assert (Rd : 0 <= steal_diff st' < 2 ^ 64) by (rewrite Hsd; apply wrap64_range).
  assert (Rt : 0 <= tv_diff st' < 2 ^ 64) by (rewrite Hd; apply wrap64_range).
  assert (Hz : steal_diff st' = 0 -> steal_perc st' = S754_zero false).
  { intros H0. rewrite Hsp, H0. apply steal_percent_nothing_stolen. lia. }
  assert (Hfin : Double.is_finite (steal_perc st') = true).
  { destruct (Z.eq_dec (steal_diff st') 0) as [H0|H0].
    - rewrite (Hz H0). reflexivity.
    - destruct (steal_percent_finite (steal_diff st') (tv_diff st')) as (m & x & E & _);
        [lia|lia|].
      rewrite Hsp, E. reflexivity. }
  (* the events of the second half *)
  assert (Hme : measure_events cfg e (poll_iter_enter cfg e st)
                = snd (nano_stealtime_get cfg (guest_prev (poll_iter_enter cfg e st))
                         (env_steal_now e))
                  ++ EvLog LOG_ERR
                       (MsgNotScheduled (tv_diff st') (tv_max_allowed_diff st)
                          (steal_diff st') (steal_perc st'))
                  :: (if Double.gt (steal_perc st') (max_steal_threshold cfg)
                      then [EvLog LOG_WARNING (MsgStealHigh (max_steal_threshold cfg))]
                      else [])).
  { unfold measure_events. cbv zeta.
    rewrite <- F1, <- F4, <- F5, <- F6, <- Hsp, Hm.
    destruct (Z.gtb_spec (tv_diff st') (tv_max_allowed_diff st)) as [_|Hle]; [|lia].
    reflexivity. }
  assert (Hcount : count_events is_steal_high (new_events st st')
                   = (if Double.gt (steal_perc st') (max_steal_threshold cfg)
                      then 1%nat else 0%nat)).
  { rewrite (new_events_app _ _ _ Htr), Hme.
    pose proof (enter_events_counts cfg e st) as (_ & _ & C3).
    rewrite !count_events_app, C3.
    rewrite (count_steal_events is_steal_high _ steal_source_not_steal_high
               (nano_stealtime_get_events cfg _ (env_steal_now e))).
    destruct (Double.gt (steal_perc st') (max_steal_threshold cfg)); reflexivity. }
  split; [exact Hfin|].
  split; [rewrite Hsp; apply steal_percent_not_negative; assumption|].
  split; [exact Hz|].
  split; [exact Hcount|].
  split.
  - exists (enter_events cfg e st
            ++ snd (nano_stealtime_get cfg (guest_prev (poll_iter_enter cfg e st))
                      (env_steal_now e))).
    rewrite (new_events_app _ _ _ Htr), Hme, <- app_assoc. reflexivity.
  - intros H0 Hthr. rewrite Hcount, (Hz H0), (gt_zero_not_negative _ Hthr). reflexivity.
Qed.

Lemma overrun_percentage_is_finite_witness :
  let st := Sample.start Sample.cfg in
  let st' := Sample.after (poll_iter Sample.cfg Sample.late st) in
  0 <= tv_max_allowed_diff st
  /\ poll_iter Sample.cfg Sample.late st = Continue st'
  /\ tv_diff st' > tv_max_allowed_diff st
  /\ steal_perc st' = S754_zero false
  /\ count_events is_steal_high (new_events st st') = 0%nat.
Proof.
  intros st st'.
  assert (Hg : 0 <= tv_max_allowed_diff st) by (vm_compute; discriminate).
  assert (H : poll_iter Sample.cfg Sample.late st = Continue st')
    by (vm_compute; reflexivity).
  assert (Ho : tv_diff st' > tv_max_allowed_diff st) by (vm_compute; reflexivity).
  destruct (overrun_percentage_is_finite Sample.cfg Sample.late st st' Hg H Ho)
    as (_ & _ & Hz & _ & _ & Hc).
  split; [exact Hg|]. split; [exact H|]. split; [exact Ho|].
  split.
  - apply Hz. vm_compute. reflexivity.
  - apply Hc; vm_compute; reflexivity.
Defined.

Lemma statistics_on_request_witness :
  let st := Sample.start Sample.cfg in
  let st' := Sample.after (poll_iter Sample.cfg Fixture.asked_thrice st) in
  poll_iter Sample.cfg Fixture.asked_thrice st = Continue st'
  /\ count_events is_statistics (new_events st st') = 1%nat
  /\ display_statistics st' = 0.
Proof.
  intros st st'.
  assert (H : poll_iter Sample.cfg Fixture.asked_thrice st = Continue st')
    by (vm_compute; reflexivity).
  destruct (statistics_on_request Sample.cfg Fixture.asked_thrice st st' H)
    as (Hc & _ & _ & _).
  split; [exact H|]. split; [exact Hc|]. vm_compute. reflexivity.
Defined.

(** ** The steal time of an iteration *)

(** The two samples of an iteration that goes on. *)
Lemma poll_iter_samples cfg e st st' :
  poll_iter cfg e st = Continue st' ->
  steal_prev st' = fst (fst (nano_stealtime_get cfg (guest_prev st) (env_steal_prev e)))
  /\ steal_now st'
     = fst (fst (nano_stealtime_get cfg
                   (snd (fst (nano_stealtime_get cfg (guest_prev st) (env_steal_prev e))))
                   (env_steal_now e)))
  /\ guest_prev st'
     = snd (fst (nano_stealtime_get cfg
                   (snd (fst (nano_stealtime_get cfg (guest_prev st) (env_steal_prev e))))
                   (env_steal_now e)))
  /\ steal_diff st' = wrap64 (steal_now st' - steal_prev st').
Proof.
  intros Hi. apply poll_iter_continue in Hi. destruct Hi as [_ ->].
  pose proof (poll_iter_enter_frame cfg e st) as He. simpl in He.
  destruct He as (_ & _ & _ & _ & Hsp & Hg & _).
  pose proof (poll_iter_measure_frame cfg e (poll_iter_enter cfg e st)) as Hf.
  simpl in Hf. destruct Hf as (_ & _ & _ & F4 & F5 & F6 & _).
  rewrite Hg in F4.
  split; [congruence|]. split; [exact F4|]. split; [|exact F6].
  unfold poll_iter_measure. rewrite Hg.
  destruct (nano_stealtime_get cfg
              (snd (fst (nano_stealtime_get cfg (guest_prev st) (env_steal_prev e))))
              (env_steal_now e)) as [[steal gs] evs].
  reflexivity.
Qed.

Lemma guest_sample_ok (gs : guest_static) (g : guest_env) :
  gl_update_err g = VMGUESTLIB_ERROR_SUCCESS ->
  gl_stolen_err g = VMGUESTLIB_ERROR_SUCCESS ->
  fst (fst (nano_stealtime_vmguestlib_get gs g)) = wrap64 (NO_NS_IN_MSEC * gl_stolen_ms g)
  /\ prev_stolen_ms (snd (fst (nano_stealtime_vmguestlib_get gs g))) = gl_stolen_ms g.
Proof.
  intros Hu Hs. unfold nano_stealtime_vmguestlib_get.
  rewrite Hu, Hs, Z.eqb_refl. simpl. split; reflexivity.
Qed.

(** X4: with the guest library as the source, when its queries succeed
    before and after the wait and the counter of stolen milliseconds did not
    go back (and is below 2^64 / 1000000), the two samples are the two
    readings in nanoseconds and the steal difference of the iteration is the
    number of milliseconds stolen in between, times 1000000.  Whether the
    queries for the used and the elapsed time succeed does not matter. *)
Theorem guest_steal_difference cfg e st st' :
  use_vmguestlib_stealtime cfg = true ->
  poll_iter cfg e st = Continue st' ->
  gl_update_err (guest (env_steal_prev e)) = VMGUESTLIB_ERROR_SUCCESS ->
  gl_stolen_err (guest (env_steal_prev e)) = VMGUESTLIB_ERROR_SUCCESS ->
  gl_update_err (guest (env_steal_now e)) = VMGUESTLIB_ERROR_SUCCESS ->
  gl_stolen_err (guest (env_steal_now e)) = VMGUESTLIB_ERROR_SUCCESS ->
  0 <= gl_stolen_ms (guest (env_steal_prev e)) <= gl_stolen_ms (guest (env_steal_now e)) ->
  gl_stolen_ms (guest (env_steal_now e)) * NO_NS_IN_MSEC < 2 ^ 64 ->
  steal_prev st' = gl_stolen_ms (guest (env_steal_prev e)) * NO_NS_IN_MSEC
  /\ steal_now st' = gl_stolen_ms (guest (env_steal_now e)) * NO_NS_IN_MSEC
  /\ steal_diff st'
     = (gl_stolen_ms (guest (env_steal_now e)) - gl_stolen_ms (guest (env_steal_prev e)))
       * NO_NS_IN_MSEC
  /\ prev_stolen_ms (guest_prev st') = gl_stolen_ms (guest (env_steal_now e)).
Proof.
  intros Hcfg Hi U0 S0 U1 S1 Hms Hb.
  destruct (poll_iter_samples cfg e st st' Hi) as (Hp & Hn & Hg & Hd).
  unfold nano_stealtime_get in Hp, Hn, Hg. rewrite Hcfg in Hp, Hn, Hg.
  destruct (guest_sample_ok (guest_prev st) _ U0 S0) as [E0 _].
  destruct (guest_sample_ok
              (snd (fst (nano_stealtime_vmguestlib_get (guest_prev st)
                           (guest (env_steal_prev e))))) _ U1 S1) as [E1 G1].
  rewrite E0 in Hp. rewrite E1 in Hn.
  unfold NO_NS_IN_MSEC in *.
  rewrite wrap64_small in Hp by lia. rewrite wrap64_small in Hn by lia.
  split; [lia|]. split; [lia|]. split; [|rewrite Hg; exact G1].
  rewrite Hd, Hp, Hn. rewrite wrap64_small by lia. lia.
Qed.

Lemma guest_steal_difference_witness :
  let st := Sample.start Sample.cfg_guest in
  let st' := Sample.after (poll_iter Sample.cfg_guest Fixture.guest_steady st) in
  poll_iter Sample.cfg_guest Fixture.guest_steady st = Continue st'
  /\ steal_diff st' = (12 - 5) * NO_NS_IN_MSEC.
Proof.
  intros st st'.
  assert (H : poll_iter Sample.cfg_guest Fixture.guest_steady st = Continue st')
    by (vm_compute; reflexivity).
  destruct (guest_steal_difference Sample.cfg_guest Fixture.guest_steady st st'
              eq_refl H eq_refl eq_refl eq_refl eq_refl)
    as (_ & _ & Hd & _).
  - vm_compute. split; discriminate.
  - vm_compute. reflexivity.
  - split; [exact H|exact Hd].
Defined.




(** X6: the factor [1000000000 / hz] is an integer quotient, so the sample
    taken from a valid line never says more than its steal field holds: with
    [s] the field, and as long as the product is below 2^64, [sample * hz]
    is at most [s * 1000000000] and falls short of it by less than [hz] for
    each tick.  It is exact when [hz] divides 1000000000, and it is 0 when
    [hz] is above 1000000000. *)
Theorem tick_conversion_rounds_down (clk : clk_tck_result) (buf : string) :
  s_steal (stored_fields (snd (Scan.sscanf Scan.cpu_format buf)))
  * (NO_NS_IN_SEC / effective_hz clk) < 2 ^ 64 ->
  let s := s_steal (stored_fields (snd (Scan.sscanf Scan.cpu_format buf))) in
  let hz := effective_hz clk in
  let sample := fst (kernel_steal_of_line clk buf) in
  sample * hz <= s * NO_NS_IN_SEC
  /\ s * NO_NS_IN_SEC <= sample * hz + s * (hz - 1)
  /\ (NO_NS_IN_SEC mod hz = 0 -> sample * hz = s * NO_NS_IN_SEC)
  /\ (NO_NS_IN_SEC < hz -> sample = 0).
Proof.
  intros Hb s hz sample.
  assert (Hhz : 0 < hz) by (subst hz; destruct clk; simpl; lia).
  pose proof (stored_steal_range buf) as Hs. fold s in Hs.
  assert (Hfac : 0 <= NO_NS_IN_SEC / hz < 2 ^ 64).
  { split; [apply Z.div_pos; unfold NO_NS_IN_SEC; lia|].
    apply Z.div_lt_upper_bound; unfold NO_NS_IN_SEC; nia. }
  assert (E : sample = s * (NO_NS_IN_SEC / hz)).
  { subst sample. unfold kernel_steal_of_line. cbn [fst].
    assert (Hz : (if sysconf_clk_tck clk =? -1 then 100 else sysconf_clk_tck clk) = hz)
      by (subst hz; destruct clk; reflexivity).
    rewrite Hz, (wrap64_small (NO_NS_IN_SEC / hz)) by exact Hfac.
    fold s. apply wrap64_small. split; [nia|exact Hb]. }
  pose proof (Z.div_mod NO_NS_IN_SEC hz ltac:(lia)) as Hdm.
  pose proof (Z.mod_pos_bound NO_NS_IN_SEC hz Hhz) as Hm.
  rewrite E.
  split; [nia|]. split; [nia|]. split.
  - intros H0. rewrite H0 in Hdm. nia.
  - intros Hbig. rewrite Z.div_small by (unfold NO_NS_IN_SEC in *; lia). lia.
Qed.

Lemma tick_conversion_rounds_down_witness :
  let buf := ("cpu 1 2 3 4 5 6 7 3" ++ end_of_line)%string in
  fst (kernel_steal_of_line (ClkTck 1024) buf) = 3 * 976562
  /\ fst (kernel_steal_of_line (ClkTck 1024) buf) * 1024 <= 3 * NO_NS_IN_SEC.
Proof.
  intros buf.
  assert (Hb : s_steal (stored_fields (snd (Scan.sscanf Scan.cpu_format buf)))
               * (NO_NS_IN_SEC / effective_hz (ClkTck 1024)) < 2 ^ 64)
    by (vm_compute; reflexivity).
  destruct (tick_conversion_rounds_down (ClkTck 1024) buf Hb) as (Hle & _).
  split; [vm_compute; reflexivity|exact Hle].
Defined.

(** ** Reading /proc/stat to its end *)

Lemma fgets_chars_split (room : nat) :
  forall f, (fst (Scan.fgets_chars room f) ++ snd (Scan.fgets_chars room f))%string = f.
Proof.
  induction room as [|room IH]; intros f; [reflexivity|].
  destruct f as [|c f]; [reflexivity|].
  cbn [Scan.fgets_chars].
  destruct (Ascii.eqb c Scan.newline); [reflexivity|].
  specialize (IH f). destruct (Scan.fgets_chars room f) as [buf rest].
  cbn [fst snd] in *. simpl. rewrite IH. reflexivity.
Qed.

Lemma fgets_chars_room (room : nat) :
  forall f, (String.length (fst (Scan.fgets_chars room f)) <= room)%nat.
Proof.
  induction room as [|room IH]; intros f; [simpl; lia|].
  destruct f as [|c f]; [simpl; lia|].
  cbn [Scan.fgets_chars].
  destruct (Ascii.eqb c Scan.newline); [simpl; lia|].
  specialize (IH f). destruct (Scan.fgets_chars room f) as [buf rest].
  cbn [fst] in *. simpl. lia.
Qed.

Lemma fgets_split (f buf rest : string) :
  Scan.fgets 4096 f = Some (buf, rest) ->
  f = (buf ++ rest)%string /\ (String.length buf <= 4095)%nat.
Proof.
  unfold Scan.fgets. destruct f as [|c f]; [discriminate|].
  intros H.
  assert (E : Scan.fgets_chars 4095 (String c f) = (buf, rest)).
  { replace (4096 - 1)%nat with 4095%nat in H by reflexivity. congruence. }
  pose proof (fgets_chars_split 4095 (String c f)) as Hs.
  pose proof (fgets_chars_room 4095 (String c f)) as Hr.
  rewrite E in Hs, Hr. cbn [fst snd] in Hs, Hr. split; [symmetry; exact Hs|exact Hr].
Qed.

Lemma first_valid_line_piece (f buf : string) :
  first_valid_line f buf ->
  exists before after,
    f = (before ++ buf ++ after)%string /\ (String.length buf <= 4095)%nat.
Proof.
  induction 1 as [f buf rest Hg Hv|f skipped rest buf Hg Hv Hfv IH].
  - destruct (fgets_split _ _ _ Hg) as [E L].
    exists EmptyString, rest. split; [exact E|exact L].
  - destruct (fgets_split _ _ _ Hg) as [E _].
    destruct IH as (before & after & E' & L).
    exists (skipped ++ before)%string, after.
    split; [|exact L]. rewrite E, E', append_assoc. reflexivity.
Qed.

(** X7: reading /proc/stat ends on every file.  Each call of [fgets] takes
    at least one character, so the loop runs at most once for each character
    of the file: giving it more rounds than that changes nothing.  What it
    returns is 0, with nothing logged, when no buffer read holds a valid
    line; otherwise it is what the first such buffer gives, and that buffer
    is a piece of the file of at most 4095 characters. *)
Theorem proc_stat_reading_ends (clk : clk_tck_result) (f : string) (fuel : nat) :
  (String.length f < fuel)%nat ->
  kernel_scan fuel clk f
  = nano_stealtime_kernel_get {| proc_stat := Some f; clk_tck := clk |}
  /\ ((no_valid_line f /\ kernel_scan fuel clk f = (0, []))
      \/ (exists buf before after,
            first_valid_line f buf
            /\ f = (before ++ buf ++ after)%string
            /\ (String.length buf <= 4095)%nat
            /\ kernel_scan fuel clk f = kernel_steal_of_line clk buf)).
Proof.
  intros Hfuel. unfold nano_stealtime_kernel_get. cbn [proc_stat clk_tck].
  destruct (valid_line_or_none f) as [Hno|[buf Hfv]].
  - rewrite !(kernel_scan_no_valid clk f Hno). split; [reflexivity|].
    left. split; [exact Hno|reflexivity].
  - rewrite (kernel_scan_first_valid clk f buf Hfv fuel Hfuel).
    rewrite (kernel_scan_first_valid clk f buf Hfv (S (String.length f))) by lia.
    split; [reflexivity|]. right.
    destruct (first_valid_line_piece f buf Hfv) as (before & after & E & L).
    exists buf, before, after. repeat split; assumption.
Qed.

Lemma proc_stat_reading_ends_witness :
  kernel_scan 1000 (ClkTck 100) Sample.proc_stat_short
  = nano_stealtime_kernel_get (Sample.kernel_of (Some Sample.proc_stat_short)).
Proof.
  assert (H : (String.length Sample.proc_stat_short < 1000)%nat) by (vm_compute; lia).
  exact (proj1 (proc_stat_reading_ends (ClkTck 100) Sample.proc_stat_short 1000 H)).
Defined.

(** ** What a run prints at the default debug level *)

Lemma shown_events_app (d : Z) (l1 l2 : list event) :
  shown_events d (l1 ++ l2) = shown_events d l1 ++ shown_events d l2.
Proof. unfold shown_events. apply filter_app. Qed.

Lemma shown_trace_events (d : Z) (evs : list event) :
  d < 2 -> forallb is_trace_event evs = true -> shown_events d evs = [].
Proof.
  intros Hd. induction evs as [|ev evs IH]; [reflexivity|].
  simpl. intros H. apply andb_true_iff in H. destruct H as [H1 H2].
  destruct ev as [p m|a]; [|discriminate].
  simpl in H1. apply Z.eqb_eq in H1. subst p.
  unfold log_shown.
  replace (LOG_TRACE <? LOG_DEBUG) with false by reflexivity.
  replace (LOG_TRACE =? LOG_DEBUG) with false by reflexivity.
  replace (2 <=? d) with false by (symmetry; apply Z.leb_gt; exact Hd).
  rewrite andb_false_r. simpl. apply IH. exact H2.
Qed.

Lemma kernel_steal_of_line_trace (clk : clk_tck_result) (buf : string) :
  forallb is_trace_event (snd (kernel_steal_of_line clk buf)) = true.
Proof.
  unfold kernel_steal_of_line. cbn [snd].
  destruct (sysconf_clk_tck clk =? -1); reflexivity.
Qed.

Lemma kernel_scan_trace (fuel : nat) (clk : clk_tck_result) :
  forall f, forallb is_trace_event (snd (kernel_scan fuel clk f)) = true.
Proof.
  induction fuel as [|fuel IH]; intros f; [reflexivity|].
  cbn [kernel_scan]. destruct (Scan.fgets 4096 f) as [[buf f']|]; [|reflexivity].
  destruct (valid_line buf); [apply kernel_steal_of_line_trace|apply IH].
Qed.

Lemma nano_stealtime_get_kernel_trace cfg gs e :
  use_vmguestlib_stealtime cfg = false ->
  forallb is_trace_event (snd (nano_stealtime_get cfg gs e)) = true.
Proof.
  intros Hcfg. unfold nano_stealtime_get. rewrite Hcfg.
  destruct (nano_stealtime_kernel_get (kernel e)) as [res evs] eqn:E.
  cbn [snd]. change evs with (snd (res, evs)). rewrite <- E.
  unfold nano_stealtime_kernel_get.
  destruct (proc_stat (kernel e)); [apply kernel_scan_trace|reflexivity].
Qed.

Lemma no_statistics_signal (e : iter_env) :
  existsb is_statistics_signal (signals_of e) = false ->
  existsb is_statistics_signal (env_sig_enter e) = false
  /\ existsb is_statistics_signal (env_sig_print e) = false
  /\ existsb is_statistics_signal (env_sig_wait e) = false.
Proof.
  unfold signals_of. rewrite !existsb_app. intros H.
  apply orb_false_iff in H. destruct H as [H1 H].
  apply orb_false_iff in H. destruct H as [H2 H3]. auto.
Qed.

(** The lines of the first half of an iteration nobody asked statistics of. *)
Lemma shown_enter_events cfg e st :
  use_vmguestlib_stealtime cfg = false ->
  display_statistics st = 0 ->
  existsb is_statistics_signal (env_sig_enter e) = false ->
  shown_events 0 (enter_events cfg e st) = [].
Proof.
  intros Hcfg Hd He. unfold enter_events. cbv zeta.
  rewrite display_at_test, Hd, He.
  rewrite !shown_events_app.
  rewrite (shown_trace_events 0 _ ltac:(lia)
             (nano_stealtime_get_kernel_trace cfg (guest_prev st) (env_steal_prev e) Hcfg)).
  reflexivity.
Qed.

(** The lines of the second half of an iteration that was on time. *)
Lemma shown_measure_events cfg e st :
  use_vmguestlib_stealtime cfg = false ->
  wrap64 (nano_current_get (env_clock_now e) - tv_prev st) <= tv_max_allowed_diff st ->
  shown_events 0 (measure_events cfg e st) = [].
Proof.
  intros Hcfg Hle. unfold measure_events. cbv zeta.
  rewrite shown_events_app.
  rewrite (shown_trace_events 0 _ ltac:(lia)
             (nano_stealtime_get_kernel_trace cfg (guest_prev st) (env_steal_now e) Hcfg)).
  destruct (Z.gtb_spec (wrap64 (nano_current_get (env_clock_now e) - tv_prev st))
              (tv_max_allowed_diff st)) as [Hgt|_]; [lia|reflexivity].
Qed.

Lemma finish_events_eq clock st st' :
  tv_start st' = tv_start st ->
  times_not_scheduled st' = times_not_scheduled st ->
  finish_events clock st' = finish_events clock st.
Proof. intros H1 H2. unfold finish_events. rewrite H1, H2. reflexivity. Qed.

Lemma poll_loop_silent cfg clock envs :
  use_vmguestlib_stealtime cfg = false ->
  forall st,
    display_statistics st = 0 ->
    Forall (fun e => elapsed e <= tv_max_allowed_diff st
                     /\ existsb is_statistics_signal (signals_of e) = false) envs ->
    times_not_scheduled (final_state (poll_loop cfg clock envs st)) = times_not_scheduled st
    /\ match poll_loop cfg clock envs st with
       | Stopped fin =>
           shown_events 0 (trace fin) = shown_events 0 (trace st) ++ finish_events clock st
       | Exited code fin =>
           exists errno,
             shown_events 0 (trace fin)
             = shown_events 0 (trace st) ++ [EvLog LOG_ERR (MsgPollError errno)]
       | Running fin => shown_events 0 (trace fin) = shown_events 0 (trace st)
       end.
Proof.
  intros Hcfg. induction envs as [|e envs IH]; intros st Hd Hall.
  - destruct (Z.eq_dec (stop_main_loop st) 0) as [Hs|Hs].
    + rewrite (poll_loop_nil cfg clock st Hs). split; reflexivity.
    + rewrite (poll_loop_stopped cfg clock [] st Hs).
      pose proof (poll_run_finish_spec clock st) as F. cbv zeta in F.
      destruct F as (Ft & _ & Ftr). cbn [final_state].
      split; [exact Ft|]. rewrite Ftr, shown_events_app. reflexivity.
  - destruct (Z.eq_dec (stop_main_loop st) 0) as [Hs|Hs].
    2:{ rewrite (poll_loop_stopped cfg clock (e :: envs) st Hs).
        pose proof (poll_run_finish_spec clock st) as F. cbv zeta in F.
        destruct F as (Ft & _ & Ftr). cbn [final_state].
        split; [exact Ft|]. rewrite Ftr, shown_events_app. reflexivity. }
    rewrite (poll_loop_step cfg clock e envs st Hs).
    inversion Hall as [|e0 envs0 [Hle Hsig] Hrest]; subst.
    destruct (no_statistics_signal e Hsig) as (S1 & S2 & S3).
    pose proof (poll_iter_enter_frame cfg e st) as He. simpl in He.
    destruct He as (Ht & Hp & Hm & Hst & _ & _ & _ & _ & Htr).
    destruct (poll_iter cfg e st) as [st'|code st'] eqn:Hi.
    + pose proof (poll_iter_continue_spec cfg e st st' Hi) as S. simpl in S.
      destruct S as (Hdiff & Hgap & Hstart & _ & _ & _ & Htimes & Htrace & _).
      assert (Hel : tv_diff st' = elapsed e) by exact Hdiff.
      assert (Htimes' : times_not_scheduled st' = times_not_scheduled st).
      { rewrite Htimes, Hel.
        destruct (Z.gtb_spec (elapsed e) (tv_max_allowed_diff st)); [lia|reflexivity]. }
      assert (Hdisp : display_statistics st' = 0).
      { apply poll_iter_continue in Hi. destruct Hi as [_ ->].
        rewrite poll_iter_measure_display, poll_iter_enter_display, S1, S2, S3, Hd.
        reflexivity. }
      assert (Hshown : shown_events 0 (trace st') = shown_events 0 (trace st)).
      { rewrite Htrace, !shown_events_app.
        rewrite (shown_enter_events cfg e st Hcfg Hd S1).
        rewrite shown_measure_events; [rewrite !app_nil_r; reflexivity|exact Hcfg|].
        rewrite Hp, Hm. exact Hle. }
      assert (Hall' : Forall (fun e => elapsed e <= tv_max_allowed_diff st'
                                       /\ existsb is_statistics_signal (signals_of e) = false)
                        envs) by (rewrite Hgap; exact Hrest).
      destruct (IH st' Hdisp Hall') as [I1 I2].
      split; [rewrite I1; exact Htimes'|].
      destruct (poll_loop cfg clock envs st') as [fin|code fin|fin].
      * rewrite I2, Hshown, (finish_events_eq clock st st' Hstart Htimes'). reflexivity.
      * destruct I2 as [errno I2]. exists errno. rewrite I2, Hshown. reflexivity.
      * rewrite I2, Hshown. reflexivity.
    + apply poll_iter_exit in Hi. destruct Hi as (_ & _ & ->).
      cbn [final_state]. split; [exact Ht|].
      exists (env_errno e).
      change (trace (emit ?evs ?s)) with (trace s ++ evs).
      rewrite Htr, !shown_events_app, (shown_enter_events cfg e st Hcfg Hd S1), app_nil_r.
      reflexivity.
Qed.

(** X8: a run with /proc/stat as the source, in which every wait is on time
    (the time measured is not above the gap) and no SIGUSR1 is handled,
    prints nothing at the default debug level between its first line,
    "Running main poll loop ...", and its end: the two lines "Main poll loop
    stopped" and the statistics when it is stopped, the line "Poll error"
    when [poll] fails.  The counter keeps the value it had. *)
Theorem on_time_run_is_silent cfg g timeout clock_start clock_stop envs :
  use_vmguestlib_stealtime cfg = false ->
  g_display_statistics g = 0 ->
  Forall (fun e => elapsed e <= wrap64 (timeout * NO_NS_IN_MSEC)
                   /\ existsb is_statistics_signal (signals_of e) = false) envs ->
  times_not_scheduled (final_state (poll_run cfg g timeout clock_start clock_stop envs))
  = g_times_not_scheduled g
  /\ match poll_run cfg g timeout clock_start clock_stop envs with
     | Stopped fin =>
         shown_events 0 (trace fin)
         = [EvLog LOG_INFO (MsgRunning timeout (max_steal_threshold cfg));
            EvLog LOG_INFO MsgStopped;
            EvLog LOG_INFO
              (MsgStatistics
                 (wrap64 (nano_current_get clock_stop - nano_current_get clock_start))
                 (g_times_not_scheduled g))]
     | Exited code fin =>
         exists errno,
           shown_events 0 (trace fin)
           = [EvLog LOG_INFO (MsgRunning timeout (max_steal_threshold cfg));
              EvLog LOG_ERR (MsgPollError errno)]
     | Running fin =>
         shown_events 0 (trace fin)
         = [EvLog LOG_INFO (MsgRunning timeout (max_steal_threshold cfg))]
     end.
Proof.
  intros Hcfg Hd Hall. unfold poll_run.
  destruct (poll_loop_silent cfg clock_stop envs Hcfg
              (poll_run_init cfg g timeout clock_start) Hd Hall) as [H1 H2].
  split; [exact H1|].
  destruct (poll_loop cfg clock_stop envs (poll_run_init cfg g timeout clock_start))
    as [fin|code fin|fin].
  - rewrite H2. reflexivity.
  - destruct H2 as [errno H2]. exists errno. rewrite H2. reflexivity.
  - rewrite H2. reflexivity.
Qed.

Lemma on_time_run_is_silent_witness :
  let envs := [Sample.on_time; Sample.interrupted] in
  Forall (fun e => elapsed e <= wrap64 (DEFAULT_TIMEOUT * NO_NS_IN_MSEC)
                   /\ existsb is_statistics_signal (signals_of e) = false) envs
  /\ times_not_scheduled
       (final_state (poll_run Sample.cfg globals_init DEFAULT_TIMEOUT
                       (Sample.clock 1000000000) (Sample.clock 9000000000) envs))
     = g_times_not_scheduled globals_init
  /\ List.length
       (shown_events 0
          (trace (final_state (poll_run Sample.cfg globals_init DEFAULT_TIMEOUT
                                 (Sample.clock 1000000000) (Sample.clock 9000000000) envs))))
     = 3%nat.
Proof.
  intros envs.
  assert (Hall : Forall (fun e => elapsed e <= wrap64 (DEFAULT_TIMEOUT * NO_NS_IN_MSEC)
                                  /\ existsb is_statistics_signal (signals_of e) = false)
                   envs).
  { apply Forall_cons; [split; [vm_compute; discriminate|vm_compute; reflexivity]|].
    apply Forall_cons; [split; [vm_compute; discriminate|vm_compute; reflexivity]|].
    apply Forall_nil. }
  destruct (on_time_run_is_silent Sample.cfg globals_init DEFAULT_TIMEOUT
              (Sample.clock 1000000000) (Sample.clock 9000000000) envs
              eq_refl eq_refl Hall) as [H1 _].
  split; [exact Hall|]. split; [exact H1|]. vm_compute. reflexivity.
Defined.

(** ** Numbers on the command line *)

Lemma append_empty_r (s : string) : (s ++ EmptyString)%string = s.
Proof. induction s as [|c s IH]; [reflexivity|]. simpl. rewrite IH. reflexivity. Qed.

Lemma blank_nil : blank EmptyString.
Proof. constructor. Qed.

Lemma blank_cons (c : ascii) (s : string) :
  Scan.isspace c = true -> blank s -> blank (String c s).
Proof. intros Hc Hs. constructor; assumption. Qed.

(** White space, and then a string that does not start with any. *)
Lemma skip_space_blank (s : string) :
  exists ws, s = (ws ++ Scan.skip_space s)%string /\ blank ws.
Proof.
  induction s as [|c s IH].
  - exists EmptyString. split; [reflexivity|apply blank_nil].
  - simpl. destruct (Scan.isspace c) eqn:Hc.
    + destruct IH as (ws & E & B). exists (String c ws).
      split; [simpl; rewrite <- E; reflexivity|apply blank_cons; assumption].
    + exists EmptyString. split; [reflexivity|apply blank_nil].
Qed.

Lemma skip_space_append (ws s : string) :
  blank ws -> Scan.skip_space (ws ++ s) = Scan.skip_space s.
Proof.
  unfold blank. induction ws as [|c ws IH]; intros B; [reflexivity|].
  simpl in B. inversion B as [|c0 l Hc Hl]; subst.
  simpl. rewrite Hc. apply IH. exact Hl.
Qed.

Lemma isdigit_digit_char (c : ascii) :
  Scan.isdigit c = true ->
  exists d, (d < 10)%nat /\ c = digit_char d.
Proof.
  unfold Scan.isdigit. intros H. apply andb_true_iff in H. destruct H as [H1 H2].
  apply Nat.leb_le in H1. apply Nat.leb_le in H2.
  exists (nat_of_ascii c - 48)%nat. split; [lia|].
  unfold digit_char.
  replace (48 + (nat_of_ascii c - 48))%nat with (nat_of_ascii c) by lia.
  symmetry. apply ascii_nat_embedding.
Qed.

(** What [scan_digits] has read is a run of digits, and what it has left does
    not go on with one. *)
Lemma scan_digits_inv (s : string) :
  forall acc n rest,
    Scan.scan_digits acc s = (n, rest) ->
    exists ds,
      s = (digits_text ds ++ rest)%string
      /\ Forall (fun d => (d < 10)%nat) ds
      /\ n = fold_left (fun a d => a * 10 + Z.of_nat d) ds acc
      /\ stops_digits rest.
Proof.
  induction s as [|c s IH]; intros acc n rest H.
  - simpl in H. injection H as <- <-. exists []. repeat split. constructor.
  - simpl in H. destruct (Scan.isdigit c) eqn:Hc.
    + destruct (IH _ _ _ H) as (ds & E & F & V & St).
      destruct (isdigit_digit_char c Hc) as (d & Hd & ->).
      exists (d :: ds). split; [simpl; rewrite <- E; reflexivity|].
      split; [constructor; assumption|]. split; [|exact St].
      simpl. destruct (digit_char_spec d Hd) as (_ & _ & Hv & _).
      rewrite <- Hv. exact V.
    + injection H as <- <-. exists []. split; [reflexivity|].
      split; [constructor|]. split; [reflexivity|]. simpl. exact Hc.
Qed.

(** [strtoll] on white space, a sign, digits, and something that does not go
    on with a digit. *)
Lemma strtoll_numeral (ws : string) (sg : sign) (ds : list nat) (rest : string) :
  blank ws -> decimal_field ds -> stops_digits rest ->
  strtoll (ws ++ sign_text sg ++ digits_text ds ++ rest)
  = let v := signed sg (digits_value ds) in
    if v >? LLONG_MAX then
      {| ll_value := LLONG_MAX; ll_end := Some rest; ll_errno := ERANGE |}
    else if v <? LLONG_MIN then
      {| ll_value := LLONG_MIN; ll_end := Some rest; ll_errno := ERANGE |}
    else {| ll_value := v; ll_end := Some rest; ll_errno := 0 |}.
Proof.
  intros B [Hne Hds] St.
  destruct ds as [|d ds]; [congruence|].
  inversion Hds as [|d0 l Hd Hl]; subst.
  destruct (digit_char_spec d Hd) as (Dg & Ds & _ & Dm & Dp & _).
  pose proof (scan_digits_text (d :: ds) 0 rest Hds St) as Hscan.
  change (fold_left (fun a d => a * 10 + Z.of_nat d) (d :: ds) 0)
    with (digits_value (d :: ds)) in Hscan.
  unfold strtoll. rewrite (skip_space_append _ _ B).
  destruct sg; cbn [sign_text signed append].
  - (* no sign *)
    change (digits_text (d :: ds) ++ rest)%string
      with (String (digit_char d) (digits_text ds ++ rest)).
    cbn [Scan.skip_space]. rewrite Ds, Dm, Dp. cbn [orb].
    rewrite Dg.
    change (String (digit_char d) (digits_text ds ++ rest))
      with (digits_text (d :: ds) ++ rest)%string.
    rewrite Hscan. reflexivity.
  - (* plus *)
    cbn [Scan.skip_space].
    replace (Scan.isspace "+") with false by reflexivity.
    replace (Ascii.eqb "+" "-") with false by reflexivity.
    replace (Ascii.eqb "+" "+") with true by reflexivity.
    change (digits_text (d :: ds) ++ rest)%string
      with (String (digit_char d) (digits_text ds ++ rest)).
    cbn [orb].
    rewrite Dg.
    change (String (digit_char d) (digits_text ds ++ rest))
      with (digits_text (d :: ds) ++ rest)%string.
    rewrite Hscan. reflexivity.
  - (* minus *)
    cbn [Scan.skip_space].
    replace (Scan.isspace "-") with false by reflexivity.
    replace (Ascii.eqb "-" "-") with true by reflexivity.
    change (digits_text (d :: ds) ++ rest)%string
      with (String (digit_char d) (digits_text ds ++ rest)).
    cbn [orb].
    rewrite Dg.
    change (String (digit_char d) (digits_text ds ++ rest))
      with (digits_text (d :: ds) ++ rest)%string.
    rewrite Hscan. reflexivity.
Qed.

(** A string that starts with a digit starts with a decimal field. *)
Lemma leading_digits (d : ascii) (s : string) :
  Scan.isdigit d = true ->
  exists ds rest,
    String d s = (digits_text ds ++ rest)%string
    /\ decimal_field ds /\ stops_digits rest.
Proof.
  intros Hd.
  destruct (Scan.scan_digits 0 (String d s)) as [n rest] eqn:Hscan.
  destruct (scan_digits_inv _ _ _ _ Hscan) as (ds & E & F & _ & St).
  exists ds, rest. split; [exact E|]. split; [|exact St].
  split; [|exact F]. intros ->. simpl in E. subst rest.
  simpl in St. congruence.
Qed.

(** Where [strtoll] finds a number, the string is made in that way. *)
Lemma strtoll_found (s rest : string) :
  ll_end (strtoll s) = Some rest ->
  exists ws sg ds,
    s = (ws ++ sign_text sg ++ digits_text ds ++ rest)%string
    /\ blank ws /\ decimal_field ds /\ stops_digits rest.
Proof.
  intros H.
  destruct (skip_space_blank s) as (ws & E & B).
  assert (Hdec : exists sg ds rest0,
             Scan.skip_space s = (sign_text sg ++ digits_text ds ++ rest0)%string
             /\ decimal_field ds /\ stops_digits rest0).
  { unfold strtoll in H. cbv zeta in H.
    destruct (Scan.skip_space s) as [|c s']; [discriminate H|].
    destruct (Ascii.eqb c "-") eqn:Hm.
    - apply Ascii.eqb_eq in Hm. subst c. cbn [orb] in H.
      destruct s' as [|d s'']; [discriminate H|].
      destruct (Scan.isdigit d) eqn:Hd; [|discriminate H].
      destruct (leading_digits d s'' Hd) as (ds & rest0 & Eb & D & St).
      exists Minus, ds, rest0. split; [|auto].
      cbn [sign_text append]. rewrite <- Eb. reflexivity.
    - destruct (Ascii.eqb c "+") eqn:Hp.
      + apply Ascii.eqb_eq in Hp. subst c. cbn [orb] in H.
        destruct s' as [|d s'']; [discriminate H|].
        destruct (Scan.isdigit d) eqn:Hd; [|discriminate H].
        destruct (leading_digits d s'' Hd) as (ds & rest0 & Eb & D & St).
        exists Plus, ds, rest0. split; [|auto].
        cbn [sign_text append]. rewrite <- Eb. reflexivity.
      + cbn [orb] in H.
        destruct (Scan.isdigit c) eqn:Hd; [|discriminate H].
        destruct (leading_digits c s' Hd) as (ds & rest0 & Eb & D & St).
        exists NoSign, ds, rest0. split; [|auto].
        cbn [sign_text append]. exact Eb. }
  destruct Hdec as (sg & ds & rest0 & Es & D & St).
  rewrite Es in E.
  assert (rest0 = rest).
  { rewrite E, (strtoll_numeral ws sg ds rest0 B D St) in H. cbv zeta in H.
    destruct (signed sg (digits_value ds) >? LLONG_MAX);
      [cbn [ll_end] in H; congruence|].
    destruct (signed sg (digits_value ds) <? LLONG_MIN);
      cbn [ll_end] in H; congruence. }
  subst rest0. exists ws, sg, ds. auto.
Qed.

(** X9: for bounds that are [long long] values, [util_strtonum] accepts a
    string, and stores [v], exactly when the string is made of white space
    (or none), an optional sign, one decimal digit at least and nothing else,
    and the number written, [v], is within the bounds.  So an empty string, a
    sign alone, a number followed by anything (a space, a letter, "0x10"),
    and a number outside the bounds or outside [long long] are all refused;
    white space before the number and leading zeros are not. *)
Theorem util_strtonum_accepts (str : string) (min_val max_val v : Z) :
  LLONG_MIN <= min_val ->
  max_val <= LLONG_MAX ->
  (util_strtonum str min_val max_val = Some v <->
   exists ws sg ds,
     Scan.c_str str = (ws ++ sign_text sg ++ digits_text ds)%string
     /\ blank ws
     /\ decimal_field ds
     /\ v = signed sg (digits_value ds)
     /\ min_val <= v <= max_val).
Proof.
  intros Hmin Hmax. unfold util_strtonum. split.
  - destruct (Z.gtb_spec min_val max_val) as [Hgt|Hle]; [discriminate|].
    destruct (ll_end (strtoll (Scan.c_str str))) as [rest|] eqn:Hend; [|discriminate].
    destruct (strtoll_found _ _ Hend) as (ws & sg & ds & E & B & D & St).
    pose proof (strtoll_numeral ws sg ds rest B D St) as Hnum.
    rewrite <- E in Hnum. cbv zeta in Hnum.
    destruct (String.eqb rest EmptyString) eqn:Hrest; [|discriminate].
    apply String.eqb_eq in Hrest. subst rest. cbn [negb orb].
    rewrite append_empty_r in E.
    destruct (signed sg (digits_value ds) >? LLONG_MAX) eqn:G1;
      [rewrite Hnum; discriminate|].
    destruct (signed sg (digits_value ds) <? LLONG_MIN) eqn:G2;
      [rewrite Hnum; discriminate|].
    rewrite Hnum. cbn [ll_errno ll_value]. cbn [Z.eqb negb].
    destruct (Z.ltb_spec (signed sg (digits_value ds)) min_val); [discriminate|].
    destruct (Z.gtb_spec (signed sg (digits_value ds)) max_val); [discriminate|].
    cbn [orb]. intros Hv. injection Hv as <-.
    exists ws, sg, ds. repeat split; try assumption; try lia; apply D.
  - intros (ws & sg & ds & E & B & D & -> & Hr).
    destruct (Z.gtb_spec min_val max_val) as [Hgt|Hle]; [lia|].
    pose proof (strtoll_numeral ws sg ds EmptyString B D I) as Hnum.
    rewrite append_empty_r, <- E in Hnum. cbv zeta in Hnum.
    destruct (Z.gtb_spec (signed sg (digits_value ds)) LLONG_MAX); [lia|].
    destruct (Z.ltb_spec (signed sg (digits_value ds)) LLONG_MIN); [lia|].
    rewrite Hnum. cbn [ll_end ll_errno ll_value String.eqb Z.eqb negb orb].
    destruct (Z.ltb_spec (signed sg (digits_value ds)) min_val); [lia|].
    destruct (Z.gtb_spec (signed sg (digits_value ds)) max_val); [lia|].
    reflexivity.
Qed.

Lemma util_strtonum_accepts_witness :
  LLONG_MIN <= 1
  /\ MAX_TIMEOUT <= LLONG_MAX
  /\ util_strtonum " +0500" 1 MAX_TIMEOUT = Some 500.
Proof.
  assert (H1 : LLONG_MIN <= 1) by (vm_compute; discriminate).
  assert (H2 : MAX_TIMEOUT <= LLONG_MAX) by (vm_compute; discriminate).
  split; [exact H1|]. split; [exact H2|].
  apply (proj2 (util_strtonum_accepts " +0500" 1 MAX_TIMEOUT 500 H1 H2)).
  exists " "%string, Plus, [0; 5; 0; 0]%nat.
  split; [reflexivity|].
  split; [repeat constructor|].
  split; [split; [discriminate|repeat constructor]|].
  split; [reflexivity|vm_compute; split; discriminate].
Defined.

(** ** Comparing without case *)








(** ** Which lines are written *)

Lemma log_vprintf_shown {M : Type} (lg : log_globals) (now : tm) (priority : Z) (msg : M) :
  log_vprintf lg now priority msg
  = if log_shown (log_debug lg) priority then
      (if negb (log_to_stderr lg =? 0) then
         [OutStderr (nth (Z.to_nat (tm_mon now)) log_month_str EmptyString)
            (tm_mday now) (tm_hour now) (tm_min now) (tm_sec now) PROGRAM_NAME msg]
       else [])
      ++ (if negb (log_to_syslog lg =? 0) then
            [OutSyslog (Z.min priority LOG_INFO) msg]
          else [])
    else [].
Proof.
  unfold log_vprintf, log_shown.
  rewrite !Z.geb_leb.
  replace (if priority >? LOG_INFO then LOG_INFO else priority)
    with (Z.min priority LOG_INFO)
    by (destruct (Z.gtb_spec priority LOG_INFO); lia).
  reflexivity.
Qed.

(** X11: [log_vprintf] writes a line when its priority is below [LOG_DEBUG],
    or is [LOG_DEBUG] at debug level 1 and above, or is [LOG_TRACE] at debug
    level 2 and above; a priority above [LOG_TRACE] is never written, and a
    higher debug level hides no line that a lower one shows.  A line that is
    written goes once to each destination that is switched on; syslog gets it
    with its priority, or with [LOG_INFO] when that is less urgent, so never
    with a priority above [LOG_INFO]. *)
Theorem log_vprintf_filters {M : Type} (lg : log_globals) (now : tm) (priority : Z) (msg : M) :
  (log_vprintf lg now priority msg <> []
   <-> (priority < LOG_DEBUG
        \/ (priority = LOG_DEBUG /\ 1 <= log_debug lg)
        \/ (priority = LOG_TRACE /\ 2 <= log_debug lg))
       /\ (log_to_stderr lg <> 0 \/ log_to_syslog lg <> 0))
  /\ (LOG_TRACE < priority -> log_vprintf lg now priority msg = [])
  /\ (forall p m, In (OutSyslog p m) (log_vprintf lg now priority msg) ->
        m = msg /\ p = Z.min priority LOG_INFO /\ p <= LOG_INFO)
  /\ (List.length (log_vprintf lg now priority msg)
      <= (if (log_to_stderr lg =? 0)%Z then 0 else 1)
         + (if (log_to_syslog lg =? 0)%Z then 0 else 1))%nat
  /\ (forall lg',
        log_to_stderr lg' = log_to_stderr lg ->
        log_to_syslog lg' = log_to_syslog lg ->
        log_debug lg <= log_debug lg' ->
        log_vprintf lg now priority msg <> [] ->
        log_vprintf lg' now priority msg = log_vprintf lg now priority msg).
Proof.
  assert (Hshown : forall d,
             log_shown d priority = true
             <-> (priority < LOG_DEBUG
                  \/ (priority = LOG_DEBUG /\ 1 <= d)
                  \/ (priority = LOG_TRACE /\ 2 <= d))).
  { intros d. unfold log_shown.
    rewrite !orb_true_iff, !andb_true_iff, Z.ltb_lt, !Z.eqb_eq, !Z.leb_le. tauto. }
  rewrite !log_vprintf_shown.
  split; [|split; [|split; [|split]]].
  - destruct (log_shown (log_debug lg) priority) eqn:Hs.
    + pose proof (proj1 (Hshown _) Hs) as Hp.
      destruct (Z.eqb_spec (log_to_stderr lg) 0) as [E1|E1];
        destruct (Z.eqb_spec (log_to_syslog lg) 0) as [E2|E2]; cbn [negb app];
        split; try (intros _; split; [exact Hp|]; auto; fail);
        try (intros _; discriminate).
      * intros H. exfalso. apply H. reflexivity.
      * intros [_ [H|H]]; contradiction.
    + split; [intros H; exfalso; apply H; reflexivity|].
      intros [Hp _]. apply Hshown in Hp. congruence.
  - intros Hp. destruct (log_shown (log_debug lg) priority) eqn:Hs; [|reflexivity].
    apply Hshown in Hs. unfold LOG_TRACE, LOG_DEBUG in *. lia.
  - intros p m Hin.
    destruct (log_shown (log_debug lg) priority); [|contradiction].
    apply in_app_or in Hin. destruct Hin as [Hin|Hin].
    + destruct (negb (log_to_stderr lg =? 0)); [|contradiction].
      destruct Hin as [Hin|[]]. discriminate.
    + destruct (negb (log_to_syslog lg =? 0)); [|contradiction].
      destruct Hin as [Hin|[]]. injection Hin as <- <-.
      split; [reflexivity|]. split; [reflexivity|]. lia.
  - destruct (log_shown (log_debug lg) priority);
      destruct (log_to_stderr lg =? 0); destruct (log_to_syslog lg =? 0);
      simpl; lia.
  - intros lg' E1 E2 Hd Hne. rewrite log_vprintf_shown, E1, E2.
    destruct (log_shown (log_debug lg) priority) eqn:Hs;
      [|exfalso; apply Hne; reflexivity].
    assert (Hs' : log_shown (log_debug lg') priority = true).
    { apply Hshown. apply Hshown in Hs. lia. }
    rewrite Hs'. reflexivity.
Qed.

(** ** The options *)

Lemma util_strtonum_range (str : string) (min_val max_val v : Z) :
  util_strtonum str min_val max_val = Some v -> min_val <= v <= max_val.
Proof.
  unfold util_strtonum.
  destruct (min_val >? max_val); [discriminate|].
  destruct (ll_end (strtoll (Scan.c_str str))); [|discriminate].
  destruct (negb (String.eqb s EmptyString) || negb (ll_errno (strtoll (Scan.c_str str)) =? 0));
    [discriminate|].
  destruct (Z.ltb_spec (ll_value (strtoll (Scan.c_str str))) min_val); [discriminate|].
  destruct (Z.gtb_spec (ll_value (strtoll (Scan.c_str str))) max_val); [discriminate|].
  cbn [orb]. intros Hv. injection Hv as <-. lia.
Qed.

(** The head [if] of a hypothesis is decided, option character by option
    character. *)
Ltac option_test H :=
  match type of H with
  | (if Ascii.eqb ?c ?k then _ else _) = _ =>
      let E := fresh "E" in
      destruct (Ascii.eqb c k) eqn:E; [apply Ascii.eqb_eq in E|]
  | (if Ascii.eqb ?c ?k || Ascii.eqb ?c ?k' then _ else _) = _ =>
      let E := fresh "E" in
      destruct (Ascii.eqb c k || Ascii.eqb c k') eqn:E
  end.

(** What an option that is accepted does. *)
Lemma main_option_done (v : vars) (o : option_found) (v' : vars) (acts : list action) :
  main_option v o = Done v' acts ->
  acts = []
  /\ ((opt_ch o = "D"%char /\ v' = set_foreground 0 v)
      \/ (opt_ch o = "d"%char
          /\ v' = set_logging {| log_debug := log_debug (logging v) + 1;
                                 log_to_syslog := log_to_syslog (logging v);
                                 log_to_stderr := log_to_stderr (logging v) |} v)
      \/ (opt_ch o = "f"%char /\ v' = set_foreground 1 v)
      \/ (opt_ch o = "m"%char
          /\ exists n, util_strtonum (opt_arg o) 1 UINT32_MAX = Some n
                       /\ v' = set_threshold (Double.of_Z n) 1 v)
      \/ (opt_ch o = "t"%char
          /\ exists n, util_strtonum (opt_arg o) 1 MAX_TIMEOUT = Some n
                       /\ v' = set_timeout (wrap64 n) v)
      \/ (opt_ch o = "P"%char
          /\ exists mode,
               main_option vars_init o = Done (set_move_to_root_cgroup mode vars_init) []
               /\ v' = set_move_to_root_cgroup mode v)
      \/ (opt_ch o = "p"%char /\ v' = set_set_prio 0 v)).
Proof.
  intros H. unfold main_option in H. cbv zeta in H.
  option_test H; [injection H as <- <-; auto|].
  option_test H; [injection H as <- <-; auto 6|].
  option_test H; [injection H as <- <-; auto 6|].
  option_test H.
  { destruct (util_strtonum (opt_arg o) 1 UINT32_MAX) as [n|] eqn:U; [|discriminate].
    injection H as <- <-. split; [reflexivity|].
    right. right. right. left. split; [assumption|]. exists n. auto. }
  option_test H.
  { destruct (util_strtonum (opt_arg o) 1 MAX_TIMEOUT) as [n|] eqn:U; [|discriminate].
    injection H as <- <-. split; [reflexivity|].
    right. right. right. right. left. split; [assumption|]. exists n. auto. }
  option_test H; [discriminate|].
  option_test H.
  { assert (Hinit : forall mode,
               main_option v o = Done (set_move_to_root_cgroup mode v) [] ->
               main_option vars_init o = Done (set_move_to_root_cgroup mode vars_init) []).
    { intros mode. unfold main_option. cbv zeta. rewrite E5.
      replace (Ascii.eqb "P" "D") with false by reflexivity.
      replace (Ascii.eqb "P" "d") with false by reflexivity.
      replace (Ascii.eqb "P" "f") with false by reflexivity.
      replace (Ascii.eqb "P" "m") with false by reflexivity.
      replace (Ascii.eqb "P" "t") with false by reflexivity.
      replace (Ascii.eqb "P" "h" || Ascii.eqb "P" "?") with false by reflexivity.
      replace (Ascii.eqb "P" "P") with true by reflexivity.
      destruct (strcasecmp (opt_arg o) "on" =? 0);
        [intros Hm; injection Hm as Hm; destruct mode; try discriminate Hm; reflexivity|].
      destruct (strcasecmp (opt_arg o) "off" =? 0);
        [intros Hm; injection Hm as Hm; destruct mode; try discriminate Hm; reflexivity|].
      destruct (strcasecmp (opt_arg o) "auto" =? 0);
        [intros Hm; injection Hm as Hm; destruct mode; try discriminate Hm; reflexivity|].
      discriminate. }
    assert (Hv : main_option v o = Done v' acts).
    { unfold main_option. cbv zeta. rewrite E, E0, E1, E2, E3, E4, E5.
      replace (Ascii.eqb "P" "P") with true by reflexivity. exact H. }
    destruct (strcasecmp (opt_arg o) "on" =? 0).
    { injection H as <- <-. split; [reflexivity|]. do 5 right. left.
      split; [assumption|]. exists MOVE_TO_ROOT_CGROUP_MODE_ON. auto. }
    destruct (strcasecmp (opt_arg o) "off" =? 0).
    { injection H as <- <-. split; [reflexivity|]. do 5 right. left.
      split; [assumption|]. exists MOVE_TO_ROOT_CGROUP_MODE_OFF. auto. }
    destruct (strcasecmp (opt_arg o) "auto" =? 0); [|discriminate].
    injection H as <- <-. split; [reflexivity|]. do 5 right. left.
    split; [assumption|]. exists MOVE_TO_ROOT_CGROUP_MODE_AUTO. auto. }
  option_test H; [|discriminate].
  injection H as <- <-. split; [reflexivity|]. do 6 right. auto.
Qed.

(** An option that is refused is refused whatever the variables hold, with
    the exit status 1, after one line or the help text. *)
Lemma main_option_halt (v : vars) (o : option_found) (code : Z) (acts : list action) :
  main_option v o = Halt code acts ->
  code = 1
  /\ (acts = [ActUsage] \/ exists c, acts = [ActErr c])
  /\ forall v', main_option v' o = Halt code acts.
Proof.
  intros H. unfold main_option in *. cbv zeta in *.
  option_test H; [discriminate|].
  option_test H; [discriminate|].
  option_test H; [discriminate|].
  option_test H.
  { destruct (util_strtonum (opt_arg o) 1 UINT32_MAX) as [n|]; [discriminate|].
    injection H as <- <-. split; [reflexivity|]. split; [right; eexists; reflexivity|].
    reflexivity. }
  option_test H.
  { destruct (util_strtonum (opt_arg o) 1 MAX_TIMEOUT) as [n|]; [discriminate|].
    injection H as <- <-. split; [reflexivity|]. split; [right; eexists; reflexivity|].
    reflexivity. }
  option_test H.
  { injection H as <- <-. split; [reflexivity|]. split; [left; reflexivity|]. reflexivity. }
  option_test H.
  { destruct (strcasecmp (opt_arg o) "on" =? 0); [discriminate|].
    destruct (strcasecmp (opt_arg o) "off" =? 0); [discriminate|].
    destruct (strcasecmp (opt_arg o) "auto" =? 0); [discriminate|].
    injection H as <- <-. split; [reflexivity|]. split; [right; eexists; reflexivity|].
    reflexivity. }
  option_test H; [discriminate|].
  injection H as <- <-. split; [reflexivity|]. split; [right; eexists; reflexivity|].
  reflexivity.
Qed.

Lemma main_option_pending (v : vars) (o : option_found) (acts : list action) :
  main_option v o <> Pending acts.
Proof.
  unfold main_option. cbv zeta.
  repeat match goal with
         | |- (if ?b then _ else _) <> _ => destruct b
         | |- (match ?x with Some _ => _ | None => _ end) <> _ => destruct x
         end; discriminate.
Qed.

Lemma main_options_snoc (opts : list option_found) (o : option_found) :
  forall v,
    main_options (opts ++ [o]) v
    = match main_options opts v with
      | Done v1 acts =>
          match main_option v1 o with
          | Done v2 acts' => Done v2 (acts ++ acts')
          | Halt code acts' => Halt code (acts ++ acts')
          | Pending acts' => Pending (acts ++ acts')
          end
      | Halt code acts => Halt code acts
      | Pending acts => Pending acts
      end.
Proof.
  induction opts as [|o1 opts IH]; intros v.
  - cbn [app main_options bind].
    destruct (main_option v o) as [v2 a2|code a2|a2]; cbn [bind app];
      rewrite ?app_nil_r; reflexivity.
  - cbn [app main_options]. unfold bind at 1.
    destruct (main_option v o1) as [v1 a1|code a1|a1]; [|reflexivity|reflexivity].
    rewrite IH. unfold bind.
    destruct (main_options opts v1) as [v2 a2|code a2|a2]; [|reflexivity|reflexivity].
    destruct (main_option v2 o) as [v3 a3|code a3|a3]; rewrite app_assoc; reflexivity.
Qed.

(** The options are read one by one, and the first one that is refused ends
    the program. *)
Lemma main_options_done (opts : list option_found) :
  forall v v' acts,
    main_options opts v = Done v' acts ->
    acts = []
    /\ forall o, In o opts -> forall v1, exists v2, main_option v1 o = Done v2 [].
Proof.
  induction opts as [|o opts IH]; intros v v' acts H.
  - cbn in H. injection H as <- <-. split; [reflexivity|]. intros o [].
  - cbn [main_options] in H. unfold bind in H.
    destruct (main_option v o) as [v1 a1|code a1|a1] eqn:Ho; [|discriminate|discriminate].
    destruct (main_options opts v1) as [v2 a2|code a2|a2] eqn:Hr;
      [|discriminate|discriminate].
    injection H as <- <-.
    destruct (IH _ _ _ Hr) as [-> Hall].
    destruct (main_option_done _ _ _ _ Ho) as [-> _].
    split; [reflexivity|].
    intros o' [<-|Hin] v3; [|apply Hall; exact Hin].
    destruct (main_option v3 o) as [v4 a4|code a4|a4] eqn:Ho'.
    + destruct (main_option_done _ _ _ _ Ho') as [-> _]. exists v4. reflexivity.
    + destruct (main_option_halt _ _ _ _ Ho') as (_ & _ & Hany).
      rewrite (Hany v) in Ho. discriminate.
    + exfalso. exact (main_option_pending _ _ _ Ho').
Qed.

Lemma main_options_halt (opts : list option_found) :
  forall v code acts,
    main_options opts v = Halt code acts ->
    exists before o after,
      opts = before ++ o :: after
      /\ (exists v1, main_options before v = Done v1 [])
      /\ forall v', main_option v' o = Halt code acts.
Proof.
  induction opts as [|o opts IH]; intros v code acts H.
  - discriminate.
  - cbn [main_options] in H. unfold bind in H.
    destruct (main_option v o) as [v1 a1|code1 a1|a1] eqn:Ho.
    + destruct (main_option_done _ _ _ _ Ho) as [-> _].
      destruct (main_options opts v1) as [v2 a2|code2 a2|a2] eqn:Hr;
        [discriminate| |discriminate].
      injection H as <- <-.
      destruct (IH _ _ _ Hr) as (before & o' & after & -> & [v3 Hb] & Hany).
      exists (o :: before), o', after. split; [reflexivity|].
      split; [|exact Hany].
      exists v3. cbn [main_options]. unfold bind. rewrite Ho, Hb. reflexivity.
    + injection H as <- <-.
      exists [], o, opts. split; [reflexivity|].
      split; [exists v; reflexivity|].
      exact (proj2 (proj2 (main_option_halt _ _ _ _ Ho))).
    + exfalso. exact (main_option_pending _ _ _ Ho).
Qed.

Lemma main_options_pending (opts : list option_found) :
  forall v acts, main_options opts v <> Pending acts.
Proof.
  induction opts as [|o opts IH]; intros v acts; [discriminate|].
  cbn [main_options]. unfold bind.
  destruct (main_option v o) as [v1 a1|code1 a1|a1] eqn:Ho; [|discriminate|].
  - specialize (IH v1).
    destruct (main_options opts v1) as [v2 a2|code2 a2|a2]; try discriminate.
    exfalso. exact (IH a2 eq_refl).
  - exfalso. exact (main_option_pending _ _ _ Ho).
Qed.

Lemma last_arg_snoc (ch : ascii) (opts : list option_found) (o : option_found) :
  last_arg ch (opts ++ [o])
  = if Ascii.eqb (opt_ch o) ch then Some (opt_arg o) else last_arg ch opts.
Proof. unfold last_arg. rewrite fold_left_app. reflexivity. Qed.

Lemma last_of_snoc (ch1 ch2 : ascii) (opts : list option_found) (o : option_found) :
  last_of ch1 ch2 (opts ++ [o])
  = if Ascii.eqb (opt_ch o) ch1 || Ascii.eqb (opt_ch o) ch2
    then Some (opt_ch o) else last_of ch1 ch2 opts.
Proof. unfold last_of. rewrite fold_left_app. reflexivity. Qed.

Lemma count_options_snoc (ch : ascii) (opts : list option_found) (o : option_found) :
  count_options ch (opts ++ [o])
  = (count_options ch opts + if Ascii.eqb (opt_ch o) ch then 1 else 0)%nat.
Proof.
  unfold count_options. rewrite filter_app, length_app. cbn [filter].
  destruct (Ascii.eqb (opt_ch o) ch); reflexivity.
Qed.

Lemma options_read_init : options_read [] vars_init.
Proof.
  unfold options_read. cbn.
  repeat split; try reflexivity; try (vm_compute; discriminate).
Qed.

Lemma options_read_step (opts : list option_found) (o : option_found) (v v' : vars) :
  options_read opts v ->
  main_option v o = Done v' [] ->
  options_read (opts ++ [o]) v'.
Proof.
  intros (Ht & Hr & Hm & Hd & Hf & Hp & HP & H1 & H2 & H3) Ho.
  destruct (main_option_done _ _ _ _ Ho) as [_ Hc].
  unfold options_read.
  rewrite !last_arg_snoc, !last_of_snoc, !count_options_snoc.
  destruct Hc as [[E ->]|[[E ->]|[[E ->]|[[E (n & U & ->)]|[[E (n & U & ->)]
                  |[[E (mode & Hmode & ->)]|[E ->]]]]]]];
    rewrite E; cbn [Ascii.eqb Bool.eqb orb andb];
    cbn [timeout threshold max_steal_threshold_user_set logging foreground set_prio
         move_to_root_cgroup use_guestlib log_debug log_to_stderr log_to_syslog
         set_foreground set_logging set_threshold set_timeout set_move_to_root_cgroup
         set_set_prio];
    rewrite ?Nat.add_0_r.
  - repeat (split; [assumption|]). split; [reflexivity|]. auto 10.
  - repeat (split; [assumption|]). split; [rewrite Hd; lia|]. auto 10.
  - repeat (split; [assumption|]). split; [reflexivity|]. auto 10.
  - split; [assumption|]. split; [assumption|].
    split; [|auto 10].
    exists n. pose proof (util_strtonum_range _ _ _ _ U). auto.
  - pose proof (util_strtonum_range _ _ _ _ U) as R.
    assert (W : wrap64 n = n).
    { apply wrap64_small. unfold MAX_TIMEOUT in R. lia. }
    rewrite W. split; [exact U|]. split; [exact R|]. auto 10.
  - repeat (split; [assumption|]).
    split; [|auto].
    destruct o as [ch arg]. cbn [opt_ch opt_arg] in *. subst ch. exact Hmode.
  - repeat (split; [assumption|]).
    split; [|auto].
    destruct (count_options "p" opts + 1)%nat eqn:Hc; [lia|reflexivity].
Qed.

Lemma main_options_read (opts : list option_found) :
  forall v acts, main_options opts vars_init = Done v acts -> options_read opts v.
Proof.
  induction opts as [|o opts IH] using rev_ind; intros v acts H.
  - cbn in H. injection H as <- <-. apply options_read_init.
  - rewrite main_options_snoc in H.
    destruct (main_options opts vars_init) as [v1 a1|code a1|a1] eqn:Hr;
      [|discriminate|discriminate].
    destruct (main_option v1 o) as [v2 a2|code a2|a2] eqn:Ho;
      [|discriminate|discriminate].
    injection H as <- <-.
    destruct (main_option_done _ _ _ _ Ho) as [-> _].
    exact (options_read_step opts o v1 v2 (IH _ _ eq_refl) Ho).
Qed.

(** X13: when all options are accepted, nothing has been done yet, and each
    variable holds what the last option that sets it says, or its default:
    the timeout is the number of the last -t (200 without one) and lies
    between 1 and 3600000; the threshold is the number of the last -m (10
    without one, and then it is not marked as set by the user); the debug
    level is the number of -d (fewer than 2^31 of them: the level is an
    [int]); the program stays in the foreground unless the
    last of -D and -f is -D; the scheduler is left alone if there is a -p;
    the cgroup mode is the one of the last -P ("auto" without one). *)
Theorem last_option_wins (opts : list option_found) (v : vars) (acts : list action) :
  main_options opts vars_init = Done v acts ->
  acts = []
  /\ match last_arg "t" opts with
     | None => timeout v = DEFAULT_TIMEOUT
     | Some arg => util_strtonum arg 1 MAX_TIMEOUT = Some (timeout v)
     end
  /\ 1 <= timeout v <= MAX_TIMEOUT
  /\ match last_arg "m" opts with
     | None =>
         threshold v = Double.of_Z DEFAULT_MAX_STEAL_THRESHOLD
         /\ max_steal_threshold_user_set v = 0
     | Some arg =>
         exists n,
           util_strtonum arg 1 UINT32_MAX = Some n
           /\ 1 <= n <= UINT32_MAX
           /\ threshold v = Double.of_Z n
           /\ max_steal_threshold_user_set v = 1
     end
  /\ (Z.of_nat (count_options "d" opts) < 2 ^ 31 ->
      log_debug (logging v) = Z.of_nat (count_options "d" opts))
  /\ foreground v
     = match last_of "D" "f" opts with
       | Some ch => if Ascii.eqb ch "D" then 0 else 1
       | None => 1
       end
  /\ set_prio v = (if (count_options "p" opts =? 0)%nat then 1 else 0)
  /\ match last_arg "P" opts with
     | None => move_to_root_cgroup v = MOVE_TO_ROOT_CGROUP_MODE_AUTO
     | Some arg =>
         main_option vars_init {| opt_ch := "P"; opt_arg := arg |}
         = Done (set_move_to_root_cgroup (move_to_root_cgroup v) vars_init) []
     end.
Proof.
  intros H.
  destruct (main_options_done _ _ _ _ H) as [-> _].
  destruct (main_options_read _ _ _ H) as (Ht & Hr & Hm & Hd & Hf & Hp & HP & _).
  split; [reflexivity|]. repeat (split; [assumption|]).
  split; [intros _; exact Hd|]. repeat (split; [assumption|]). exact HP.
Qed.

Lemma last_option_wins_witness :
  let opts := [ {| opt_ch := "t"; opt_arg := "500" |};
                {| opt_ch := "D"; opt_arg := EmptyString |};
                {| opt_ch := "d"; opt_arg := EmptyString |};
                {| opt_ch := "t"; opt_arg := "900" |};
                {| opt_ch := "f"; opt_arg := EmptyString |} ] in
  exists v,
    main_options opts vars_init = Done v []
    /\ util_strtonum "900" 1 MAX_TIMEOUT = Some (timeout v)
    /\ timeout v = 900
    /\ foreground v = 1.
Proof.
  intros opts.
  destruct (main_options opts vars_init) as [v acts|code acts|acts] eqn:H.
  - destruct (last_option_wins opts v acts H) as (-> & Ht & _).
    exists v. split; [reflexivity|]. split; [exact Ht|].
    revert H. vm_compute. intros H. injection H as <-. split; reflexivity.
  - exfalso. revert H. vm_compute. discriminate.
  - exfalso. revert H. vm_compute. discriminate.
Defined.


(** ** Starting up *)

Lemma count_actions_app (p : action -> bool) (l1 l2 : list action) :
  count_actions p (l1 ++ l2) = (count_actions p l1 + count_actions p l2)%nat.
Proof. unfold count_actions. rewrite filter_app, length_app. reflexivity. Qed.

Lemma count_actions_none (p : action -> bool) (l : list action) :
  Forall (fun a => p a = false) l -> count_actions p l = 0%nat.
Proof.
  unfold count_actions. induction 1 as [|a l Ha Hl IH]; [reflexivity|].
  simpl. rewrite Ha. exact IH.
Qed.

Lemma count_actions_outside (p : action -> bool) (l : list action) :
  (forall a, outside_privileges a = true -> p a = false) ->
  Forall (fun a => outside_privileges a = true) l ->
  count_actions p l = 0%nat.
Proof.
  intros Hp Hl. apply count_actions_none.
  apply Forall_impl with (2 := Hl). exact Hp.
Qed.

Lemma loop_events_app (l1 l2 : list action) :
  loop_events (l1 ++ l2) = loop_events l1 ++ loop_events l2.
Proof. unfold loop_events. apply flat_map_app. Qed.

Lemma loop_events_loop (evs : list event) : loop_events (map ActLoop evs) = evs.
Proof.
  unfold loop_events. induction evs as [|ev evs IH]; [reflexivity|].
  simpl. rewrite IH. reflexivity.
Qed.

Lemma loop_events_none (l : list action) :
  Forall (fun a => is_loop_action a = false) l -> loop_events l = [].
Proof.
  unfold loop_events. induction 1 as [|a l Ha Hl IH]; [reflexivity|].
  simpl. rewrite IH. destruct a; try reflexivity. discriminate.
Qed.

(** *** Leaving the terminal *)

Lemma utils_tty_detach_cases (e : detach_env) :
  utils_tty_detach e
  = if env_fork e =? -1 then
      Halt 1 [ActFork; ActErr (ErrFork (env_detach_errno e))]
    else if env_fork e =? 0 then
      if env_devnull e =? -1 then
        Halt 1 [ActFork; ActSetsid; ActOpenDevNull; ActErr (ErrDevNull (env_detach_errno e))]
      else if env_dup2_stdin e <? 0 then
        Halt 1 [ActFork; ActSetsid; ActOpenDevNull; ActDup2 0; ActCloseDevNull;
                ActErr (ErrDup2 (env_detach_errno e))]
      else if env_dup2_stdout e <? 0 then
        Halt 1 [ActFork; ActSetsid; ActOpenDevNull; ActDup2 0; ActDup2 1; ActCloseDevNull;
                ActErr (ErrDup2 (env_detach_errno e))]
      else if env_dup2_stderr e <? 0 then
        Halt 1 [ActFork; ActSetsid; ActOpenDevNull; ActDup2 0; ActDup2 1; ActDup2 2;
                ActCloseDevNull; ActErr (ErrDup2 (env_detach_errno e))]
      else
        Done tt [ActFork; ActSetsid; ActOpenDevNull; ActDup2 0; ActDup2 1; ActDup2 2;
                 ActCloseDevNull]
    else Halt 0 [ActFork].
Proof.
  unfold utils_tty_detach, bind, perform.
  destruct (env_fork e =? -1); [reflexivity|].
  destruct (env_fork e =? 0); [|reflexivity].
  destruct (env_devnull e =? -1); [reflexivity|].
  destruct (env_dup2_stdin e <? 0); [reflexivity|].
  destruct (env_dup2_stdout e <? 0); [reflexivity|].
  destruct (env_dup2_stderr e <? 0); reflexivity.
Qed.

Lemma utils_tty_detach_done (e : detach_env) :
  detaches e = true ->
  utils_tty_detach e
  = Done tt [ActFork; ActSetsid; ActOpenDevNull; ActDup2 0; ActDup2 1; ActDup2 2;
             ActCloseDevNull].
Proof.
  unfold detaches. intros H.
  repeat (apply andb_true_iff in H; destruct H as [H ?]).
  rewrite utils_tty_detach_cases.
  apply Z.eqb_eq in H. rewrite H. cbn [Z.eqb].
  repeat match goal with
         | Hn : negb ?b = true |- _ => apply negb_true_iff in Hn; rewrite Hn; clear Hn
         end.
  reflexivity.
Qed.

Lemma utils_tty_detach_returns (e : detach_env) (u : unit) (acts : list action) :
  utils_tty_detach e = Done u acts -> detaches e = true.
Proof.
  rewrite utils_tty_detach_cases. unfold detaches.
  destruct (env_fork e =? -1); [discriminate|].
  destruct (env_fork e =? 0); [|discriminate].
  destruct (env_devnull e =? -1); [discriminate|].
  destruct (env_dup2_stdin e <? 0); [discriminate|].
  destruct (env_dup2_stdout e <? 0); [discriminate|].
  destruct (env_dup2_stderr e <? 0); [discriminate|].
  reflexivity.
Qed.

Lemma utils_tty_detach_halt (e : detach_env) (code : Z) (acts : list action) :
  utils_tty_detach e = Halt code acts ->
  loop_events acts = []
  /\ ((code = 0 /\ acts = [ActFork])
      \/ (code = 1 /\ exists before c, acts = before ++ [ActErr c])).
Proof.
  rewrite utils_tty_detach_cases.
  destruct (env_fork e =? -1).
  { intros H. injection H as <- <-. split; [reflexivity|]. right.
    split; [reflexivity|]. exists [ActFork]. eexists. reflexivity. }
  destruct (env_fork e =? 0).
  2:{ intros H. injection H as <- <-. split; [reflexivity|]. left. split; reflexivity. }
  destruct (env_devnull e =? -1).
  { intros H. injection H as <- <-. split; [reflexivity|]. right.
    split; [reflexivity|]. exists [ActFork; ActSetsid; ActOpenDevNull].
    eexists. reflexivity. }
  destruct (env_dup2_stdin e <? 0).
  { intros H. injection H as <- <-. split; [reflexivity|]. right.
    split; [reflexivity|].
    exists [ActFork; ActSetsid; ActOpenDevNull; ActDup2 0; ActCloseDevNull].
    eexists. reflexivity. }
  destruct (env_dup2_stdout e <? 0).
  { intros H. injection H as <- <-. split; [reflexivity|]. right.
    split; [reflexivity|].
    exists [ActFork; ActSetsid; ActOpenDevNull; ActDup2 0; ActDup2 1; ActCloseDevNull].
    eexists. reflexivity. }
  destruct (env_dup2_stderr e <? 0); [|discriminate].
  intros H. injection H as <- <-. split; [reflexivity|]. right.
  split; [reflexivity|].
  exists [ActFork; ActSetsid; ActOpenDevNull; ActDup2 0; ActDup2 1; ActDup2 2;
          ActCloseDevNull].
  eexists. reflexivity.
Qed.

Lemma utils_tty_detach_not_pending (e : detach_env) (acts : list action) :
  utils_tty_detach e <> Pending acts.
Proof.
  rewrite utils_tty_detach_cases.
  repeat match goal with
         | |- (if ?b then _ else _) <> _ => destruct b
         end; discriminate.
Qed.

(** X15: [utils_tty_detach] returns, in the child, exactly when [fork]
    returned 0, /dev/null could be opened and the three calls of [dup2]
    worked; it has then made the three standard descriptors /dev/null and
    closed the one it opened.  In the parent it calls [exit(0)] right after
    [fork]; when something fails it exits with status 1, and [dup2] is not
    called again after a failure.  On every path /dev/null is closed once if
    it was opened, and not otherwise. *)
Theorem tty_detach_outcomes (e : detach_env) :
  (detaches e = true <-> exists acts, utils_tty_detach e = Done tt acts)
  /\ (detaches e = true ->
      utils_tty_detach e
      = Done tt [ActFork; ActSetsid; ActOpenDevNull; ActDup2 0; ActDup2 1; ActDup2 2;
                 ActCloseDevNull])
  /\ (env_fork e <> -1 /\ env_fork e <> 0 <-> utils_tty_detach e = Halt 0 [ActFork])
  /\ (forall code acts,
        utils_tty_detach e = Halt code acts ->
        (code = 0 /\ acts = [ActFork])
        \/ (code = 1 /\ exists before c, acts = before ++ [ActErr c]))
  /\ (forall acts, utils_tty_detach e <> Pending acts)
  /\ count_actions is_open_devnull (actions (utils_tty_detach e))
     = (if (env_fork e =? 0)%Z then 1 else 0)%nat
  /\ count_actions is_close_devnull (actions (utils_tty_detach e))
     = (if ((env_fork e =? 0) && negb (env_devnull e =? -1))%Z then 1 else 0)%nat
  /\ count_actions is_dup2 (actions (utils_tty_detach e))
     = (if ((env_fork e =? 0) && negb (env_devnull e =? -1))%Z then
          if (env_dup2_stdin e <? 0)%Z then 1
          else if (env_dup2_stdout e <? 0)%Z then 2 else 3
        else 0)%nat.
Proof.
  rewrite utils_tty_detach_cases. unfold detaches.
  destruct (Z.eqb_spec (env_fork e) (-1)) as [F1|F1].
  { rewrite F1. cbn [Z.eqb andb negb].
    repeat split; try discriminate; try (intros [? ?]; discriminate);
      try (intros [? ?]; congruence); try reflexivity.
    intros code acts H. injection H as <- <-. right. split; [reflexivity|].
    exists [ActFork]. eexists. reflexivity. }
  destruct (Z.eqb_spec (env_fork e) 0) as [F0|F0].
  2:{ cbn [andb negb].
      repeat split; try discriminate; try (intros [? ?]; discriminate);
        try reflexivity; try tauto.
      intros code acts H. injection H as <- <-. left. split; reflexivity. }
  cbn [andb].
  destruct (env_devnull e =? -1).
  { cbn [negb andb].
    repeat split; try discriminate; try (intros [? ?]; discriminate);
      try (intros [? ?]; congruence); try reflexivity.
    intros code acts H. injection H as <- <-. right. split; [reflexivity|].
    exists [ActFork; ActSetsid; ActOpenDevNull]. eexists. reflexivity. }
  cbn [negb andb].
  destruct (env_dup2_stdin e <? 0).
  { cbn [negb andb].
    repeat split; try discriminate; try (intros [? ?]; discriminate);
      try (intros [? ?]; congruence); try reflexivity.
    intros code acts H. injection H as <- <-. right. split; [reflexivity|].
    exists [ActFork; ActSetsid; ActOpenDevNull; ActDup2 0; ActCloseDevNull].
    eexists. reflexivity. }
  destruct (env_dup2_stdout e <? 0).
  { cbn [negb andb].
    repeat split; try discriminate; try (intros [? ?]; discriminate);
      try (intros [? ?]; congruence); try reflexivity.
    intros code acts H. injection H as <- <-. right. split; [reflexivity|].
    exists [ActFork; ActSetsid; ActOpenDevNull; ActDup2 0; ActDup2 1; ActCloseDevNull].
    eexists. reflexivity. }
  destruct (env_dup2_stderr e <? 0).
  { cbn [negb andb].
    repeat split; try discriminate; try (intros [? ?]; discriminate);
      try (intros [? ?]; congruence); try reflexivity.
    intros code acts H. injection H as <- <-. right. split; [reflexivity|].
    exists [ActFork; ActSetsid; ActOpenDevNull; ActDup2 0; ActDup2 1; ActDup2 2;
            ActCloseDevNull].
    eexists. reflexivity. }
  cbn [negb andb].
  repeat split; try discriminate; try (intros [? ?]; congruence); try reflexivity.
  intros _. eexists. reflexivity.
Qed.

(** *** Moving to the root cgroup *)

(** X16: [utils_move_to_root_cgroup] closes every stream it has opened.  It
    writes the process id once, if one of cpu.rt_runtime_us and cgroup.procs
    can be opened and the file to write can be opened too, and not at all
    otherwise; it writes it into the tasks file of cgroup v1 when
    cpu.rt_runtime_us exists, even if cgroup.procs exists as well, and into
    cgroup.procs otherwise.  A failure is logged and nothing more. *)
Theorem cgroup_move_closes_what_it_opens (e : cgroup_env) :
  count_actions is_stream_opened (utils_move_to_root_cgroup e)
  = count_actions is_fclose (utils_move_to_root_cgroup e)
  /\ count_actions is_write_pid (utils_move_to_root_cgroup e)
     = (if (env_rt_runtime_opens e || env_procs_opens e) && env_tasks_opens e
        then 1 else 0)%nat
  /\ (forall path pid,
        In (ActWritePid path pid) (utils_move_to_root_cgroup e) ->
        pid = env_getpid e
        /\ path = if env_rt_runtime_opens e then cgroup_v1_tasks else cgroup_v2_procs)
  /\ count_actions is_cgroup_call (utils_move_to_root_cgroup e) = 1%nat
  /\ Forall (fun a => match a with
                      | ActLog _ _ | ActFopen _ _ _ | ActWritePid _ _ | ActFclose _ => True
                      | _ => False
                      end) (utils_move_to_root_cgroup e).
Proof.
  unfold utils_move_to_root_cgroup, cgroup_write_pid.
  destruct (env_rt_runtime_opens e); destruct (env_procs_opens e);
    destruct (env_tasks_opens e);
    destruct (env_tasks_fprintf e <=? 0); destruct (env_tasks_fclose e =? 0);
    cbn [negb app orb andb];
    (split; [reflexivity|]); (split; [reflexivity|]);
    (split; [intros path pid Hin; cbn [In] in Hin;
             repeat (destruct Hin as [Hin|Hin]; [try discriminate Hin|]);
             try contradiction; try (injection Hin as <- <-; split; reflexivity)|]);
    (split; [reflexivity|]); repeat constructor.
Qed.

(** *** The three calls between the options and the handlers *)

Lemma utils_mlockall_counts (e : mlock_env) :
  count_actions is_cgroup_call (utils_mlockall e) = 0%nat
  /\ count_actions is_sched_call (utils_mlockall e) = 0%nat
  /\ count_actions is_sched_warning (utils_mlockall e) = 0%nat
  /\ count_actions is_write_pid (utils_mlockall e) = 0%nat
  /\ loop_events (utils_mlockall e) = [].
Proof.
  unfold utils_mlockall.
  destruct (env_setrlimit e =? -1); destruct (env_mlockall e =? -1); repeat split.
Qed.

Lemma utils_move_to_root_cgroup_counts (e : cgroup_env) :
  count_actions is_cgroup_call (utils_move_to_root_cgroup e) = 1%nat
  /\ count_actions is_sched_call (utils_move_to_root_cgroup e) = 0%nat
  /\ count_actions is_sched_warning (utils_move_to_root_cgroup e) = 0%nat
  /\ loop_events (utils_move_to_root_cgroup e) = [].
Proof.
  unfold utils_move_to_root_cgroup, cgroup_write_pid.
  destruct (env_rt_runtime_opens e); destruct (env_procs_opens e);
    destruct (env_tasks_opens e);
    destruct (env_tasks_fprintf e <=? 0); destruct (env_tasks_fclose e =? 0);
    repeat split.
Qed.

Lemma utils_set_rr_scheduler_counts (silent : Z) (e : sched_env) :
  fst (utils_set_rr_scheduler true silent e) = (if sched_fails e then -1 else 0)
  /\ count_actions is_cgroup_call (snd (utils_set_rr_scheduler true silent e)) = 0%nat
  /\ count_actions is_sched_call (snd (utils_set_rr_scheduler true silent e)) = 1%nat
  /\ count_actions is_sched_warning (snd (utils_set_rr_scheduler true silent e))
     = (if ((silent =? 0)%Z && sched_fails e)%bool then 1 else 0)%nat
  /\ count_actions is_setscheduler (snd (utils_set_rr_scheduler true silent e))
     = (if (env_max_prio e =? -1)%Z then 0 else 1)%nat
  /\ loop_events (snd (utils_set_rr_scheduler true silent e)) = [].
Proof.
  unfold utils_set_rr_scheduler, sched_fails.
  destruct (env_max_prio e =? -1); destruct (env_setscheduler e =? -1);
    destruct (silent =? 0); repeat split.
Qed.

(** *** The parts of [main] *)

Lemma main_detach_cases (e : main_env) (v : vars) :
  main_detach e v
  = if negb (foreground v =? 0) then
      Done (set_logging {| log_debug := log_debug (logging v);
                           log_to_syslog := log_to_syslog (logging v);
                           log_to_stderr := 1 |} v) []
    else
      match utils_tty_detach (env_detach e) with
      | Done _ acts =>
          Done (set_logging {| log_debug := log_debug (logging v);
                               log_to_syslog := 1;
                               log_to_stderr := log_to_stderr (logging v) |} v)
               (acts ++ [ActOpenlog])
      | Halt code acts => Halt code acts
      | Pending acts => Pending acts
      end.
Proof.
  unfold main_detach. destruct (negb (foreground v =? 0)); [reflexivity|].
  unfold bind. destruct (utils_tty_detach (env_detach e)); reflexivity.
Qed.

(** What [main] does once the options are read and the terminal is left. *)
Lemma main_started (b : build) (e : main_env) (v0 v1 : vars) (a1 : list action) :
  main_options (env_getopt e) vars_init = Done v0 [] ->
  main_detach e v0 = Done v1 a1 ->
  main b e
  = let before :=
      a1 ++ main_privileges b e v1 ++ signal_handlers_register
      ++ snd (guestlib_init (have_vmguestlib b) (env_guest_open e) v1) in
    match main_run b e v1 with
    | Stopped st =>
        Done 0 (before ++ map ActLoop (trace st)
                ++ guestlib_fini (have_vmguestlib b) (env_guest_close e) (main_vars b e v1)
                ++ (if foreground (main_vars b e v1) =? 0 then [ActCloselog] else []))
    | Exited code st => Halt code (before ++ map ActLoop (trace st))
    | Running st => Pending (before ++ map ActLoop (trace st))
    end.
Proof.
  intros Ho Hd. unfold main, main_run, main_vars, main_loop.
  rewrite Ho. cbn [bind]. rewrite Hd. cbn [bind perform app].
  destruct (guestlib_init (have_vmguestlib b) (env_guest_open e) v1) as [v2 ag].
  cbn [bind fst snd].
  destruct (poll_run (main_config v2)
              (fold_left globals_signal (env_sig_start e) globals_init)
              (timeout v2) (env_clock_start e) (env_clock_stop e) (env_iterations e))
    as [st|code st|st]; cbn [bind];
    rewrite ?app_nil_r, <- ?app_assoc; reflexivity.
Qed.

(** What [main] does when the terminal cannot be left, or in the parent. *)
Lemma main_not_started (b : build) (e : main_env) (v0 : vars) (code : Z)
    (a1 : list action) :
  main_options (env_getopt e) vars_init = Done v0 [] ->
  main_detach e v0 = Halt code a1 ->
  main b e = Halt code a1.
Proof.
  intros Ho Hd. unfold main. rewrite Ho. cbn [bind]. rewrite Hd. reflexivity.
Qed.

Lemma main_detach_started (e : main_env) (v : vars) :
  starts e v ->
  exists v1 a1,
    main_detach e v = Done v1 a1
    /\ ((foreground v <> 0 /\ a1 = []
         /\ log_to_stderr (logging v1) = 1
         /\ log_to_syslog (logging v1) = log_to_syslog (logging v))
        \/ (foreground v = 0
            /\ a1 = [ActFork; ActSetsid; ActOpenDevNull; ActDup2 0; ActDup2 1; ActDup2 2;
                     ActCloseDevNull; ActOpenlog]
            /\ log_to_stderr (logging v1) = log_to_stderr (logging v)
            /\ log_to_syslog (logging v1) = 1))
    /\ foreground v1 = foreground v
    /\ timeout v1 = timeout v
    /\ threshold v1 = threshold v
    /\ max_steal_threshold_user_set v1 = max_steal_threshold_user_set v
    /\ use_guestlib v1 = use_guestlib v
    /\ set_prio v1 = set_prio v
    /\ move_to_root_cgroup v1 = move_to_root_cgroup v
    /\ log_debug (logging v1) = log_debug (logging v).
Proof.
  intros H. rewrite main_detach_cases.
  destruct (Z.eqb_spec (foreground v) 0) as [F|F]; cbn [negb].
  - destruct H as [H|H]; [contradiction|].
    rewrite (utils_tty_detach_done (env_detach e) H).
    eexists. eexists. split; [reflexivity|].
    split; [right; repeat split; assumption|]. repeat split.
  - eexists. eexists. split; [reflexivity|].
    split; [left; repeat split; assumption|]. repeat split.
Qed.

(** *** The guest library at the start and at the end *)

Lemma guestlib_init_spec (have : bool) (gl_err : Z) (v : vars) :
  Forall (fun a => outside_privileges a = true) (snd (guestlib_init have gl_err v))
  /\ loop_events (snd (guestlib_init have gl_err v)) = []
  /\ timeout (fst (guestlib_init have gl_err v)) = timeout v
  /\ foreground (fst (guestlib_init have gl_err v)) = foreground v
  /\ logging (fst (guestlib_init have gl_err v)) = logging v
  /\ threshold (fst (guestlib_init have gl_err v))
     = (if have && (gl_err =? VMGUESTLIB_ERROR_SUCCESS)
           && (max_steal_threshold_user_set v =? 0)
        then Double.of_Z DEFAULT_MAX_STEAL_THRESHOLD_GL else threshold v)
  /\ use_guestlib (fst (guestlib_init have gl_err v))
     = (if have && (gl_err =? VMGUESTLIB_ERROR_SUCCESS) then 1 else use_guestlib v)
  /\ count_actions is_guest_open (snd (guestlib_init have gl_err v))
     = (if have then 1 else 0)%nat
  /\ count_actions is_guest_close (snd (guestlib_init have gl_err v)) = 0%nat
  /\ count_actions is_sigaction (snd (guestlib_init have gl_err v)) = 0%nat.
Proof.
  unfold guestlib_init.
  destruct have; [|cbn; repeat split; constructor].
  destruct (gl_err =? VMGUESTLIB_ERROR_SUCCESS); cbn [negb andb fst snd].
  - cbn [max_steal_threshold_user_set set_use_guestlib].
    destruct (max_steal_threshold_user_set v =? 0); cbn; repeat split; repeat constructor.
  - cbn. repeat split; repeat constructor.
Qed.

Lemma guestlib_fini_spec (have : bool) (gl_err : Z) (v : vars) :
  Forall (fun a => outside_privileges a = true) (guestlib_fini have gl_err v)
  /\ loop_events (guestlib_fini have gl_err v) = []
  /\ count_actions is_guest_close (guestlib_fini have gl_err v)
     = (if have && negb (use_guestlib v =? 0)%Z then 1 else 0)%nat
  /\ count_actions is_guest_open (guestlib_fini have gl_err v) = 0%nat
  /\ count_actions is_sigaction (guestlib_fini have gl_err v) = 0%nat.
Proof.
  unfold guestlib_fini.
  destruct have; [|cbn; repeat split; constructor].
  destruct (use_guestlib v =? 0); cbn [negb andb]; [cbn; repeat split; constructor|].
  destruct (gl_err =? VMGUESTLIB_ERROR_SUCCESS); cbn; repeat split; repeat constructor.
Qed.

Lemma main_vars_spec (b : build) (e : main_env) (v : vars) :
  timeout (main_vars b e v) = timeout v
  /\ foreground (main_vars b e v) = foreground v
  /\ logging (main_vars b e v) = logging v
  /\ threshold (main_vars b e v)
     = (if guest_used b e && (max_steal_threshold_user_set v =? 0)
        then Double.of_Z DEFAULT_MAX_STEAL_THRESHOLD_GL else threshold v)
  /\ use_guestlib (main_vars b e v) = (if guest_used b e then 1 else use_guestlib v).
Proof.
  unfold main_vars, guest_used.
  destruct (guestlib_init_spec (have_vmguestlib b) (env_guest_open e) v)
    as (_ & _ & H1 & H2 & H3 & H4 & H5 & _).
  auto.
Qed.

(** *** The loop, as [main] runs it *)

Lemma poll_loop_trace cfg clock envs :
  forall st, exists evs, trace (final_state (poll_loop cfg clock envs st)) = trace st ++ evs.
Proof.
  induction envs as [|e envs IH]; intros st.
  - destruct (Z.eq_dec (stop_main_loop st) 0) as [Hs|Hs].
    + rewrite (poll_loop_nil cfg clock st Hs). exists []. cbn. rewrite app_nil_r. reflexivity.
    + rewrite (poll_loop_stopped cfg clock [] st Hs). cbn [final_state].
      pose proof (poll_run_finish_spec clock st) as F. cbv zeta in F.
      destruct F as (_ & _ & Ftr). eexists. exact Ftr.
  - destruct (Z.eq_dec (stop_main_loop st) 0) as [Hs|Hs].
    2:{ rewrite (poll_loop_stopped cfg clock (e :: envs) st Hs). cbn [final_state].
        pose proof (poll_run_finish_spec clock st) as F. cbv zeta in F.
        destruct F as (_ & _ & Ftr). eexists. exact Ftr. }
    rewrite (poll_loop_step cfg clock e envs st Hs).
    pose proof (poll_iter_enter_frame cfg e st) as He. simpl in He.
    destruct He as (_ & _ & _ & _ & _ & _ & _ & _ & Htr).
    destruct (poll_iter cfg e st) as [st'|code st'] eqn:Hi.
    + pose proof (poll_iter_continue_spec cfg e st st' Hi) as S. simpl in S.
      destruct S as (_ & _ & _ & _ & _ & _ & _ & Htrace & _).
      destruct (IH st') as [evs E]. rewrite E, Htrace, <- app_assoc.
      eexists. reflexivity.
    + apply poll_iter_exit in Hi. destruct Hi as (_ & _ & ->).
      cbn [final_state].
      change (trace (emit ?evs ?s)) with (trace s ++ evs).
      rewrite Htr, <- app_assoc. eexists. reflexivity.
Qed.

Lemma steal_events_overrun_line (G : Z) (evs : list event) :
  forallb is_steal_source_event evs = true -> Forall (overrun_line G) evs.
Proof.
  induction evs as [|ev evs IH]; [constructor|].
  simpl. intros H. apply andb_true_iff in H. destruct H as [H1 H2].
  constructor; [|apply IH; exact H2].
  destruct ev as [p m|a]; [|exact I]. destruct m; try exact I. discriminate.
Qed.

Lemma enter_events_overrun_line (G : Z) cfg e st :
  Forall (overrun_line G) (enter_events cfg e st).
Proof.
  unfold enter_events. cbv zeta.
  apply Forall_app. split.
  - apply steal_events_overrun_line. apply nano_stealtime_get_events.
  - apply Forall_app. split.
    + destruct (negb (display_statistics
                        (handle_signals (env_sig_enter e) (sample_before cfg e st)) =? 0));
        repeat constructor.
    + repeat constructor.
Qed.

Lemma measure_events_overrun_line cfg e st :
  Forall (overrun_line (tv_max_allowed_diff st)) (measure_events cfg e st).
Proof.
  unfold measure_events. cbv zeta.
  apply Forall_app. split.
  - apply steal_events_overrun_line. apply nano_stealtime_get_events.
  - destruct (Z.gtb_spec (wrap64 (nano_current_get (env_clock_now e) - tv_prev st))
                (tv_max_allowed_diff st)) as [Hgt|Hle]; [|constructor].
    constructor.
    + split; [reflexivity|exact Hgt].
    + destruct (Double.gt _ _); repeat constructor.
Qed.

(** Every "Not scheduled" line of a run reports the gap, and a time above
    it. *)
Lemma poll_loop_overrun_lines cfg clock envs :
  forall st,
    Forall (overrun_line (tv_max_allowed_diff st)) (trace st) ->
    Forall (overrun_line (tv_max_allowed_diff st))
      (trace (final_state (poll_loop cfg clock envs st))).
Proof.
  induction envs as [|e envs IH]; intros st Hst.
  - destruct (Z.eq_dec (stop_main_loop st) 0) as [Hs|Hs].
    + rewrite (poll_loop_nil cfg clock st Hs). exact Hst.
    + rewrite (poll_loop_stopped cfg clock [] st Hs). cbn [final_state].
      pose proof (poll_run_finish_spec clock st) as F. cbv zeta in F.
      destruct F as (_ & _ & Ftr). rewrite Ftr.
      apply Forall_app. split; [exact Hst|repeat constructor].
  - destruct (Z.eq_dec (stop_main_loop st) 0) as [Hs|Hs].
    2:{ rewrite (poll_loop_stopped cfg clock (e :: envs) st Hs). cbn [final_state].
        pose proof (poll_run_finish_spec clock st) as F. cbv zeta in F.
        destruct F as (_ & _ & Ftr). rewrite Ftr.
        apply Forall_app. split; [exact Hst|repeat constructor]. }
    rewrite (poll_loop_step cfg clock e envs st Hs).
    pose proof (poll_iter_enter_frame cfg e st) as He. simpl in He.
    destruct He as (_ & _ & Hm & _ & _ & _ & _ & _ & Htr).
    destruct (poll_iter cfg e st) as [st'|code st'] eqn:Hi.
    + pose proof (poll_iter_continue_spec cfg e st st' Hi) as S. simpl in S.
      destruct S as (_ & Hgap & _ & _ & _ & _ & _ & Htrace & _).
      rewrite <- Hgap. apply IH. rewrite Hgap, Htrace.
      apply Forall_app. split; [exact Hst|].
      apply Forall_app. split; [apply enter_events_overrun_line|].
      rewrite <- Hm. apply measure_events_overrun_line.
    + apply poll_iter_exit in Hi. destruct Hi as (_ & _ & ->).
      cbn [final_state].
      change (trace (emit ?evs ?s)) with (trace s ++ evs).
      rewrite Htr. apply Forall_app. split; [|repeat constructor].
      apply Forall_app. split; [exact Hst|apply enter_events_overrun_line].
Qed.

(** The flag [stop_main_loop] is only raised by a signal. *)
Lemma handle_signals_stop (sigs : list signal) :
  forall st,
    stop_main_loop (handle_signals sigs st)
    = if existsb is_stop_signal sigs then 1 else stop_main_loop st.
Proof.
  unfold handle_signals.
  induction sigs as [|s sigs IH]; intros st; [reflexivity|].
  simpl. rewrite IH. destruct s; simpl; try reflexivity;
    destruct (existsb is_stop_signal sigs); reflexivity.
Qed.

Lemma poll_iter_enter_stop cfg e st :
  stop_main_loop (poll_iter_enter cfg e st)
  = if stop_delivered e then 1 else stop_main_loop st.
Proof.
  unfold poll_iter_enter, stop_delivered, signals_of.
  rewrite !existsb_app, handle_signals_stop.
  change (stop_main_loop (call_poll e ?s)) with (stop_main_loop s).
  change (stop_main_loop (log_iteration ?s)) with (stop_main_loop s).
  unfold show_statistics.
  assert (Hshow : forall s,
             stop_main_loop
               (if negb (display_statistics s =? 0)
                then set_display_statistics 0
                       (handle_signals (env_sig_print e)
                          (print_statistics (env_clock_stat e) s))
                else handle_signals (env_sig_print e) s)
             = if existsb is_stop_signal (env_sig_print e) then 1 else stop_main_loop s).
  { intros s. destruct (negb (display_statistics s =? 0)).
    - change (stop_main_loop (set_display_statistics 0 ?x)) with (stop_main_loop x).
      rewrite handle_signals_stop. reflexivity.
    - rewrite handle_signals_stop. reflexivity. }
  rewrite Hshow, handle_signals_stop.
  pose proof (sample_before_frame cfg e st) as F. simpl in F.
  destruct F as (_ & F2 & _). rewrite F2.
  destruct (existsb is_stop_signal (env_sig_enter e));
    destruct (existsb is_stop_signal (env_sig_print e));
    destruct (existsb is_stop_signal (env_sig_wait e)); reflexivity.
Qed.

Lemma poll_loop_stopped_by_signal cfg clock envs :
  forall st fin,
    poll_loop cfg clock envs st = Stopped fin ->
    stop_main_loop st <> 0 \/ exists e, In e envs /\ stop_delivered e = true.
Proof.
  induction envs as [|e envs IH]; intros st fin H.
  - destruct (Z.eq_dec (stop_main_loop st) 0) as [Hs|Hs]; [|left; exact Hs].
    rewrite (poll_loop_nil cfg clock st Hs) in H. discriminate.
  - destruct (Z.eq_dec (stop_main_loop st) 0) as [Hs|Hs]; [|left; exact Hs].
    rewrite (poll_loop_step cfg clock e envs st Hs) in H.
    destruct (poll_iter cfg e st) as [st'|code st'] eqn:Hi; [|discriminate].
    right.
    destruct (IH _ _ H) as [Hst'|(e' & Hin & Hd)].
    + exists e. split; [left; reflexivity|].
      apply poll_iter_continue in Hi. destruct Hi as [_ ->].
      pose proof (poll_iter_measure_frame cfg e (poll_iter_enter cfg e st)) as Hf.
      simpl in Hf. destruct Hf as (_&_&_&_&_&_&_&_&_&_&F11&_).
      rewrite F11, poll_iter_enter_stop in Hst'.
      destruct (stop_delivered e); [reflexivity|contradiction].
    + exists e'. split; [right; exact Hin|exact Hd].
Qed.

Lemma globals_signal_fold (sigs : list signal) :
  forall g,
    g_times_not_scheduled (fold_left globals_signal sigs g) = g_times_not_scheduled g
    /\ g_stop_main_loop (fold_left globals_signal sigs g)
       = (if existsb is_stop_signal sigs then 1 else g_stop_main_loop g)
    /\ g_display_statistics (fold_left globals_signal sigs g)
       = (if existsb is_statistics_signal sigs then 1 else g_display_statistics g).
Proof.
  induction sigs as [|s sigs IH]; intros g; [repeat split|].
  cbn [fold_left]. destruct (IH (globals_signal g s)) as (H1 & H2 & H3).
  rewrite H1, H2, H3.
  destruct s; cbn; destruct (existsb is_stop_signal sigs);
    destruct (existsb is_statistics_signal sigs); repeat split.
Qed.

(** *** [main] *)

Lemma outside_not_cgroup_call (a : action) :
  outside_privileges a = true -> is_cgroup_call a = false.
Proof. destruct a; try reflexivity; discriminate. Qed.

Lemma outside_not_sched_call (a : action) :
  outside_privileges a = true -> is_sched_call a = false.
Proof. destruct a; try reflexivity; discriminate. Qed.

Lemma outside_not_sched_warning (a : action) :
  outside_privileges a = true -> is_sched_warning a = false.
Proof. destruct a as [p m| | | | | | | | | | | | | | | | | | | | ]; try reflexivity.
       destruct m; try reflexivity; discriminate. Qed.

Lemma outside_not_write_pid (a : action) :
  outside_privileges a = true -> is_write_pid a = false.
Proof. destruct a; try reflexivity; discriminate. Qed.

Lemma outside_loop (evs : list event) :
  Forall (fun a => outside_privileges a = true) (map ActLoop evs).
Proof. induction evs; constructor; [reflexivity|assumption]. Qed.

Lemma outside_register :
  Forall (fun a => outside_privileges a = true) signal_handlers_register.
Proof. repeat constructor. Qed.

Lemma main_privileges_counts (b : build) (e : main_env) (v : vars) :
  posix_priority_scheduling b = true ->
  count_actions is_cgroup_call (main_privileges b e v)
  = (if mode_eqb (move_to_root_cgroup v) MOVE_TO_ROOT_CGROUP_MODE_ON
        || (negb (set_prio v =? 0)%Z
            && mode_eqb (move_to_root_cgroup v) MOVE_TO_ROOT_CGROUP_MODE_AUTO
            && sched_fails (env_sched e))
     then 1 else 0)%nat
  /\ count_actions is_sched_call (main_privileges b e v)
     = (if (set_prio v =? 0)%Z then 0
        else if mode_eqb (move_to_root_cgroup v) MOVE_TO_ROOT_CGROUP_MODE_AUTO
                && sched_fails (env_sched e)
        then 2 else 1)%nat
  /\ count_actions is_sched_warning (main_privileges b e v)
     = (if (set_prio v =? 0)%Z then 0
        else if mode_eqb (move_to_root_cgroup v) MOVE_TO_ROOT_CGROUP_MODE_AUTO
        then (if sched_fails (env_sched e) && sched_fails (env_sched_again e) then 1 else 0)
        else (if sched_fails (env_sched e) then 1 else 0))%nat.
Proof.
  intros Hposix. unfold main_privileges. cbv zeta. rewrite Hposix.
  destruct (utils_mlockall_counts (env_mlock e)) as (M1 & M2 & M3 & _).
  destruct (utils_move_to_root_cgroup_counts (env_cgroup_on e)) as (C1 & C2 & C3 & _).
  destruct (utils_move_to_root_cgroup_counts (env_cgroup_auto e)) as (A1 & A2 & A3 & _).
  destruct (utils_set_rr_scheduler_counts 1 (env_sched e)) as (S0 & S1 & S2 & S3 & _).
  destruct (utils_set_rr_scheduler_counts 0 (env_sched e)) as (T0 & T1 & T2 & T3 & _).
  destruct (utils_set_rr_scheduler_counts 0 (env_sched_again e)) as (_ & R1 & R2 & R3 & _).
  change (1 =? 0) with false in S3. change (0 =? 0) with true in T3, R3.
  cbn [andb] in S3, T3, R3.
  destruct (move_to_root_cgroup v); cbn [mode_eqb];
    destruct (set_prio v =? 0); cbn [negb andb orb];
    rewrite ?S0, ?T0;
    destruct (sched_fails (env_sched e));
    change (-1 =? -1) with true; change (0 =? -1) with false;
    cbn [andb orb];
    rewrite ?count_actions_app, ?M1, ?M2, ?M3, ?C1, ?C2, ?C3, ?A1, ?A2, ?A3,
      ?S1, ?S2, ?S3, ?T1, ?T2, ?T3, ?R1, ?R2, ?R3;
    try (destruct (sched_fails (env_sched_again e)));
    repeat split.
Qed.

Lemma main_privileges_loop_events (b : build) (e : main_env) (v : vars) :
  loop_events (main_privileges b e v) = []
  /\ count_actions is_guest_open (main_privileges b e v) = 0%nat
  /\ count_actions is_guest_close (main_privileges b e v) = 0%nat
  /\ count_actions is_sigaction (main_privileges b e v) = 0%nat.
Proof.
  assert (H : Forall (fun a => match a with
                               | ActLoop _ | ActGuestOpen | ActGuestClose
                               | ActSigaction _ _ => False
                               | _ => True
                               end) (main_privileges b e v)).
  { unfold main_privileges. cbv zeta.
    assert (Hm : forall m, Forall (fun a => match a with
                               | ActLoop _ | ActGuestOpen | ActGuestClose
                               | ActSigaction _ _ => False
                               | _ => True
                               end) (utils_mlockall m)).
    { intros m. unfold utils_mlockall.
      destruct (env_setrlimit m =? -1); destruct (env_mlockall m =? -1);
        repeat constructor. }
    assert (Hc : forall c, Forall (fun a => match a with
                               | ActLoop _ | ActGuestOpen | ActGuestClose
                               | ActSigaction _ _ => False
                               | _ => True
                               end) (utils_move_to_root_cgroup c)).
    { intros c. unfold utils_move_to_root_cgroup, cgroup_write_pid.
      destruct (env_rt_runtime_opens c); destruct (env_procs_opens c);
        destruct (env_tasks_opens c);
        destruct (env_tasks_fprintf c <=? 0); destruct (env_tasks_fclose c =? 0);
        repeat constructor. }
    assert (Hs : forall p s x, Forall (fun a => match a with
                               | ActLoop _ | ActGuestOpen | ActGuestClose
                               | ActSigaction _ _ => False
                               | _ => True
                               end) (snd (utils_set_rr_scheduler p s x))).
    { intros p s x. unfold utils_set_rr_scheduler.
      destruct p; [|repeat constructor].
      destruct (env_max_prio x =? -1); destruct (env_setscheduler x =? -1);
        destruct (s =? 0); repeat constructor. }
    apply Forall_app. split; [apply Hm|].
    apply Forall_app. split.
    { destruct (mode_eqb _ _); [apply Hc|constructor]. }
    destruct (negb (set_prio v =? 0)); [|constructor].
    apply Forall_app. split; [apply Hs|].
    destruct (_ && _); [|constructor].
    apply Forall_app. split; [apply Hc|apply Hs]. }
  split.
  { unfold loop_events. induction H as [|a l Ha Hl IH]; [reflexivity|].
    simpl. rewrite IH. destruct a; try reflexivity. contradiction. }
  repeat split; apply count_actions_none;
    (apply Forall_impl with (2 := H); intros a Ha; destruct a; try reflexivity;
     contradiction).
Qed.

(** What [main] does when it gets as far as the loop. *)
Lemma main_shape (b : build) (e : main_env) (v : vars) (acts0 : list action) :
  main_options (env_getopt e) vars_init = Done v acts0 ->
  starts e v ->
  exists v1 a1,
    main_detach e v = Done v1 a1
    /\ (a1 = []
        \/ a1 = [ActFork; ActSetsid; ActOpenDevNull; ActDup2 0; ActDup2 1; ActDup2 2;
                 ActCloseDevNull; ActOpenlog])
    /\ foreground v1 = foreground v
    /\ timeout v1 = timeout v
    /\ threshold v1 = threshold v
    /\ max_steal_threshold_user_set v1 = max_steal_threshold_user_set v
    /\ use_guestlib v1 = use_guestlib v
    /\ set_prio v1 = set_prio v
    /\ move_to_root_cgroup v1 = move_to_root_cgroup v
    /\ main b e
       = match main_run b e v1 with
         | Stopped st =>
             Done 0
               ((a1 ++ main_privileges b e v1 ++ signal_handlers_register
                 ++ snd (guestlib_init (have_vmguestlib b) (env_guest_open e) v1))
                ++ map ActLoop (trace st)
                ++ guestlib_fini (have_vmguestlib b) (env_guest_close e) (main_vars b e v1)
                ++ (if foreground (main_vars b e v1) =? 0 then [ActCloselog] else []))
         | Exited code st =>
             Halt code
               ((a1 ++ main_privileges b e v1 ++ signal_handlers_register
                 ++ snd (guestlib_init (have_vmguestlib b) (env_guest_open e) v1))
                ++ map ActLoop (trace st))
         | Running st =>
             Pending
               ((a1 ++ main_privileges b e v1 ++ signal_handlers_register
                 ++ snd (guestlib_init (have_vmguestlib b) (env_guest_open e) v1))
                ++ map ActLoop (trace st))
         end.
Proof.
  intros Ho Hs.
  destruct (main_options_done _ _ _ _ Ho) as [-> _].
  destruct (main_detach_started e v Hs)
    as (v1 & a1 & Hd & Ha & F1 & F2 & F3 & F4 & F5 & F6 & F7 & _).
  exists v1, a1. split; [exact Hd|].
  split; [destruct Ha as [(_ & -> & _)|(_ & -> & _)]; auto|].
  repeat (split; [assumption|]).
  exact (main_started b e v v1 a1 Ho Hd).
Qed.

(** The events of the loop among the actions of a [main] that starts. *)
Lemma main_loop_events (b : build) (e : main_env) (v : vars) (acts0 : list action) :
  main_options (env_getopt e) vars_init = Done v acts0 ->
  starts e v ->
  exists v1,
    (exists a1, main_detach e v = Done v1 a1)
    /\ timeout v1 = timeout v
    /\ threshold v1 = threshold v
    /\ max_steal_threshold_user_set v1 = max_steal_threshold_user_set v
    /\ use_guestlib v1 = use_guestlib v
    /\ loop_events (actions (main b e)) = trace (final_state (main_run b e v1))
    /\ match main b e, main_run b e v1 with
       | Done r _, Stopped _ => r = 0
       | Halt code _, Exited code' _ => code = code'
       | Pending _, Running _ => True
       | _, _ => False
       end.
Proof.
  intros Ho Hs.
  destruct (main_shape b e v acts0 Ho Hs)
    as (v1 & a1 & Hd & Ha & _ & F2 & F3 & F4 & F5 & _ & _ & Hm).
  exists v1. split; [exists a1; exact Hd|]. repeat (split; [assumption|]).
  assert (Hbefore : loop_events
                      (a1 ++ main_privileges b e v1 ++ signal_handlers_register
                       ++ snd (guestlib_init (have_vmguestlib b) (env_guest_open e) v1))
                    = []).
  { rewrite !loop_events_app.
    rewrite (proj1 (main_privileges_loop_events b e v1)).
    destruct (guestlib_init_spec (have_vmguestlib b) (env_guest_open e) v1)
      as (_ & -> & _).
    destruct Ha as [->| ->]; reflexivity. }
  rewrite Hm.
  destruct (main_run b e v1) as [st|code st|st]; cbn [actions final_state];
    rewrite loop_events_app, Hbefore, ?loop_events_app, loop_events_loop; cbn [app];
    (split; [|reflexivity]); try reflexivity.
  destruct (guestlib_fini_spec (have_vmguestlib b) (env_guest_close e) (main_vars b e v1))
    as (_ & -> & _).
  destruct (foreground (main_vars b e v1) =? 0); cbn; rewrite app_nil_r; reflexivity.
Qed.

(** The first event of the loop that [main] runs. *)
Lemma main_run_starts (b : build) (e : main_env) (v1 : vars) :
  exists rest,
    trace (final_state (main_run b e v1))
    = EvLog LOG_INFO
        (MsgRunning (timeout v1)
           (if guest_used b e && (max_steal_threshold_user_set v1 =? 0)
            then Double.of_Z DEFAULT_MAX_STEAL_THRESHOLD_GL else threshold v1))
      :: rest.
Proof.
  unfold main_run, poll_run.
  destruct (poll_loop_trace (main_config (main_vars b e v1)) (env_clock_stop e)
              (env_iterations e)
              (poll_run_init (main_config (main_vars b e v1))
                 (fold_left globals_signal (env_sig_start e) globals_init)
                 (timeout (main_vars b e v1)) (env_clock_start e))) as [evs E].
  rewrite E. exists evs. cbn [poll_run_init trace app main_config max_steal_threshold].
  destruct (main_vars_spec b e v1) as (-> & _ & _ & -> & _). reflexivity.
Qed.

(** X12: once the options are read and the terminal is left (or kept), every
    line that is logged goes to one place: to stderr when the program stays
    in the foreground, to syslog when it runs in the background, there with
    its priority or with [LOG_INFO] when that is less urgent; and it is
    written when the debug level that the -d options have set allows it.
    Leaving the terminal and opening the guest library do not change that
    level. *)
Theorem log_goes_to_one_place (b : build) (e : main_env) (v0 v1 : vars)
    (acts0 a1 : list action) :
  main_options (env_getopt e) vars_init = Done v0 acts0 ->
  main_detach e v0 = Done v1 a1 ->
  log_debug (logging v1) = log_debug (logging v0)
  /\ log_to_stderr (logging v1) = (if foreground v0 =? 0 then 0 else 1)
  /\ log_to_syslog (logging v1) = (if foreground v0 =? 0 then 1 else 0)
  /\ logging (main_vars b e v1) = logging v1
  /\ forall (M : Type) (now : tm) (priority : Z) (msg : M),
       log_vprintf (logging v1) now priority msg
       = if log_shown (log_debug (logging v0)) priority then
           [if foreground v0 =? 0 then OutSyslog (Z.min priority LOG_INFO) msg
            else OutStderr (nth (Z.to_nat (tm_mon now)) log_month_str EmptyString)
                   (tm_mday now) (tm_hour now) (tm_min now) (tm_sec now) PROGRAM_NAME msg]
         else [].
Proof.
  intros Ho Hd.
  destruct (main_options_read _ _ _ Ho) as (_ & _ & _ & _ & _ & _ & _ & L1 & L2 & _).
  rewrite main_detach_cases in Hd.
  assert (H : log_debug (logging v1) = log_debug (logging v0)
              /\ log_to_stderr (logging v1) = (if foreground v0 =? 0 then 0 else 1)
              /\ log_to_syslog (logging v1) = (if foreground v0 =? 0 then 1 else 0)).
  { destruct (foreground v0 =? 0); cbn [negb] in Hd.
    - destruct (utils_tty_detach (env_detach e)); try discriminate.
      injection Hd as <- <-. cbn. auto.
    - injection Hd as <- <-. cbn. auto. }
  destruct H as (H1 & H2 & H3).
  split; [exact H1|]. split; [exact H2|]. split; [exact H3|].
  split; [exact (proj1 (proj2 (proj2 (main_vars_spec b e v1))))|].
  intros M now priority msg.
  rewrite log_vprintf_shown, H1, H2, H3.
  destruct (log_shown (log_debug (logging v0)) priority); [|reflexivity].
  destruct (foreground v0 =? 0); reflexivity.
Qed.

Lemma log_goes_to_one_place_witness :
  let e := Fixture.env [Fixture.opt "d" EmptyString; Fixture.opt "D" EmptyString] [] [] in
  let v0 :=
    set_foreground 0
      (set_logging {| log_debug := 1; log_to_syslog := 0; log_to_stderr := 0 |} vars_init) in
  let v1 :=
    set_logging {| log_debug := 1; log_to_syslog := 1; log_to_stderr := 0 |} v0 in
  let a1 := [ActFork; ActSetsid; ActOpenDevNull; ActDup2 0; ActDup2 1; ActDup2 2;
             ActCloseDevNull; ActOpenlog] in
  main_options (env_getopt e) vars_init = Done v0 []
  /\ main_detach e v0 = Done v1 a1
  /\ log_to_stderr (logging v1) = (if foreground v0 =? 0 then 0 else 1)
  /\ log_to_syslog (logging v1) = (if foreground v0 =? 0 then 1 else 0).
Proof.
  intros e v0 v1 a1.
  assert (Ho : main_options (env_getopt e) vars_init = Done v0 [])
    by (vm_compute; reflexivity).
  assert (Hd : main_detach e v0 = Done v1 a1) by (vm_compute; reflexivity).
  destruct (log_goes_to_one_place Fixture.plain e v0 v1 [] a1 Ho Hd) as (_ & H2 & H3 & _).
  split; [exact Ho|]. split; [exact Hd|]. split; [exact H2|exact H3].
Defined.

Lemma count_actions_loop (p : action -> bool) (evs : list event) :
  (forall ev, p (ActLoop ev) = false) -> count_actions p (map ActLoop evs) = 0%nat.
Proof.
  intros Hp. apply count_actions_none.
  induction evs; constructor; [apply Hp|assumption].
Qed.

(** For the actions that are only made between [utils_mlockall] and the
    second try of the scheduler, these calls are the ones that count. *)
Lemma main_count_privileges (p : action -> bool) (b : build) (e : main_env) (v : vars)
    (acts0 : list action) :
  (forall a, outside_privileges a = true -> p a = false) ->
  main_options (env_getopt e) vars_init = Done v acts0 ->
  starts e v ->
  exists v1,
    set_prio v1 = set_prio v
    /\ move_to_root_cgroup v1 = move_to_root_cgroup v
    /\ count_actions p (actions (main b e)) = count_actions p (main_privileges b e v1).
Proof.
  intros Hp Ho Hs.
  destruct (main_shape b e v acts0 Ho Hs)
    as (v1 & a1 & _ & Ha & _ & _ & _ & _ & _ & F6 & F7 & Hm).
  exists v1. split; [exact F6|]. split; [exact F7|].
  assert (Ha1 : count_actions p a1 = 0%nat).
  { apply (count_actions_outside p _ Hp). destruct Ha as [->| ->]; repeat constructor. }
  assert (Hreg : count_actions p signal_handlers_register = 0%nat)
    by (apply (count_actions_outside p _ Hp); apply outside_register).
  assert (Hg : count_actions p
                 (snd (guestlib_init (have_vmguestlib b) (env_guest_open e) v1)) = 0%nat).
  { apply (count_actions_outside p _ Hp).
    exact (proj1 (guestlib_init_spec _ _ _)). }
  assert (Hl : forall evs, count_actions p (map ActLoop evs) = 0%nat).
  { intros evs. apply (count_actions_outside p _ Hp). apply outside_loop. }
  assert (Hf : count_actions p
                 (guestlib_fini (have_vmguestlib b) (env_guest_close e) (main_vars b e v1))
               = 0%nat).
  { apply (count_actions_outside p _ Hp). exact (proj1 (guestlib_fini_spec _ _ _)). }
  assert (Hc : count_actions p
                 (if foreground (main_vars b e v1) =? 0 then [ActCloselog] else []) = 0%nat).
  { apply (count_actions_outside p _ Hp).
    destruct (foreground (main_vars b e v1) =? 0); repeat constructor. }
  rewrite Hm.
  destruct (main_run b e v1) as [st|code st|st]; cbn [actions];
    rewrite !count_actions_app, ?Ha1, ?Hreg, ?Hg, ?Hl, ?Hf, ?Hc; lia.
Qed.

(** X17: on a system with priority scheduling, a [main] that gets as far as
    the loop calls [utils_move_to_root_cgroup] once in the mode "on", never
    in the mode "off", and in the mode "auto" once if it is to set the
    scheduler and the first try fails, and not otherwise.  The scheduler is
    tried once, or twice when the first try failed in the mode "auto", and
    not at all with -p.  In the mode "auto" the first failure is not logged:
    a warning about the scheduler is logged only when the second try fails
    too. *)
Theorem cgroup_move_policy (b : build) (e : main_env) (v : vars) (acts0 : list action) :
  posix_priority_scheduling b = true ->
  main_options (env_getopt e) vars_init = Done v acts0 ->
  starts e v ->
  count_actions is_cgroup_call (actions (main b e))
  = (if mode_eqb (move_to_root_cgroup v) MOVE_TO_ROOT_CGROUP_MODE_ON
        || (negb (set_prio v =? 0)%Z
            && mode_eqb (move_to_root_cgroup v) MOVE_TO_ROOT_CGROUP_MODE_AUTO
            && sched_fails (env_sched e))
     then 1 else 0)%nat
  /\ count_actions is_sched_call (actions (main b e))
     = (if (set_prio v =? 0)%Z then 0
        else if mode_eqb (move_to_root_cgroup v) MOVE_TO_ROOT_CGROUP_MODE_AUTO
                && sched_fails (env_sched e)
        then 2 else 1)%nat
  /\ count_actions is_sched_warning (actions (main b e))
     = (if (set_prio v =? 0)%Z then 0
        else if mode_eqb (move_to_root_cgroup v) MOVE_TO_ROOT_CGROUP_MODE_AUTO
        then (if sched_fails (env_sched e) && sched_fails (env_sched_again e) then 1 else 0)
        else (if sched_fails (env_sched e) then 1 else 0))%nat.
Proof.
  intros Hposix Ho Hs.
  destruct (main_count_privileges is_cgroup_call b e v acts0 outside_not_cgroup_call Ho Hs)
    as (v1 & P1 & M1 & C1).
  destruct (main_count_privileges is_sched_call b e v acts0 outside_not_sched_call Ho Hs)
    as (v2 & P2 & M2 & C2).
  destruct (main_count_privileges is_sched_warning b e v acts0 outside_not_sched_warning
              Ho Hs) as (v3 & P3 & M3 & C3).
  rewrite C1, C2, C3.
  destruct (main_privileges_counts b e v1 Hposix) as (K1 & _).
  destruct (main_privileges_counts b e v2 Hposix) as (_ & K2 & _).
  destruct (main_privileges_counts b e v3 Hposix) as (_ & _ & K3).
  rewrite K1, K2, K3, P1, M1, P2, M2, P3, M3. repeat split.
Qed.

Lemma cgroup_move_policy_witness :
  let e := Fixture.env [] [SIGTERM] [] in
  exists v,
    posix_priority_scheduling Fixture.plain = true
    /\ main_options (env_getopt e) vars_init = Done v []
    /\ starts e v
    /\ sched_fails (env_sched e) = true
    /\ count_actions is_cgroup_call (actions (main Fixture.plain e))
       = (if mode_eqb (move_to_root_cgroup v) MOVE_TO_ROOT_CGROUP_MODE_ON
             || (negb (set_prio v =? 0)%Z
                 && mode_eqb (move_to_root_cgroup v) MOVE_TO_ROOT_CGROUP_MODE_AUTO
                 && sched_fails (env_sched e))
          then 1 else 0)%nat
    /\ move_to_root_cgroup v = MOVE_TO_ROOT_CGROUP_MODE_AUTO.
Proof.
  intros e. exists vars_init.
  assert (Ho : main_options (env_getopt e) vars_init = Done vars_init []) by reflexivity.
  assert (Hs : starts e vars_init) by (left; vm_compute; discriminate).
  destruct (cgroup_move_policy Fixture.plain e vars_init [] eq_refl Ho Hs) as (H1 & _).
  split; [reflexivity|]. split; [exact Ho|]. split; [exact Hs|].
  split; [reflexivity|]. split; [exact H1|reflexivity].
Defined.

(** A [main] whose options are fine gets as far as the loop, or ends in
    [utils_tty_detach]. *)
Lemma main_starts_or_not (b : build) (e : main_env) (v : vars) (acts0 : list action) :
  main_options (env_getopt e) vars_init = Done v acts0 ->
  starts e v
  \/ exists code a1,
       main b e = Halt code a1
       /\ loop_events a1 = []
       /\ ((code = 0 /\ a1 = [ActFork])
           \/ (code = 1 /\ exists before c, a1 = before ++ [ActErr c])).
Proof.
  intros Ho. destruct (main_options_done _ _ _ _ Ho) as [-> _].
  destruct (Z.eq_dec (foreground v) 0) as [F|F]; [|left; left; exact F].
  destruct (utils_tty_detach (env_detach e)) as [u a1|code a1|a1] eqn:Hd.
  - left. right. exact (utils_tty_detach_returns _ _ _ Hd).
  - right. exists code, a1.
    split; [|exact (utils_tty_detach_halt _ _ _ Hd)].
    apply (main_not_started b e v code a1 Ho).
    rewrite main_detach_cases, F, Hd. reflexivity.
  - exfalso. exact (utils_tty_detach_not_pending _ _ Hd).
Qed.

(** X18: [main] returns, with the value 0, only after the loop was stopped
    by a SIGINT or a SIGTERM that one of the handlers took.  When the
    process ends in [exit], the status is 0 in the parent that [fork] left
    behind, which has done nothing but fork; 1 when an option was refused or
    the terminal could not be left, after a line on stderr or the help text
    and before the loop was started; and 2 when a wait in the loop
    failed. *)
Theorem main_exit_status (b : build) (e : main_env) :
  (forall r acts,
     main b e = Done r acts ->
     r = 0
     /\ exists sig,
          In sig (env_sig_start e ++ flat_map signals_of (env_iterations e))
          /\ is_stop_signal sig = true)
  /\ (forall code acts,
        main b e = Halt code acts ->
        (code = 0 /\ acts = [ActFork])
        \/ (code = 1 /\ loop_events acts = []
            /\ exists before,
                 acts = before ++ [ActUsage] \/ exists c, acts = before ++ [ActErr c])
        \/ (code = 2 /\ exists e', In e' (env_iterations e) /\ poll_fatal e' = true)).
Proof.
  destruct (main_options (env_getopt e) vars_init) as [v acts0|code0 acts0|acts0] eqn:Ho.
  - destruct (main_starts_or_not b e v acts0 Ho) as [Hs|(code & a1 & Hm & Hl & Hc)].
    + destruct (main_loop_events b e v acts0 Ho Hs) as (v1 & _ & _ & _ & _ & _ & _ & Hr).
      split.
      * intros r acts Hm. rewrite Hm in Hr.
        destruct (main_run b e v1) as [st|code st|st] eqn:Hrun; try contradiction.
        split; [exact Hr|].
        unfold main_run, poll_run in Hrun.
        destruct (poll_loop_stopped_by_signal _ _ _ _ _ Hrun) as [Hst|(e' & Hin & Hd)].
        -- cbn [poll_run_init stop_main_loop] in Hst.
           destruct (globals_signal_fold (env_sig_start e) globals_init) as (_ & G & _).
           rewrite G in Hst.
           destruct (existsb is_stop_signal (env_sig_start e)) eqn:Hex;
             [|cbn in Hst; congruence].
           apply existsb_exists in Hex. destruct Hex as (sig & Hin & Hsig).
           exists sig. split; [apply in_or_app; left; exact Hin|exact Hsig].
        -- unfold stop_delivered in Hd. apply existsb_exists in Hd.
           destruct Hd as (sig & Hsin & Hsig).
           exists sig. split; [|exact Hsig].
           apply in_or_app. right. apply in_flat_map. exists e'. auto.
      * intros code acts Hm. rewrite Hm in Hr.
        destruct (main_run b e v1) as [st|code' st|st] eqn:Hrun; try contradiction.
        subst code'. unfold main_run, poll_run in Hrun.
        destruct (poll_loop_exited _ _ _ _ _ _ Hrun) as (-> & e' & Hin & Hf).
        right. right. split; [reflexivity|]. exists e'. auto.
    + split; [intros r acts Hm'; rewrite Hm in Hm'; discriminate|].
      intros code' acts Hm'. rewrite Hm in Hm'. injection Hm' as <- <-.
      destruct Hc as [[-> ->]|(-> & before & c & ->)]; [left; auto|].
      right. left. split; [reflexivity|]. split; [exact Hl|].
      exists before. right. exists c. reflexivity.
  - destruct (main_options_halt _ _ _ _ Ho) as (before & o & after & _ & _ & Hany).
    destruct (main_option_halt _ _ _ _ (Hany vars_init)) as (-> & Hacts & _).
    assert (Hm : main b e = Halt 1 acts0) by (unfold main; rewrite Ho; reflexivity).
    split; [intros r acts Hm'; rewrite Hm in Hm'; discriminate|].
    intros code acts Hm'. rewrite Hm in Hm'. injection Hm' as <- <-.
    right. left. split; [reflexivity|].
    destruct Hacts as [->|[c ->]].
    + split; [reflexivity|]. exists []. left. reflexivity.
    + split; [reflexivity|]. exists []. right. exists c. reflexivity.
  - exfalso. exact (main_options_pending _ _ _ Ho).
Qed.

Lemma main_count_sigaction (b : build) (e : main_env) (v : vars) (acts0 : list action) :
  main_options (env_getopt e) vars_init = Done v acts0 ->
  starts e v ->
  count_actions is_sigaction (actions (main b e)) = 3%nat
  /\ count_actions is_guest_open (actions (main b e))
     = (if have_vmguestlib b then 1 else 0)%nat
  /\ count_actions is_guest_close (actions (main b e))
     = (if guest_used b e then match main b e with Done _ _ => 1 | _ => 0 end else 0)%nat.
Proof.
  intros Ho Hs.
  destruct (main_options_read _ _ _ Ho) as (_&_&_&_&_&_&_&_&_& Huse).
  destruct (main_shape b e v acts0 Ho Hs)
    as (v1 & a1 & _ & Ha & _ & _ & _ & _ & F5 & _ & _ & Hm).
  destruct (main_privileges_loop_events b e v1) as (_ & P1 & P2 & P3).
  destruct (guestlib_init_spec (have_vmguestlib b) (env_guest_open e) v1)
    as (_ & _ & _ & _ & _ & _ & _ & G1 & G2 & G3).
  destruct (guestlib_fini_spec (have_vmguestlib b) (env_guest_close e) (main_vars b e v1))
    as (_ & _ & E1 & E2 & E3).
  assert (Huse1 : (have_vmguestlib b && negb (use_guestlib (main_vars b e v1) =? 0))%bool
                  = guest_used b e).
  { destruct (main_vars_spec b e v1) as (_ & _ & _ & _ & ->).
    rewrite F5, Huse. unfold guest_used.
    destruct (have_vmguestlib b); [|reflexivity].
    destruct (env_guest_open e =? VMGUESTLIB_ERROR_SUCCESS); reflexivity. }
  rewrite Huse1 in E1.
  assert (L : forall p evs, (forall ev, p (ActLoop ev) = false) ->
                            count_actions p (map ActLoop evs) = 0%nat)
    by (intros p evs Hp; apply count_actions_loop; exact Hp).
  rewrite Hm.
  destruct (main_run b e v1) as [st|code st|st]; cbn [actions];
    rewrite !count_actions_app, ?P1, ?P2, ?P3, ?G1, ?G2, ?G3, ?E1, ?E2, ?E3,
      ?(L is_sigaction), ?(L is_guest_open), ?(L is_guest_close) by reflexivity;
    destruct Ha as [->| ->];
    destruct (foreground (main_vars b e v1) =? 0);
    destruct (have_vmguestlib b); destruct (guest_used b e);
    cbn; repeat split.
Qed.

(** X19: when the options are fine and the program stays in the foreground,
    or has left the terminal, [main] always gets to the loop: it registers
    its three handlers and starts [poll_run] with the timeout of the command
    line, and if the process ends in [exit] then with the status 2 of a
    failed wait.  What [setrlimit], [mlockall], the scheduler calls and the
    writing into the cgroup files return never ends the program, and changes
    nothing of what the loop does. *)
Theorem startup_failures_are_not_fatal (b : build) (e : main_env) (v : vars)
    (acts0 : list action)
    (m : mlock_env) (c_on c_auto : cgroup_env) (s s_again : sched_env) :
  main_options (env_getopt e) vars_init = Done v acts0 ->
  starts e v ->
  (exists thr rest,
     loop_events (actions (main b e))
     = EvLog LOG_INFO (MsgRunning (timeout v) thr) :: rest)
  /\ (forall code acts, main b e = Halt code acts -> code = 2)
  /\ count_actions is_sigaction (actions (main b e)) = 3%nat
  /\ loop_events (actions (main b (with_privileges m c_on s c_auto s_again e)))
     = loop_events (actions (main b e)).
Proof.
  intros Ho Hs.
  destruct (main_loop_events b e v acts0 Ho Hs)
    as (v1 & [a1 Hd] & F2 & F3 & F4 & _ & Hl & Hr).
  split.
  { destruct (main_run_starts b e v1) as [rest E].
    rewrite Hl, E, F2. eexists. eexists. reflexivity. }
  split.
  { intros code acts Hm. rewrite Hm in Hr.
    destruct (main_run b e v1) as [st|code' st|st] eqn:Hrun; try contradiction.
    subst code'. unfold main_run, poll_run in Hrun.
    exact (proj1 (poll_loop_exited _ _ _ _ _ _ Hrun)). }
  split; [exact (proj1 (main_count_sigaction b e v acts0 Ho Hs))|].
  assert (Ho' : main_options (env_getopt (with_privileges m c_on s c_auto s_again e))
                  vars_init = Done v acts0) by exact Ho.
  assert (Hs' : starts (with_privileges m c_on s c_auto s_again e) v) by exact Hs.
  destruct (main_loop_events b _ v acts0 Ho' Hs')
    as (v1' & [a1' Hd'] & _ & _ & _ & _ & Hl' & _).
  assert (Ev : v1' = v1).
  { change (main_detach (with_privileges m c_on s c_auto s_again e) v)
      with (main_detach e v) in Hd'.
    congruence. }
  subst v1'. rewrite Hl', Hl. reflexivity.
Qed.

Lemma startup_failures_are_not_fatal_witness :
  let e := Fixture.env [] [SIGTERM] [] in
  let failing := {| env_setrlimit := -1; env_mlockall := -1 |} in
  main_options (env_getopt e) vars_init = Done vars_init []
  /\ starts e vars_init
  /\ loop_events
       (actions (main Fixture.plain
                   (with_privileges failing Fixture.cgroup_v1 Fixture.sched_eperm
                      Fixture.cgroup_v1 Fixture.sched_eperm e)))
     = loop_events (actions (main Fixture.plain e)).
Proof.
  intros e failing.
  assert (Ho : main_options (env_getopt e) vars_init = Done vars_init []) by reflexivity.
  assert (Hs : starts e vars_init) by (left; vm_compute; discriminate).
  destruct (startup_failures_are_not_fatal Fixture.plain e vars_init [] failing
              Fixture.cgroup_v1 Fixture.cgroup_v1 Fixture.sched_eperm Fixture.sched_eperm
              Ho Hs) as (_ & _ & _ & H).
  split; [exact Ho|]. split; [exact Hs|exact H].
Defined.

(** X20: a [main] that gets to the loop tries to open the guest library once
    if it was built with it, and never otherwise.  When the handle is opened
    the loop reads the steal time from the library, and its threshold is 100
    unless -m was given; otherwise it reads /proc/stat, and the threshold is
    the one of the options (10 without -m).  The handle is closed once when
    [main] returns, and it is not closed when the process ends in the loop
    with [exit]. *)
Theorem guest_library_threshold (b : build) (e : main_env) (v : vars)
    (acts0 : list action) :
  main_options (env_getopt e) vars_init = Done v acts0 ->
  starts e v ->
  (exists rest,
     loop_events (actions (main b e))
     = EvLog LOG_INFO
         (MsgRunning (timeout v)
            (if guest_used b e && (max_steal_threshold_user_set v =? 0)
             then Double.of_Z DEFAULT_MAX_STEAL_THRESHOLD_GL else threshold v))
       :: rest)
  /\ (forall v1 a1,
        main_detach e v = Done v1 a1 ->
        use_vmguestlib_stealtime (main_config (main_vars b e v1)) = guest_used b e)
  /\ count_actions is_guest_open (actions (main b e))
     = (if have_vmguestlib b then 1 else 0)%nat
  /\ count_actions is_guest_close (actions (main b e))
     = (if guest_used b e then match main b e with Done _ _ => 1 | _ => 0 end else 0)%nat.
Proof.
  intros Ho Hs.
  destruct (main_options_read _ _ _ Ho) as (_&_&_&_&_&_&_&_&_& Huse).
  destruct (main_loop_events b e v acts0 Ho Hs)
    as (v1 & [a1 Hd] & F2 & F3 & F4 & F5 & Hl & _).
  split.
  { destruct (main_run_starts b e v1) as [rest E].
    rewrite Hl, E, F2, F3, F4. exists rest. reflexivity. }
  split.
  { intros v1' a1' Hd'. assert (v1' = v1) by congruence. subst v1'.
    unfold main_config. cbn [use_vmguestlib_stealtime].
    destruct (main_vars_spec b e v1) as (_ & _ & _ & _ & ->).
    rewrite F5, Huse. destruct (guest_used b e); reflexivity. }
  destruct (main_count_sigaction b e v acts0 Ho Hs) as (_ & H2 & H3).
  split; assumption.
Qed.

Lemma guest_library_threshold_witness :
  let e := Fixture.env [] [SIGTERM] [] in
  main_options (env_getopt e) vars_init = Done vars_init []
  /\ starts e vars_init
  /\ guest_used Fixture.with_guestlib e = true
  /\ count_actions is_guest_close (actions (main Fixture.with_guestlib e))
     = (if guest_used Fixture.with_guestlib e
        then match main Fixture.with_guestlib e with Done _ _ => 1 | _ => 0 end
        else 0)%nat.
Proof.
  intros e.
  assert (Ho : main_options (env_getopt e) vars_init = Done vars_init []) by reflexivity.
  assert (Hs : starts e vars_init) by (left; vm_compute; discriminate).
  destruct (guest_library_threshold Fixture.with_guestlib e vars_init [] Ho Hs)
    as (_ & _ & _ & H).
  split; [exact Ho|]. split; [exact Hs|]. split; [reflexivity|exact H].
Defined.

(** X21: whatever the command line, as soon as its options are accepted:
    every call of [poll] that [main] makes is given a third of the timeout
    of the last -t (of 200 without one), in milliseconds, which lies between
    0 and 1200000; and every "Not scheduled" line reports that timeout, in
    nanoseconds, as the threshold, and a time above it. *)
Theorem command_line_sets_wait_and_gap (b : build) (e : main_env) (v : vars)
    (acts0 : list action) :
  main_options (env_getopt e) vars_init = Done v acts0 ->
  match last_arg "t" (env_getopt e) with
  | None => timeout v = DEFAULT_TIMEOUT
  | Some arg => util_strtonum arg 1 MAX_TIMEOUT = Some (timeout v)
  end
  /\ 0 <= timeout v / 3 <= 1200000
  /\ Forall (fun a => a = timeout v / 3) (poll_args (loop_events (actions (main b e))))
  /\ Forall (overrun_line (timeout v * NO_NS_IN_MSEC)) (loop_events (actions (main b e))).
Proof.
  intros Ho.
  destruct (main_options_read _ _ _ Ho) as (Ht & Hr & _).
  split; [exact Ht|].
  assert (Hthird : 0 <= timeout v / 3 <= 1200000).
  { unfold MAX_TIMEOUT in Hr. split.
    - apply Z.div_pos; lia.
    - apply Z.div_le_upper_bound; lia. }
  split; [exact Hthird|].
  destruct (main_starts_or_not b e v acts0 Ho) as [Hs|(code & a1 & Hm & Hl & _)].
  2:{ rewrite Hm. cbn [actions]. rewrite Hl. split; constructor. }
  destruct (main_loop_events b e v acts0 Ho Hs) as (v1 & _ & F2 & _ & _ & _ & Hl & _).
  rewrite Hl. unfold main_run, poll_run.
  destruct (main_vars_spec b e v1) as (-> & _).
  rewrite F2.
  split.
  - apply poll_loop_poll_args; [lia| |constructor].
    cbn [poll_run_init poll_timeout].
    apply wrap_int_small. lia.
  - assert (Hgap : tv_max_allowed_diff
                     (poll_run_init (main_config (main_vars b e v1))
                        (fold_left globals_signal (env_sig_start e) globals_init)
                        (timeout v) (env_clock_start e))
                   = timeout v * NO_NS_IN_MSEC).
    { cbn [poll_run_init tv_max_allowed_diff]. apply wrap64_small.
      unfold NO_NS_IN_MSEC, MAX_TIMEOUT in *. lia. }
    rewrite <- Hgap. apply poll_loop_overrun_lines.
    cbn [poll_run_init trace]. repeat constructor.
Qed.

Lemma command_line_sets_wait_and_gap_witness :
  let e := Fixture.env [Fixture.opt "t" "300"] [] [Sample.late; Sample.interrupted] in
  let v := set_timeout 300 vars_init in
  main_options (env_getopt e) vars_init = Done v []
  /\ Forall (fun a => a = timeout v / 3)
       (poll_args (loop_events (actions (main Fixture.plain e))))
  /\ poll_args (loop_events (actions (main Fixture.plain e))) = [100; 100].
Proof.
  intros e v.
  assert (Ho : main_options (env_getopt e) vars_init = Done v [])
    by (vm_compute; reflexivity).
  destruct (command_line_sets_wait_and_gap Fixture.plain e v [] Ho) as (_ & _ & H & _).
  split; [exact Ho|]. split; [exact H|]. vm_compute. reflexivity.
Defined.

(** X22: a SIGINT or SIGTERM that is handled after the handlers are
    registered and before the loop starts is not lost: [poll_run] finds the
    flag up at its first test, calls [poll] not once, prints its first line,
    "Main poll loop stopped" and the statistics, with the counter at 0, and
    [main] returns 0. *)
Theorem stop_before_the_loop (b : build) (e : main_env) (v : vars) (acts0 : list action) :
  main_options (env_getopt e) vars_init = Done v acts0 ->
  starts e v ->
  existsb is_stop_signal (env_sig_start e) = true ->
  (exists acts, main b e = Done 0 acts)
  /\ poll_args (loop_events (actions (main b e))) = []
  /\ exists thr,
       loop_events (actions (main b e))
       = [EvLog LOG_INFO (MsgRunning (timeout v) thr);
          EvLog LOG_INFO MsgStopped;
          EvLog LOG_INFO
            (MsgStatistics
               (wrap64 (nano_current_get (env_clock_stop e)
                        - nano_current_get (env_clock_start e))) 0)].
Proof.
  intros Ho Hs Hstop.
  destruct (main_loop_events b e v acts0 Ho Hs) as (v1 & _ & F2 & _ & _ & _ & Hl & Hr).
  assert (Hrun : main_run b e v1
                 = Stopped (poll_run_finish (env_clock_stop e)
                              (poll_run_init (main_config (main_vars b e v1))
                                 (fold_left globals_signal (env_sig_start e) globals_init)
                                 (timeout (main_vars b e v1)) (env_clock_start e)))).
  { unfold main_run, poll_run. apply poll_loop_stopped.
    cbn [poll_run_init stop_main_loop].
    destruct (globals_signal_fold (env_sig_start e) globals_init) as (_ & G & _).
    rewrite G, Hstop. discriminate. }
  rewrite Hrun in Hr, Hl. cbn [final_state] in Hl.
  assert (Hev : loop_events (actions (main b e))
                = [EvLog LOG_INFO
                     (MsgRunning (timeout v) (max_steal_threshold (main_config (main_vars b e v1))));
                   EvLog LOG_INFO MsgStopped;
                   EvLog LOG_INFO
                     (MsgStatistics
                        (wrap64 (nano_current_get (env_clock_stop e)
                                 - nano_current_get (env_clock_start e))) 0)]).
  { rewrite Hl.
    pose proof (poll_run_finish_spec (env_clock_stop e)
                  (poll_run_init (main_config (main_vars b e v1))
                     (fold_left globals_signal (env_sig_start e) globals_init)
                     (timeout (main_vars b e v1)) (env_clock_start e))) as F.
    cbv zeta in F. destruct F as (_ & _ & Ftr). rewrite Ftr.
    unfold finish_events. cbn [poll_run_init trace tv_start times_not_scheduled app].
    destruct (globals_signal_fold (env_sig_start e) globals_init) as (-> & _).
    destruct (main_vars_spec b e v1) as (-> & _). rewrite F2. reflexivity. }
  split.
  { destruct (main b e) as [r acts|code acts|acts]; try contradiction.
    subst r. exists acts. reflexivity. }
  rewrite Hev. split; [reflexivity|]. eexists. reflexivity.
Qed.

Lemma stop_before_the_loop_witness :
  let e := Fixture.env [] [SIGUSR1; SIGTERM] [Sample.late] in
  main_options (env_getopt e) vars_init = Done vars_init []
  /\ starts e vars_init
  /\ existsb is_stop_signal (env_sig_start e) = true
  /\ poll_args (loop_events (actions (main Fixture.plain e))) = [].
Proof.
  intros e.
  assert (Ho : main_options (env_getopt e) vars_init = Done vars_init []) by reflexivity.
  assert (Hs : starts e vars_init) by (left; vm_compute; discriminate).
  assert (Hx : existsb is_stop_signal (env_sig_start e) = true) by reflexivity.
  destruct (stop_before_the_loop Fixture.plain e vars_init [] Ho Hs Hx) as (_ & H & _).
  split; [exact Ho|]. split; [exact Hs|]. split; [exact Hx|exact H].
Defined.
